(** * Pose-Animator: the Artboard raster canvas controller

    A shallow embedding of [src/components/Artboard.tsx]: the React
    component that owns a 512x256 canvas, turns pointer drags into strokes,
    keeps an undo/redo history of PNG snapshots and pastes uploaded or
    generated pose images with aspect-preserving letterboxing.

    Modelling choices.
    - Canvas and image dimensions and brush widths are integers ([Z]).  The
      placement of a pasted image is computed, as JavaScript does, in IEEE
      binary64 ([PrimFloat.float]); an argument of [drawImage] is a [Num]:
      an integer written as such in the source, or a computed binary64.
      Pointer coordinates are rationals ([Q]): mouse offsets are whole
      numbers, whose sums and halves binary64 holds exactly.
    - The bitmap of the canvas is a display list ([Surface]): the paint
      operations applied since the last full-canvas fill or clear.  Equal
      display lists denote equal pixels.
    - Component state ([useState]), refs ([useRef]) and the callbacks that
      are still waiting to run (promise continuations, [FileReader.onloadend],
      [Image.onload]) are fields of one [State] record.  A waiting callback
      carries the [history] and [historyIndex] of the render that created it,
      exactly as the JavaScript closure does.
    - One [step] is: run an event handler to completion, then re-render and
      run the effects whose dependencies changed. *)

From Stdlib Require Import ZArith QArith List Ascii String Bool Lia.
From Stdlib Require PrimFloat SpecFloat FloatOps.
Import ListNotations.
Open Scope string_scope.
Open Scope list_scope.
Open Scope Z_scope.

Set Implicit Arguments.

(** ** Constants of the component *)

Inductive InputMode := ModeDraw | ModeUpload | ModePrompt.

Module BRUSH_SIZES.
Definition Small : Z := 3.
Definition Medium : Z := 8.
Definition Large : Z := 15.
End BRUSH_SIZES.

Definition COLORS : list string :=
  ["#000000"; "#EF4444"; "#22C55E"; "#3B82F6"; "#EAB308"; "#A855F7"].

Definition InputMode_eqb (a b : InputMode) : bool :=
  match a, b with
  | ModeDraw, ModeDraw | ModeUpload, ModeUpload | ModePrompt, ModePrompt => true
  | _, _ => false
  end.

(** ** The canvas *)

Inductive LineCap := CapButt | CapRound | CapSquare.
Inductive LineJoin := JoinMiter | JoinRound | JoinBevel.

(** Commands accumulated by the 2D context between [beginPath] calls. *)
Inductive PathCmd :=
| MoveTo (x y : Q)
| LineTo (x y : Q)
| QuadraticCurveTo (cpx cpy x y : Q)
| ClosePath.

(** A JavaScript number handed to [drawImage]: an integer ([0],
    [canvas.width]) or the binary64 result of a computation. *)
Inductive Num :=
| Int (z : Z)
| Dbl (f : PrimFloat.float).

Definition is_int (n : Num) (z : Z) : bool :=
  match n with
  | Int z' => z' =? z
  | Dbl _ => false
  end.

(** [Surface] is the canvas bitmap; [Url] is a JavaScript string used as an
    image source or returned by [getImageData]: free text (an uploaded file's
    data URL, the service's result, the empty string) or the PNG data URL
    that [canvas.toDataURL('image/png')] produced for a bitmap. *)
Inductive Surface :=
| Transparent
| Filled (color : string)
| Stroked (under : Surface) (path : list PathCmd)
          (style : string) (lwidth : Z) (cap : LineCap) (join : LineJoin)
| Pasted (under : Surface) (src : Url) (iw ih : Z) (dx dy dw dh : Num)
with Url :=
| Text (s : string)
| PngOf (w h : Z) (pixels : Surface).

Record Image := mkImage {
  img_width : Z;
  img_height : Z;
  img_src : Url
}.

Record Context2D := mkContext {
  strokeStyle : string;
  lineWidth : Z;
  lineCap : LineCap;
  lineJoin : LineJoin;
  fillStyle : string;
  currentPath : list PathCmd
}.

Record CanvasEl := mkCanvas {
  width : Z;
  height : Z;
  context2d : option Context2D;   (* getContext('2d'), null when unsupported *)
  bitmap : Surface
}.

(** A context as the browser creates it. *)
Definition fresh_context : Context2D :=
  mkContext "#000000" 1 CapButt JoinMiter "#000000" [].

(** The element of the JSX: [<canvas width="512" height="256">]. *)
Definition fresh_canvas : CanvasEl :=
  mkCanvas 512 256 (Some fresh_context) Transparent.

Definition with_context (f : Context2D -> Context2D) (cv : CanvasEl) : CanvasEl :=
  match context2d cv with
  | Some c => mkCanvas (width cv) (height cv) (Some (f c)) (bitmap cv)
  | None => cv
  end.

Definition with_bitmap (b : Surface) (cv : CanvasEl) : CanvasEl :=
  mkCanvas (width cv) (height cv) (context2d cv) b.

Definition set_strokeStyle (v : string) (c : Context2D) : Context2D :=
  mkContext v (lineWidth c) (lineCap c) (lineJoin c) (fillStyle c) (currentPath c).
Definition set_lineWidth (v : Z) (c : Context2D) : Context2D :=
  mkContext (strokeStyle c) v (lineCap c) (lineJoin c) (fillStyle c) (currentPath c).
Definition set_lineCap (v : LineCap) (c : Context2D) : Context2D :=
  mkContext (strokeStyle c) (lineWidth c) v (lineJoin c) (fillStyle c) (currentPath c).
Definition set_lineJoin (v : LineJoin) (c : Context2D) : Context2D :=
  mkContext (strokeStyle c) (lineWidth c) (lineCap c) v (fillStyle c) (currentPath c).
Definition set_fillStyle (v : string) (c : Context2D) : Context2D :=
  mkContext (strokeStyle c) (lineWidth c) (lineCap c) (lineJoin c) v (currentPath c).
Definition set_currentPath (v : list PathCmd) (c : Context2D) : Context2D :=
  mkContext (strokeStyle c) (lineWidth c) (lineCap c) (lineJoin c) (fillStyle c) v.

(** [context.beginPath()], [moveTo], [lineTo], [quadraticCurveTo], [closePath]. *)
Definition beginPath (c : Context2D) : Context2D := set_currentPath [] c.
Definition addToPath (cmd : PathCmd) (c : Context2D) : Context2D :=
  set_currentPath (currentPath c ++ [cmd]) c.

(** [context.fillRect(0, 0, canvas.width, canvas.height)]: every pixel takes
    the fill colour. *)
Definition fillRect_canvas (cv : CanvasEl) : CanvasEl :=
  match context2d cv with
  | Some c => with_bitmap (Filled (fillStyle c)) cv
  | None => cv
  end.

(** [context.clearRect(0, 0, canvas.width, canvas.height)]. *)
Definition clearRect_canvas (cv : CanvasEl) : CanvasEl :=
  match context2d cv with
  | Some _ => with_bitmap Transparent cv
  | None => cv
  end.

(** [context.stroke()]: paints the whole current path with the styles the
    context holds at this moment. *)
Definition stroke (cv : CanvasEl) : CanvasEl :=
  match context2d cv with
  | Some c =>
      with_bitmap (Stroked (bitmap cv) (currentPath c)
                     (strokeStyle c) (lineWidth c) (lineCap c) (lineJoin c)) cv
  | None => cv
  end.

(** [context.drawImage(img, dx, dy, dw, dh)].  A PNG snapshot of a canvas of
    the same size drawn over the whole cleared canvas reproduces the pixels
    it encodes; every other paste is recorded as such. *)
Definition drawImage (img : Image) (dx dy dw dh : Num) (cv : CanvasEl) : CanvasEl :=
  match context2d cv with
  | Some _ =>
      match bitmap cv, img_src img with
      | Transparent, PngOf w h px =>
          if (w =? width cv) && (h =? height cv)
             && is_int dx 0 && is_int dy 0
             && is_int dw (width cv) && is_int dh (height cv)
          then with_bitmap px cv
          else with_bitmap (Pasted Transparent (img_src img)
                              (img_width img) (img_height img) dx dy dw dh) cv
      | under, src =>
          with_bitmap (Pasted under src (img_width img) (img_height img)
                         dx dy dw dh) cv
      end
  | None => cv
  end.

(** [canvas.toDataURL('image/png')]. *)
Definition toDataURL (cv : CanvasEl) : Url :=
  PngOf (width cv) (height cv) (bitmap cv).

(** ** Aspect-preserving placement (the body of [img.onload] in
    [loadPoseImageOntoCanvas]) *)

(** The arithmetic of JavaScript numbers: IEEE binary64. *)
Module Binary64.
Import PrimFloat.
Definition number := float.
(** The Number value of an integer: the nearest binary64, ties to even
    (53 bits of precision, exponents below 1024).  Canvas and image sizes
    are unsigned 32-bit integers in the DOM, so each is exactly a binary64. *)
Definition of_Z (z : Z) : number :=
  FloatOps.SF2Prim (SpecFloat.binary_normalize 53 1024 z 0 false).
Definition add : number -> number -> number := PrimFloat.add.
Definition sub : number -> number -> number := PrimFloat.sub.
Definition mul : number -> number -> number := PrimFloat.mul.
Definition div : number -> number -> number := PrimFloat.div.
(** [a > b]; false when either side is NaN. *)
Definition gt (a b : number) : bool := PrimFloat.ltb b a.
Definition two : number := 2%float.
End Binary64.

Record Placement := mkPlacement {
  p_dx : Binary64.number;
  p_dy : Binary64.number;
  drawWidth : Binary64.number;
  drawHeight : Binary64.number
}.

Definition placement (canvas_width canvas_height img_w img_h : Z) : Placement :=
  let canvasAspect := Binary64.div (Binary64.of_Z canvas_width) (Binary64.of_Z canvas_height) in
  let imgAspect := Binary64.div (Binary64.of_Z img_w) (Binary64.of_Z img_h) in
  let dims :=
    if Binary64.gt canvasAspect imgAspect
    then (let dH := Binary64.of_Z canvas_height in (Binary64.mul dH imgAspect, dH))
    else (let dW := Binary64.of_Z canvas_width in (dW, Binary64.div dW imgAspect)) in
  let dW := fst dims in
  let dH := snd dims in
  mkPlacement
    (Binary64.div (Binary64.sub (Binary64.of_Z canvas_width) dW) Binary64.two)
    (Binary64.div (Binary64.sub (Binary64.of_Z canvas_height) dH) Binary64.two)
    dW dH.

(** ** Component state *)

(** What a callback created during a render sees of the history: the
    [history] and [historyIndex] constants of that render ([saveState] and
    [restoreCanvasFromHistory] are [useCallback]s over them). *)
Record Closure := mkClosure {
  c_history : list Url;
  c_historyIndex : Z
}.

(** Callbacks waiting for the browser or the network. *)
Inductive Task :=
| PoseRequest (promptText : string) (env : Closure)  (* await generatePoseFromPrompt *)
| FileRead (result : Url) (env : Closure)            (* reader.onloadend *)
| PoseImageLoad (src : Url) (env : Closure)          (* img.onload of loadPoseImageOntoCanvas *)
| RestoreImageLoad (src : Url).                      (* img.onload of restoreCanvasFromHistory *)

Record State := mkState {
  canvasRef : option CanvasEl;
  lastPointRef : option (Q * Q);
  isDrawing : bool;
  mode : InputMode;
  brushColor : string;
  brushSize : Z;
  isSmoothing : bool;
  history : list Url;
  historyArray : nat;     (* identity of the array object held in [history] *)
  historyIndex : Z;
  prompt : string;
  isGeneratingPose : bool;
  errorMessage : option string;
  pending : list Task
}.

Definition set_canvasRef (v : option CanvasEl) (s : State) : State :=
  mkState v (lastPointRef s) (isDrawing s) (mode s) (brushColor s) (brushSize s)
    (isSmoothing s) (history s) (historyArray s) (historyIndex s) (prompt s)
    (isGeneratingPose s) (errorMessage s) (pending s).
Definition set_lastPointRef (v : option (Q * Q)) (s : State) : State :=
  mkState (canvasRef s) v (isDrawing s) (mode s) (brushColor s) (brushSize s)
    (isSmoothing s) (history s) (historyArray s) (historyIndex s) (prompt s)
    (isGeneratingPose s) (errorMessage s) (pending s).
Definition setIsDrawing (v : bool) (s : State) : State :=
  mkState (canvasRef s) (lastPointRef s) v (mode s) (brushColor s) (brushSize s)
    (isSmoothing s) (history s) (historyArray s) (historyIndex s) (prompt s)
    (isGeneratingPose s) (errorMessage s) (pending s).
Definition setMode (v : InputMode) (s : State) : State :=
  mkState (canvasRef s) (lastPointRef s) (isDrawing s) v (brushColor s) (brushSize s)
    (isSmoothing s) (history s) (historyArray s) (historyIndex s) (prompt s)
    (isGeneratingPose s) (errorMessage s) (pending s).
Definition setBrushColor (v : string) (s : State) : State :=
  mkState (canvasRef s) (lastPointRef s) (isDrawing s) (mode s) v (brushSize s)
    (isSmoothing s) (history s) (historyArray s) (historyIndex s) (prompt s)
    (isGeneratingPose s) (errorMessage s) (pending s).
Definition setBrushSize (v : Z) (s : State) : State :=
  mkState (canvasRef s) (lastPointRef s) (isDrawing s) (mode s) (brushColor s) v
    (isSmoothing s) (history s) (historyArray s) (historyIndex s) (prompt s)
    (isGeneratingPose s) (errorMessage s) (pending s).
Definition setIsSmoothing (v : bool) (s : State) : State :=
  mkState (canvasRef s) (lastPointRef s) (isDrawing s) (mode s) (brushColor s)
    (brushSize s) v (history s) (historyArray s) (historyIndex s) (prompt s)
    (isGeneratingPose s) (errorMessage s) (pending s).
(** [setHistory] always receives a freshly built array. *)
Definition setHistory (v : list Url) (s : State) : State :=
  mkState (canvasRef s) (lastPointRef s) (isDrawing s) (mode s) (brushColor s)
    (brushSize s) (isSmoothing s) v (S (historyArray s)) (historyIndex s) (prompt s)
    (isGeneratingPose s) (errorMessage s) (pending s).
Definition setHistoryIndex (v : Z) (s : State) : State :=
  mkState (canvasRef s) (lastPointRef s) (isDrawing s) (mode s) (brushColor s)
    (brushSize s) (isSmoothing s) (history s) (historyArray s) v (prompt s)
    (isGeneratingPose s) (errorMessage s) (pending s).
Definition setPrompt (v : string) (s : State) : State :=
  mkState (canvasRef s) (lastPointRef s) (isDrawing s) (mode s) (brushColor s)
    (brushSize s) (isSmoothing s) (history s) (historyArray s) (historyIndex s) v
    (isGeneratingPose s) (errorMessage s) (pending s).
Definition setIsGeneratingPose (v : bool) (s : State) : State :=
  mkState (canvasRef s) (lastPointRef s) (isDrawing s) (mode s) (brushColor s)
    (brushSize s) (isSmoothing s) (history s) (historyArray s) (historyIndex s)
    (prompt s) v (errorMessage s) (pending s).
Definition setErrorMessage (v : option string) (s : State) : State :=
  mkState (canvasRef s) (lastPointRef s) (isDrawing s) (mode s) (brushColor s)
    (brushSize s) (isSmoothing s) (history s) (historyArray s) (historyIndex s)
    (prompt s) (isGeneratingPose s) v (pending s).
Definition set_pending (v : list Task) (s : State) : State :=
  mkState (canvasRef s) (lastPointRef s) (isDrawing s) (mode s) (brushColor s)
    (brushSize s) (isSmoothing s) (history s) (historyArray s) (historyIndex s)
    (prompt s) (isGeneratingPose s) (errorMessage s) v.

Definition enqueue (t : Task) (s : State) : State :=
  set_pending (pending s ++ [t]) s.

Definition closure_of (s : State) : Closure :=
  mkClosure (history s) (historyIndex s).

(** [canvasRef.current?.getContext('2d')] *)
Definition getContext (s : State) : option Context2D :=
  match canvasRef s with
  | Some canvas => context2d canvas
  | None => None
  end.

(** [a.slice(0, e)] of JavaScript: a negative end counts from the back. *)
Definition slice0 (A : Type) (a : list A) (e : Z) : list A :=
  if e <? 0
  then firstn (Z.to_nat (Z.max (Z.of_nat (List.length a) + e) 0)) a
  else firstn (Z.to_nat e) a.

(** [a[i]]: [undefined] outside the array. *)
Definition js_index (A : Type) (a : list A) (i : Z) : option A :=
  if i <? 0 then None else nth_error a (Z.to_nat i).

(** ** Canvas and history logic *)

Definition saveState (env : Closure) (s : State) : State :=
  match canvasRef s with
  | None => s
  | Some canvas =>
      let url := toDataURL canvas in
      let newHistory := slice0 (c_history env) (c_historyIndex env + 1) ++ [url] in
      setHistoryIndex (Z.of_nat (List.length newHistory) - 1) (setHistory newHistory s)
  end.

Definition restoreCanvasFromHistory (env : Closure) (s : State) : State :=
  match canvasRef s, getContext s with
  | Some _, Some _ =>
      if (Nat.eqb (List.length (c_history env)) 0) || (c_historyIndex env <? 0) then s
      else
        let url := match js_index (c_history env) (c_historyIndex env) with
                   | Some u => u
                   | None => Text "undefined"
                   end in
        enqueue (RestoreImageLoad url) s
  | _, _ => s
  end.

(** [img.onload] of [restoreCanvasFromHistory]. *)
Definition restore_onload (img : Image) (s : State) : State :=
  match canvasRef s with
  | Some canvas =>
      set_canvasRef
        (Some (drawImage img (Int 0) (Int 0) (Int (width canvas)) (Int (height canvas))
                 (clearRect_canvas canvas))) s
  | None => s
  end.

Definition initializeCanvas (s : State) : State :=
  match canvasRef s with
  | Some canvas =>
      match context2d canvas with
      | Some _ =>
          let canvas' := fillRect_canvas (with_context (set_fillStyle "white") canvas) in
          let initialUrl := toDataURL canvas' in
          setHistoryIndex 0 (setHistory [initialUrl] (set_canvasRef (Some canvas') s))
      | None => s
      end
  | None => s
  end.

(** ** Drawing logic and effects *)

(** The effect over [brushColor, brushSize]; the SVG cursor it also builds is
    presentational and left out. *)
Definition brushEffect (s : State) : State :=
  match canvasRef s with
  | Some canvas =>
      match context2d canvas with
      | Some _ =>
          set_canvasRef
            (Some (with_context
                     (fun c => set_lineJoin JoinRound
                                 (set_lineCap CapRound
                                    (set_lineWidth (brushSize s)
                                       (set_strokeStyle (brushColor s) c))))
                     canvas)) s
      | None => s
      end
  | None => s
  end.

Definition startDrawing (offsetX offsetY : Q) (s : State) : State :=
  match canvasRef s with
  | Some canvas =>
      match context2d canvas with
      | Some _ =>
          if negb (InputMode_eqb (mode s) ModeDraw) then s
          else
            let canvas' :=
              with_context (fun c => addToPath (MoveTo offsetX offsetY) (beginPath c))
                canvas in
            set_lastPointRef (Some (offsetX, offsetY))
              (setIsDrawing true (set_canvasRef (Some canvas') s))
      | None => s
      end
  | None => s
  end.

Definition draw (offsetX offsetY : Q) (s : State) : State :=
  match isDrawing s, lastPointRef s, InputMode_eqb (mode s) ModeDraw with
  | true, Some (lastX, lastY), true =>
      match canvasRef s with
      | Some canvas =>
          match context2d canvas with
          | Some _ =>
              let segment :=
                if isSmoothing s
                then QuadraticCurveTo lastX lastY
                       ((lastX + offsetX) / 2)%Q ((lastY + offsetY) / 2)%Q
                else LineTo offsetX offsetY in
              let canvas' := stroke (with_context (addToPath segment) canvas) in
              set_lastPointRef (Some (offsetX, offsetY))
                (set_canvasRef (Some canvas') s)
          | None => s
          end
      | None => s
      end
  | _, _, _ => s
  end.

Definition stopDrawing (s : State) : State :=
  if negb (isDrawing s) then s
  else
    match canvasRef s with
    | Some canvas =>
        match context2d canvas with
        | Some _ =>
            let canvas' := with_context (addToPath ClosePath) canvas in
            saveState (closure_of s)
              (set_lastPointRef None
                 (setIsDrawing false (set_canvasRef (Some canvas') s)))
        | None => s
        end
    | None => s
    end.

(** ** Pose loading logic *)

Definition loadPoseImageOntoCanvas (env : Closure) (base64Image : Url) (s : State)
  : State :=
  match canvasRef s, getContext s with
  | Some _, Some _ => enqueue (PoseImageLoad base64Image env) s
  | _, _ => s
  end.

(** [img.onload] of [loadPoseImageOntoCanvas]; [saveState] is the one of the
    render in which [loadPoseImageOntoCanvas] was created. *)
Definition pose_onload (env : Closure) (img : Image) (s : State) : State :=
  match canvasRef s with
  | Some canvas =>
      let white := fillRect_canvas (with_context (set_fillStyle "white") canvas) in
      let p := placement (width canvas) (height canvas)
                 (img_width img) (img_height img) in
      let canvas' := drawImage img (Dbl (p_dx p)) (Dbl (p_dy p))
                       (Dbl (drawWidth p)) (Dbl (drawHeight p)) white in
      saveState env (set_canvasRef (Some canvas') s)
  | None => s
  end.

(** [file] is the data URL [reader.readAsDataURL] will produce for the chosen
    file, when one was chosen. *)
Definition handlePoseUpload (file : option Url) (s : State) : State :=
  match file with
  | Some f => enqueue (FileRead f (closure_of s)) s
  | None => s
  end.

(** [generatePoseFromPrompt] of the service module: the image bytes wrapped
    as a data URL, or the one error it rethrows. *)
Inductive ServiceReply := ImageBytes (imageBytes : string) | ServiceFailure.

Definition png_data_url (imageBytes : string) : Url :=
  Text (String.append "data:image/png;base64," imageBytes).
Arguments png_data_url : simpl never.

Definition generatePoseFromPrompt (r : ServiceReply) : Url + string :=
  match r with
  | ImageBytes b => inl (png_data_url b)
  | ServiceFailure =>
      inr "Failed to generate the pose from the prompt. Please try again."
  end.

(** [handleGeneratePose] up to its [await]. *)
Definition handleGeneratePose (s : State) : State :=
  if String.eqb (prompt s) "" then s
  else enqueue (PoseRequest (prompt s) (closure_of s))
         (setErrorMessage None (setIsGeneratingPose true s)).

(** [handleGeneratePose] after its [await]: try / catch / finally. *)
Definition handleGeneratePose_resume (env : Closure) (r : ServiceReply) (s : State)
  : State :=
  match generatePoseFromPrompt r with
  | inl resultImage =>
      setIsGeneratingPose false (loadPoseImageOntoCanvas env resultImage s)
  | inr message =>
      setIsGeneratingPose false (setErrorMessage (Some message) s)
  end.

(** ** Undo / redo handlers and the imperative handle *)

Definition handleUndo (s : State) : State :=
  if historyIndex s >? 0 then setHistoryIndex (historyIndex s - 1) s else s.

Definition handleRedo (s : State) : State :=
  if historyIndex s <? Z.of_nat (List.length (history s)) - 1
  then setHistoryIndex (historyIndex s + 1) s else s.

(** [v || ''] for [v] a string or [undefined]. *)
Definition or_empty (v : option Url) : Url :=
  match v with
  | Some (Text "") => Text ""
  | Some u => u
  | None => Text ""
  end.

Definition getImageData (s : State) : Url :=
  or_empty (option_map toDataURL (canvasRef s)).

Definition clearCanvas : State -> State := initializeCanvas.

(** ** Events and the transition function *)

Inductive Event :=
| EvClear                                  (* Clear button, ref.clearCanvas() *)
| EvMouseDown (offsetX offsetY : Q)
| EvMouseMove (offsetX offsetY : Q)
| EvMouseUp
| EvMouseLeave
| EvSetMode (m : InputMode)
| EvSetBrushColor (color : string)
| EvSetBrushSize (size : Z)
| EvSetSmoothing (checked : bool)
| EvSetPrompt (value : string)
| EvUndo
| EvRedo
| EvPoseUpload (file : option Url)
| EvGeneratePose
| EvServiceReply (k : nat) (r : ServiceReply)  (* the awaited promise settles *)
| EvTaskDone (k : nat).                        (* a file read or image load ends *)

Fixpoint remove_nth (A : Type) (k : nat) (l : list A) : list A :=
  match l, k with
  | [], _ => []
  | _ :: t, O => t
  | x :: t, S k' => x :: remove_nth k' t
  end.

(** Re-render after a handler: the effects whose dependencies changed run,
    in declaration order, with the callbacks of the new render. *)
Definition render_effects (old new : State) : State :=
  let s1 :=
    if Nat.eqb (historyArray old) (historyArray new)
       && (historyIndex old =? historyIndex new)
    then new
    else restoreCanvasFromHistory (closure_of new) new in
  if String.eqb (brushColor old) (brushColor new)
     && (brushSize old =? brushSize new)
  then s1
  else brushEffect s1.

(** The first render: the [useState] initial values. *)
Definition initialState (canvas : option CanvasEl) : State :=
  mkState canvas None false ModeDraw "#000000" BRUSH_SIZES.Medium true
          [] O (-1) "" false None [].

(** Mounting: the three effects of the first render in declaration order
    (each with the callbacks of that render), then the re-render caused by
    the state [initializeCanvas] set. *)
Definition mount (canvas : option CanvasEl) : State :=
  let s0 := initialState canvas in
  let s1 := initializeCanvas s0 in
  let s2 := restoreCanvasFromHistory (closure_of s0) s1 in
  let s3 := brushEffect s2 in
  render_effects s0 s3.

Section Browser.

(** The browser's image decoder on free text: the intrinsic width and
    height of the image when the text is a decodable image source. *)
Variable decodeText : string -> option (Z * Z).

(** Setting [img.src]: [Some] image when [onload] will fire, [None] when the
    load ends in an error event (for which the component has no handler). *)
Definition decode (src : Url) : option Image :=
  match src with
  | PngOf w h px =>
      if (0 <? w) && (0 <? h) then Some (mkImage w h src) else None
  | Text t =>
      match decodeText t with
      | Some (w, h) =>
          if (0 <? w) && (0 <? h) then Some (mkImage w h src) else None
      | None => None
      end
  end.

(** The handler an event runs, to completion. *)
Definition handle (e : Event) (s : State) : State :=
  match e with
  | EvClear => clearCanvas s
  | EvMouseDown x y => startDrawing x y s
  | EvMouseMove x y => draw x y s
  | EvMouseUp | EvMouseLeave => stopDrawing s
  | EvSetMode m => setMode m s
  | EvSetBrushColor c => setBrushColor c s
  | EvSetBrushSize n => setBrushSize n s
  | EvSetSmoothing b => setIsSmoothing b s
  | EvSetPrompt v => setPrompt v s
  | EvUndo => handleUndo s
  | EvRedo => handleRedo s
  | EvPoseUpload file => handlePoseUpload file s
  | EvGeneratePose => handleGeneratePose s
  | EvServiceReply k r =>
      match nth_error (pending s) k with
      | Some (PoseRequest _ env) =>
          handleGeneratePose_resume env r
            (set_pending (remove_nth k (pending s)) s)
      | _ => s
      end
  | EvTaskDone k =>
      match nth_error (pending s) k with
      | Some (FileRead result env) =>
          loadPoseImageOntoCanvas env result
            (set_pending (remove_nth k (pending s)) s)
      | Some (PoseImageLoad src env) =>
          let s' := set_pending (remove_nth k (pending s)) s in
          match decode src with
          | Some img => pose_onload env img s'
          | None => s'
          end
      | Some (RestoreImageLoad src) =>
          let s' := set_pending (remove_nth k (pending s)) s in
          match decode src with
          | Some img => restore_onload img s'
          | None => s'
          end
      | _ => s
      end
  end.

Definition step (s : State) (e : Event) : State :=
  render_effects s (handle e s).

Definition run (s : State) (evs : list Event) : State :=
  fold_left step evs s.

(** [importImage] as one operation: the upload, the end of the file read and
    the end of the image load, with nothing in between. *)
Definition importImage (src : Url) (s : State) : State :=
  let k := List.length (pending s) in
  run s [EvPoseUpload (Some src); EvTaskDone k; EvTaskDone k].

End Browser.

(** A decoder for the examples: the text ["tall.png"] is a 100x200 image,
    ["data:image/png;base64,POSE"] a 1024x1024 one, nothing else decodes. *)
Definition sample_decoder (t : string) : option (Z * Z) :=
  if String.eqb t "tall.png" then Some (100, 200)
  else if String.eqb t "data:image/png;base64,POSE" then Some (1024, 1024)
  else None.

Definition blank_url (w h : Z) : Url := PngOf w h (Filled "white").

Definition cursor_in_bounds (s : State) : Prop :=
  0 <= historyIndex s <= Z.of_nat (List.length (history s)) - 1.

(** ** Vocabulary of the properties *)

(** [requestPoseFromPrompt]: the click, the service's reply and the end of
    the image load, with nothing in between. *)
Definition requestPoseFromPrompt (decodeText : string -> option (Z * Z))
  (r : ServiceReply) (s : State) : State :=
  let k := List.length (pending s) in
  run decodeText s [EvGeneratePose; EvServiceReply k r; EvTaskDone k].

(** The operations that commit a snapshot. *)
Inductive Commit :=
| EndStroke
| ImportImage (src : Url)
| PoseFromPrompt (imageBytes : string).

Definition commit (decodeText : string -> option (Z * Z)) (c : Commit) (s : State)
  : State :=
  match c with
  | EndStroke => step decodeText s EvMouseUp
  | ImportImage src => importImage decodeText src s
  | PoseFromPrompt b => requestPoseFromPrompt decodeText (ImageBytes b) s
  end.

(** What makes the operation commit: a stroke is active; the image decodes;
    the prompt is not empty and the image the service returns decodes. *)
Definition commits (decodeText : string -> option (Z * Z)) (c : Commit) (s : State)
  : Prop :=
  match c with
  | EndStroke => isDrawing s = true
  | ImportImage src => decode decodeText src <> None
  | PoseFromPrompt b =>
      prompt s <> "" /\ decode decodeText (png_data_url b) <> None
  end.

Definition starts_with (b : Url) (l : list Url) : Prop := nth_error l 0 = Some b.
Arguments starts_with : simpl never.

Definition env_ok (w h : Z) (env : Closure) : Prop :=
  starts_with (blank_url w h) (c_history env) /\ 0 <= c_historyIndex env.

Definition task_ok (w h : Z) (t : Task) : Prop :=
  match t with
  | PoseRequest _ env | FileRead _ env | PoseImageLoad _ env => env_ok w h env
  | RestoreImageLoad _ => True
  end.

Definition canvas_size (w h : Z) (s : State) : Prop :=
  match canvasRef s with
  | Some canvas => width canvas = w /\ height canvas = h
  | None => True
  end.

(** The history of the current render and of every render a waiting callback
    was created in starts with the blank snapshot. *)
Definition hist_inv (w h : Z) (s : State) : Prop :=
  canvas_size w h s /\ env_ok w h (closure_of s) /\ Forall (task_ok w h) (pending s).

Definition stroke_styles (s : State) : option (string * Z * LineCap * LineJoin) :=
  option_map (fun c => (strokeStyle c, lineWidth c, lineCap c, lineJoin c))
    (getContext s).

(** The context holds the current brush settings (the brush effect writes
    them after every render in which they changed). *)
Definition brush_synced (s : State) : Prop :=
  match stroke_styles s with
  | Some st => st = (brushColor s, brushSize s, CapRound, JoinRound)
  | None => True
  end.

(** The style of the stroke painted last on a surface. *)
Definition last_stroke_style (b : Surface) : option (string * Z * LineCap * LineJoin) :=
  match b with
  | Stroked _ _ st w cap join => Some (st, w, cap, join)
  | _ => None
  end.

(** * The service module, the background editor and the application

    [src/unnamed/part_000] (the service functions),
    [src/components/BackgroundEditor.tsx] and [src/App.tsx]. *)

(** ** Data URLs in the service module *)

(** [s.split(',')]: the pieces between commas, at least one. *)
Fixpoint split_comma (s : string) : list string :=
  match s with
  | EmptyString => [EmptyString]
  | String c rest =>
      if Ascii.eqb c ","%char then EmptyString :: split_comma rest
      else match split_comma rest with
           | piece :: pieces => String c piece :: pieces
           | [] => [String c EmptyString]
           end
  end.

Record GeminiPart := mkGeminiPart {
  inlineData_data : option string;     (* [undefined] when there is no comma *)
  inlineData_mimeType : string
}.

(** [base64ToGeminiPart]: [{ inlineData: { data: base64.split(',')[1], mimeType } }] *)
Definition base64ToGeminiPart (base64 mimeType : string) : GeminiPart :=
  mkGeminiPart (nth_error (split_comma base64) 1) mimeType.

(** The template the service functions return:
    [`data:${mimeType};base64,${data}`]. *)
Definition data_url (mimeType data : string) : string :=
  String.append "data:" (String.append mimeType (String.append ";base64," data)).

Fixpoint no_comma (s : string) : bool :=
  match s with
  | EmptyString => true
  | String c rest => negb (Ascii.eqb c ","%char) && no_comma rest
  end.

(** [v] used as a condition, for [v] a string, [null] or [undefined]. *)
Definition truthy (v : option Url) : bool :=
  match v with
  | Some (Text "") => false
  | Some _ => true
  | None => false
  end.

(** ** The background editor *)

Module BackgroundEditor.

Inductive Mode := ModeUploadBg | ModePromptBg.

(** The argument of [onSubmit]. *)
Inductive Background :=
| BgUpload (image : Url)
| BgPrompt (prompt : string).

Record EditorState := mkEditor {
  mode : Mode;
  prompt : string;
  uploadedImage : option Url;
  isProcessing : bool
}.

(** The [useState] initial values. *)
Definition initialEditor : EditorState := mkEditor ModePromptBg "" None false.

(** The effect over [isOpen]: when the modal opens, the inputs are reset. *)
Definition openEffect (isOpen : bool) (st : EditorState) : EditorState :=
  if isOpen then mkEditor (mode st) "" None false else st.

(** What [handleSubmit] passes to [onSubmit], if it calls it. *)
Definition submitted (st : EditorState) : option Background :=
  match mode st, uploadedImage st with
  | ModeUploadBg, Some img =>
      if truthy (Some img) then Some (BgUpload img) else None
  | ModeUploadBg, None => None
  | ModePromptBg, _ =>
      if String.eqb (prompt st) "" then None else Some (BgPrompt (prompt st))
  end.

(** [handleSubmit] from start to end: the state it leaves, and the payload
    it handed to [onSubmit] in between. *)
Definition handleSubmit (st : EditorState) : EditorState * option Background :=
  (mkEditor (mode st) (prompt st) (uploadedImage st) false, submitted st).

Definition isSubmitDisabled (st : EditorState) : bool :=
  isProcessing st
  || (match mode st with ModeUploadBg => negb (truthy (uploadedImage st))
                       | ModePromptBg => false end)
  || (match mode st with ModePromptBg => String.eqb (prompt st) ""
                       | ModeUploadBg => false end).

End BackgroundEditor.

(** ** The application *)

Module App.

(** The members of the [AppState] enum that [App.tsx] names (the enum itself
    is declared in [./types]). *)
Inductive AppState :=
| IDLE | GENERATING_IMAGE | IMAGE_READY | GENERATING_VIDEO | VIDEO_READY | ERROR.

Inductive Frame := FrameStart | FrameEnd.

Record AppSt := mkApp {
  appState : AppState;
  errorMessage : option string;
  loadingMessage : string;
  uploadedImage : option Url;
  startFrameImage : option Url;
  endFrameImage : option Url;
  generatedVideoUrl : option string;
  animationPrompt : string;
  isGeneratingAiPrompt : bool;
  isBgEditorOpen : bool;
  editingFrame : option Frame;
  artboardRef : option State      (* the mounted Artboard behind the ref *)
}.

Definition initialApp (artboard : option State) : AppSt :=
  mkApp IDLE None "" None None None None "" false false None artboard.

Section WithBrowser.

Variable decodeText : string -> option (Z * Z).
(** [String.prototype.toLowerCase]. *)
Variable toLowerCase : string -> string.

(** [s.includes(sub)] *)
Fixpoint includes (s sub : string) : bool :=
  if String.prefix sub s then true
  else match s with
       | EmptyString => false
       | String _ rest => includes rest sub
       end.

(** [message] is [err.message], absent when the thrown value has none. *)
Definition getFriendlyErrorMessage (message : option string) : string :=
  let message :=
    match message with
    | Some m => if String.eqb m "" then "An unknown error occurred." else m
    | None => "An unknown error occurred."
    end in
  let lowerCaseMessage := toLowerCase message in
  if includes lowerCaseMessage "safety" || includes lowerCaseMessage "blocked"
     || includes lowerCaseMessage "policy"
  then "The request was blocked due to the AI's safety filters. This can happen if an image or prompt is misinterpreted. Please try modifying your prompt to be more descriptive and neutral (e.g., instead of 'kicks', try 'raises leg in an upward arc'), or adjust the input images."
  else message.

(** [artboardRef.current?.clearCanvas()]: the Artboard runs its handler and
    re-renders. *)
Definition clearArtboard (a : AppSt) : AppSt :=
  mkApp (appState a) (errorMessage a) (loadingMessage a) (uploadedImage a)
    (startFrameImage a) (endFrameImage a) (generatedVideoUrl a)
    (animationPrompt a) (isGeneratingAiPrompt a) (isBgEditorOpen a)
    (editingFrame a)
    (option_map (fun ab => step decodeText ab EvClear) (artboardRef a)).

Definition handleReset (a : AppSt) : AppSt :=
  clearArtboard
    (mkApp IDLE None (loadingMessage a) None None None None "" 
       (isGeneratingAiPrompt a) false None (artboardRef a)).

(** What the services answer: the parts of the data URL they build, or the
    message of the error they throw. *)
Inductive ImageReply :=
| ImageOk (mimeType data : string)
| ImageError (message : string).

(** The call [editImageWithPose(uploadedImage, poseImage)] a click starts,
    with the [isGeneratingStartFrame] its continuation will use. *)
Record FrameRequest := mkFrameRequest {
  req_baseImage : Url;
  req_poseImage : Url;
  req_isGeneratingStartFrame : bool
}.

(** [handleFrameGeneration] up to its [await]. *)
Definition handleFrameGeneration (a : AppSt) : AppSt * option FrameRequest :=
  let poseImage := option_map getImageData (artboardRef a) in
  match uploadedImage a, poseImage with
  | Some uploaded, Some pose =>
      if negb (truthy (Some uploaded)) || negb (truthy (Some pose))
      then (mkApp ERROR
              (Some "Please upload a character image and draw a pose first.")
              (loadingMessage a) (uploadedImage a) (startFrameImage a)
              (endFrameImage a) (generatedVideoUrl a) (animationPrompt a)
              (isGeneratingAiPrompt a) (isBgEditorOpen a) (editingFrame a)
              (artboardRef a), None)
      else
        let isGeneratingStartFrame := negb (truthy (startFrameImage a)) in
        (mkApp GENERATING_IMAGE None
           (if isGeneratingStartFrame then "Generating Start Frame..."
            else "Generating End Frame...")
           (uploadedImage a) (startFrameImage a) (endFrameImage a)
           (if isGeneratingStartFrame then None else generatedVideoUrl a)
           (if isGeneratingStartFrame then "" else animationPrompt a)
           (isGeneratingAiPrompt a) (isBgEditorOpen a) (editingFrame a)
           (artboardRef a),
         Some (mkFrameRequest uploaded pose isGeneratingStartFrame))
  | _, _ =>
      (mkApp ERROR
         (Some "Please upload a character image and draw a pose first.")
         (loadingMessage a) (uploadedImage a) (startFrameImage a)
         (endFrameImage a) (generatedVideoUrl a) (animationPrompt a)
         (isGeneratingAiPrompt a) (isBgEditorOpen a) (editingFrame a)
         (artboardRef a), None)
  end.

(** [handleFrameGeneration] after its [await]. *)
Definition handleFrameGeneration_resume (isGeneratingStartFrame : bool)
  (r : ImageReply) (a : AppSt) : AppSt :=
  match r with
  | ImageOk mime data =>
      let resultImage := Some (Text (data_url mime data)) in
      mkApp IDLE (errorMessage a) (loadingMessage a) (uploadedImage a)
        (if isGeneratingStartFrame then resultImage else startFrameImage a)
        (if isGeneratingStartFrame then endFrameImage a else resultImage)
        (generatedVideoUrl a) (animationPrompt a) (isGeneratingAiPrompt a)
        true
        (Some (if isGeneratingStartFrame then FrameStart else FrameEnd))
        (artboardRef a)
  | ImageError message =>
      mkApp ERROR (Some (getFriendlyErrorMessage (Some message)))
        (loadingMessage a) (uploadedImage a) (startFrameImage a)
        (endFrameImage a) (generatedVideoUrl a) (animationPrompt a)
        (isGeneratingAiPrompt a) (isBgEditorOpen a) (editingFrame a)
        (artboardRef a)
  end.

(** The click and the service's answer, with nothing in between. *)
Definition generateFrame (r : ImageReply) (a : AppSt) : AppSt :=
  match handleFrameGeneration a with
  | (a', Some req) =>
      handleFrameGeneration_resume (req_isGeneratingStartFrame req) r a'
  | (a', None) => a'
  end.

(** [handleBackgroundUpdate] up to its [await]: [None] when it returns at
    once, otherwise the state and the [editingFrame] of the calling render. *)
Definition handleBackgroundUpdate (a : AppSt) : option (AppSt * option Frame) :=
  let frameToUpdate :=
    match editingFrame a with
    | Some FrameStart => startFrameImage a
    | _ => endFrameImage a
    end in
  if negb (truthy frameToUpdate) then None
  else
    Some (mkApp GENERATING_IMAGE None "Updating background..."
            (uploadedImage a) (startFrameImage a) (endFrameImage a)
            (generatedVideoUrl a) (animationPrompt a) (isGeneratingAiPrompt a)
            false (editingFrame a) (artboardRef a),
          editingFrame a).

(** [handleBackgroundUpdate] after its [await]: try, catch, finally. *)
Definition handleBackgroundUpdate_resume (editing : option Frame)
  (r : ImageReply) (a : AppSt) : AppSt :=
  let tried :=
    match r with
    | ImageOk mime data =>
        let updatedFrame := Some (Text (data_url mime data)) in
        match editing with
        | Some FrameStart =>
            clearArtboard
              (mkApp (appState a) (errorMessage a) (loadingMessage a)
                 (uploadedImage a) updatedFrame (endFrameImage a)
                 (generatedVideoUrl a) (animationPrompt a)
                 (isGeneratingAiPrompt a) (isBgEditorOpen a) (editingFrame a)
                 (artboardRef a))
        | _ =>
            mkApp (appState a) (errorMessage a) (loadingMessage a)
              (uploadedImage a) (startFrameImage a) updatedFrame
              (generatedVideoUrl a) (animationPrompt a)
              (isGeneratingAiPrompt a) (isBgEditorOpen a) (editingFrame a)
              (artboardRef a)
        end
    | ImageError message =>
        mkApp ERROR (Some (getFriendlyErrorMessage (Some message)))
          (loadingMessage a) (uploadedImage a) (startFrameImage a)
          (endFrameImage a) (generatedVideoUrl a) (animationPrompt a)
          (isGeneratingAiPrompt a) (isBgEditorOpen a) (editingFrame a)
          (artboardRef a)
    end in
  mkApp IMAGE_READY (errorMessage tried) (loadingMessage tried)
    (uploadedImage tried) (startFrameImage tried) (endFrameImage tried)
    (generatedVideoUrl tried) (animationPrompt tried)
    (isGeneratingAiPrompt tried) (isBgEditorOpen tried) None
    (artboardRef tried).

Definition updateBackground (r : ImageReply) (a : AppSt) : AppSt :=
  match handleBackgroundUpdate a with
  | Some (a', editing) => handleBackgroundUpdate_resume editing r a'
  | None => a
  end.

Definition handleCloseBgEditor (a : AppSt) : AppSt :=
  let a' :=
    match editingFrame a with
    | Some FrameStart => clearArtboard a
    | _ => a
    end in
  mkApp IMAGE_READY (errorMessage a') (loadingMessage a') (uploadedImage a')
    (startFrameImage a') (endFrameImage a') (generatedVideoUrl a')
    (animationPrompt a') (isGeneratingAiPrompt a') false None (artboardRef a').

Definition isLoading (a : AppSt) : bool :=
  match appState a with
  | GENERATING_IMAGE | GENERATING_VIDEO => true
  | _ => false
  end.

Definition getWorkflowStep (a : AppSt) : string :=
  if negb (truthy (uploadedImage a)) then "1. Upload Character"
  else if negb (truthy (startFrameImage a)) then "2. Create Start Frame"
  else if isBgEditorOpen a
          && match editingFrame a with Some FrameStart => true | _ => false end
       then "2. Edit Start Frame Background"
  else if negb (truthy (endFrameImage a)) then "3. Create End Frame"
  else if isBgEditorOpen a
          && match editingFrame a with Some FrameEnd => true | _ => false end
       then "3. Edit End Frame Background"
  else "4. Write Prompt & Animate".

Definition getButtonText (a : AppSt) : string :=
  if negb (truthy (startFrameImage a)) then "Generate Start Frame"
  else if negb (truthy (endFrameImage a)) then "Generate End Frame"
  else "All Frames Generated".

Definition isGenerateButtonDisabled (a : AppSt) : bool :=
  isLoading a || negb (truthy (uploadedImage a)) || truthy (endFrameImage a)
  || isBgEditorOpen a.

End WithBrowser.

End App.

(** ** Vocabulary of the further properties *)

(** A PNG data URL that [toDataURL] produced for a canvas of size [w] x [h]. *)
Definition is_snapshot (w h : Z) (u : Url) : bool :=
  match u with
  | PngOf w' h' _ => (w' =? w) && (h' =? h)
  | Text _ => false
  end.

Definition all_snapshots (w h : Z) (l : list Url) : Prop :=
  Forall (fun u => is_snapshot w h u = true) l.

Definition task_snap (w h : Z) (t : Task) : Prop :=
  match t with
  | PoseRequest _ env | FileRead _ env | PoseImageLoad _ env =>
      all_snapshots w h (c_history env)
  | RestoreImageLoad u => is_snapshot w h u = true
  end.

(** Every history, the current one and the ones waiting callbacks captured,
    holds only snapshots of this canvas, and so does every restore load. *)
Definition snap_inv (w h : Z) (s : State) : Prop :=
  canvas_size w h s /\ all_snapshots w h (history s) /\
  Forall (task_snap w h) (pending s).

Definition is_mouse (e : Event) : bool :=
  match e with
  | EvMouseDown _ _ | EvMouseMove _ _ | EvMouseUp | EvMouseLeave => true
  | _ => false
  end.

Definition is_pose_request (t : Task) : bool :=
  match t with
  | PoseRequest _ _ => true
  | _ => false
  end.

(** The segment [draw] adds for a pointer sample [p] when the last recorded
    pen position is [last]. *)
Definition segment_to (smoothing : bool) (last p : Q * Q) : PathCmd :=
  if smoothing
  then QuadraticCurveTo (fst last) (snd last)
         ((fst last + fst p) / 2)%Q ((snd last + snd p) / 2)%Q
  else LineTo (fst p) (snd p).

(** The segments a drag through the samples [pts] adds, starting with the
    pen at [last]. *)
Fixpoint stroke_segments (smoothing : bool) (last : Q * Q) (pts : list (Q * Q))
  : list PathCmd :=
  match pts with
  | [] => []
  | p :: rest => segment_to smoothing last p :: stroke_segments smoothing p rest
  end.

(** The point at which a path command leaves the pen. *)
Definition end_point (c : PathCmd) : option (Q * Q) :=
  match c with
  | MoveTo x y | LineTo x y | QuadraticCurveTo _ _ x y => Some (x, y)
  | ClosePath => None
  end.

(** What a drag paints: one [stroke()] of the path so far per segment. *)
Fixpoint paint_segments (b : Surface) (path segs : list PathCmd)
  (st : string) (w : Z) (cap : LineCap) (join : LineJoin) : Surface :=
  match segs with
  | [] => b
  | sg :: rest =>
      paint_segments (Stroked b (path ++ [sg]) st w cap join) (path ++ [sg]) rest
        st w cap join
  end.

(** The spinner flag has a request behind it. *)
Definition busy_ok (generating : bool) (tasks : list Task) : Prop :=
  generating = true -> existsb is_pose_request tasks = true.

Definition busy_inv (s : State) : Prop :=
  busy_ok (isGeneratingPose s) (pending s).

Definition moves (pts : list (Q * Q)) : list Event :=
  map (fun p : Q * Q => EvMouseMove (fst p) (snd p)) pts.

(** ** Exceptions of the export *)

(** How the evaluation of a JavaScript expression ends. *)
Inductive Completion :=
| Normal (value : Url)
| Throw (error : string).

(** A [data:] URL: what [toDataURL], [FileReader.readAsDataURL] and
    [generatePoseFromPrompt] produce. *)
Definition is_data_url (u : Url) : bool :=
  match u with
  | PngOf _ _ _ => true
  | Text t => String.prefix "data:" t
  end.

Definition reads_data_url (e : Event) : bool :=
  match e with
  | EvPoseUpload (Some u) => is_data_url u
  | _ => true
  end.

(** [crossOrigin t]: the browser's verdict that an image loaded from the
    text [t] belongs to another origin. *)
Definition cross_origin (crossOrigin : string -> bool) (u : Url) : bool :=
  match u with
  | PngOf _ _ _ => false
  | Text t => crossOrigin t
  end.

(** The source of the image that the event makes [drawImage] put on the
    canvas, when it does. *)
Definition drawn_image (decodeText : string -> option (Z * Z)) (s : State) (e : Event)
  : option Url :=
  match e with
  | EvTaskDone k =>
      match nth_error (pending s) k with
      | Some (PoseImageLoad src _) | Some (RestoreImageLoad src) =>
          match decode decodeText src, getContext s with
          | Some _, Some _ => Some src
          | _, _ => None
          end
      | _ => None
      end
  | _ => None
  end.

(** The origin-clean flag of the canvas after the events: it falls, for
    good, when an image of another origin is drawn. *)
Fixpoint origin_clean (crossOrigin : string -> bool)
  (decodeText : string -> option (Z * Z)) (s : State) (evs : list Event) : bool :=
  match evs with
  | [] => true
  | e :: rest =>
      match drawn_image decodeText s e with
      | Some src => negb (cross_origin crossOrigin src)
      | None => true
      end
      && origin_clean crossOrigin decodeText (step decodeText s e) rest
  end.

(** [canvasRef.current?.toDataURL('image/png') || ''] of the component
    mounted on [canvas], after the events [evs], with the exception
    [toDataURL] raises on a canvas that is not origin-clean. *)
Definition getImageData_completion (crossOrigin : string -> bool)
  (decodeText : string -> option (Z * Z)) (canvas : option CanvasEl)
  (evs : list Event) : Completion :=
  match canvasRef (run decodeText (mount canvas) evs) with
  | None => Normal (or_empty None)
  | Some cv =>
      if origin_clean crossOrigin decodeText (mount canvas) evs
      then Normal (or_empty (Some (toDataURL cv)))
      else Throw "SecurityError"
  end.

(** Every image source the component holds is a [data:] URL. *)
Definition clean_history (l : list Url) : Prop :=
  Forall (fun u => is_data_url u = true) l.

Definition task_sources (t : Task) : Prop :=
  match t with
  | PoseRequest _ env => clean_history (c_history env)
  | FileRead u env | PoseImageLoad u env =>
      is_data_url u = true /\ clean_history (c_history env)
  | RestoreImageLoad u => is_data_url u = true
  end.

Definition sources_inv (s : State) : Prop :=
  historyIndex s <= Z.of_nat (List.length (history s)) - 1 /\
  clean_history (history s) /\ Forall task_sources (pending s).

(** * Properties *)

(** ** Bookkeeping tactics *)

(** Case analysis on a scrutinee of the goal that contains no other one. *)
Ltac split_match :=
  match goal with
  | |- context [match ?x with _ => _ end] =>
      lazymatch x with
      | context [match _ with _ => _ end] => fail
      | _ => let E := fresh "E" in destruct x eqn:E; try rewrite E in *
      end
  end.

Ltac unfold_handlers :=
  unfold clearCanvas, initializeCanvas, startDrawing, draw, stopDrawing,
    handleUndo, handleRedo, handlePoseUpload, handleGeneratePose,
    handleGeneratePose_resume, loadPoseImageOntoCanvas, pose_onload,
    restore_onload, saveState, restoreCanvasFromHistory, brushEffect,
    enqueue, getContext in *.

(** ** History bounds *)

Lemma saveState_bounds env s :
  cursor_in_bounds s -> cursor_in_bounds (saveState env s).
Proof.
  unfold saveState, cursor_in_bounds. destruct (canvasRef s); simpl; auto.
  intros _. rewrite length_app. simpl. lia.
Qed.

Lemma restoreCanvasFromHistory_history env s :
  history (restoreCanvasFromHistory env s) = history s /\
  historyIndex (restoreCanvasFromHistory env s) = historyIndex s.
Proof. unfold_handlers. repeat split_match; simpl; auto. Qed.

Lemma brushEffect_history s :
  history (brushEffect s) = history s /\
  historyIndex (brushEffect s) = historyIndex s.
Proof. unfold_handlers. repeat split_match; simpl; auto. Qed.

Lemma render_effects_history old new :
  history (render_effects old new) = history new /\
  historyIndex (render_effects old new) = historyIndex new.
Proof.
  unfold render_effects.
  repeat split_match;
    repeat first [ rewrite (proj1 (brushEffect_history _))
                 | rewrite (proj2 (brushEffect_history _))
                 | rewrite (proj1 (restoreCanvasFromHistory_history _ _))
                 | rewrite (proj2 (restoreCanvasFromHistory_history _ _)) ];
    auto.
Qed.

Lemma render_effects_bounds old new :
  cursor_in_bounds new -> cursor_in_bounds (render_effects old new).
Proof.
  unfold cursor_in_bounds.
  destruct (render_effects_history old new) as [-> ->]. auto.
Qed.

Section BoundsWithDecoder.
Variable decodeText : string -> option (Z * Z).

Lemma handle_bounds e s :
  cursor_in_bounds s -> cursor_in_bounds (handle decodeText e s).
Proof.
  intros H. destruct e; simpl; try exact H.
  - (* clear *)
    unfold clearCanvas, initializeCanvas, cursor_in_bounds in *.
    repeat split_match; simpl; auto; lia.
  - unfold startDrawing, cursor_in_bounds in *. repeat split_match; simpl; auto.
  - unfold draw, cursor_in_bounds in *. repeat split_match; simpl; auto.
  - unfold stopDrawing. repeat split_match; auto. apply saveState_bounds. exact H.
  - unfold stopDrawing. repeat split_match; auto. apply saveState_bounds. exact H.
  - unfold handleUndo, cursor_in_bounds in *. split_match; simpl; auto; lia.
  - unfold handleRedo, cursor_in_bounds in *. split_match; simpl; auto; lia.
  - unfold handlePoseUpload, cursor_in_bounds in *. split_match; simpl; auto.
  - unfold handleGeneratePose, cursor_in_bounds in *. split_match; simpl; auto.
  - unfold handleGeneratePose_resume, loadPoseImageOntoCanvas, cursor_in_bounds in *.
    repeat split_match; simpl; auto.
  - repeat split_match; auto.
    + unfold loadPoseImageOntoCanvas, cursor_in_bounds in *.
      repeat split_match; simpl; auto.
    + unfold pose_onload. split_match; simpl; auto.
      apply saveState_bounds. exact H.
    + unfold restore_onload, cursor_in_bounds in *. split_match; simpl; auto.
Qed.

Lemma step_bounds e s :
  cursor_in_bounds s -> cursor_in_bounds (step decodeText s e).
Proof. intros H. apply render_effects_bounds, handle_bounds, H. Qed.

Lemma run_bounds evs : forall s,
  cursor_in_bounds s -> cursor_in_bounds (run decodeText s evs).
Proof.
  induction evs as [|e evs IH]; intros s H; simpl; auto.
  apply IH, step_bounds, H.
Qed.
End BoundsWithDecoder.

Lemma mount_bounds canvas ctx :
  context2d canvas = Some ctx -> cursor_in_bounds (mount (Some canvas)).
Proof.
  intros Hc. unfold mount. apply render_effects_bounds.
  unfold cursor_in_bounds.
  rewrite (proj1 (brushEffect_history _)), (proj2 (brushEffect_history _)).
  rewrite (proj1 (restoreCanvasFromHistory_history _ _)),
          (proj2 (restoreCanvasFromHistory_history _ _)).
  unfold initializeCanvas, initialState. simpl. rewrite Hc. simpl. lia.
Qed.

(** C6. After initialization (the component mounted on a canvas whose 2D
    context exists), for every sequence of events -- pointer events, brush
    and mode changes, undo, redo, clear, uploads, pose requests and the
    completion of any waiting callback -- the cursor satisfies
    [0 <= historyIndex <= history.length - 1] after every event of the
    sequence (every prefix of it). *)
Theorem C6_cursor_always_within_history
  (decodeText : string -> option (Z * Z)) (canvas : CanvasEl) (ctx : Context2D)
  (evs : list Event) (n : nat) :
  context2d canvas = Some ctx ->
  cursor_in_bounds (run decodeText (mount (Some canvas)) (firstn n evs)).
Proof.
  intros Hc. apply run_bounds. eapply mount_bounds. exact Hc.
Qed.

Lemma C6_cursor_always_within_history_witness :
  cursor_in_bounds
    (run sample_decoder (mount (Some fresh_canvas))
       (firstn 6 [EvMouseDown 10 10; EvMouseMove 20 20; EvMouseUp; EvUndo;
                  EvPoseUpload (Some (Text "tall.png")); EvTaskDone 2%nat;
                  EvTaskDone 2%nat; EvRedo])).
Proof.
  apply (@C6_cursor_always_within_history sample_decoder fresh_canvas fresh_context).
  reflexivity.
Defined.

(** ** The blank snapshot at index 0 *)

Lemma slice0_head (A : Type) (l : list A) (i : Z) (b u : A) :
  0 <= i -> nth_error l 0 = Some b ->
  nth_error (slice0 l (i + 1) ++ [u]) 0 = Some b.
Proof.
  intros Hi Hl. unfold slice0.
  destruct (i + 1 <? 0) eqn:E; [apply Z.ltb_lt in E; lia|].
  destruct l as [|x l]; [discriminate|]. simpl in Hl. inversion Hl; subst.
  replace (Z.to_nat (i + 1)) with (S (Z.to_nat i)) by lia. reflexivity.
Qed.

Lemma Forall_remove_nth (A : Type) (P : A -> Prop) k : forall l,
  Forall P l -> Forall P (remove_nth k l).
Proof.
  induction k as [|k IH]; intros [|x l] H; simpl; auto; inversion H; subst; auto.
Qed.

Lemma Forall_nth_error (A : Type) (P : A -> Prop) l k x :
  Forall P l -> nth_error l k = Some x -> P x.
Proof.
  intros H E. rewrite Forall_forall in H. apply H. eapply nth_error_In; eauto.
Qed.

Lemma Forall_snoc (A : Type) (P : A -> Prop) l x :
  Forall P l -> P x -> Forall P (l ++ [x]).
Proof. intros. apply Forall_app. split; auto. Qed.

Ltac inv_start :=
  unfold hist_inv, canvas_size, env_ok, closure_of in *; simpl in *.

Ltac inv_solve :=
  repeat split_match; simpl in *;
  repeat match goal with
         | H : _ /\ _ |- _ => destruct H
         | H1 : ?x = Some _, H2 : ?x = _ |- _ => rewrite H1 in H2
         | H1 : ?x = _, H2 : context [match ?x with _ => _ end] |- _ =>
             rewrite H1 in H2; simpl in H2
         | H : (_ >? _) = true |- _ => apply Z.gtb_lt in H
         | H : Some _ = Some _ |- _ => inversion H; clear H; subst
         | H : Some _ = None |- _ => discriminate H
         | H : None = Some _ |- _ => discriminate H
         end;
  simpl in *;
  repeat split; auto using Forall_snoc, Forall_remove_nth; try lia.

Lemma saveState_hist_inv w h env s :
  env_ok w h env -> hist_inv w h s -> hist_inv w h (saveState env s).
Proof.
  intros [He1 He2]. unfold saveState. inv_start. intros H. inv_solve.
  - apply slice0_head; auto.
  - rewrite length_app. simpl. lia.
Qed.

Lemma restoreCanvasFromHistory_hist_inv w h env s :
  hist_inv w h s -> hist_inv w h (restoreCanvasFromHistory env s).
Proof.
  unfold restoreCanvasFromHistory, getContext, enqueue. inv_start.
  intros H. inv_solve; apply Forall_snoc; simpl; unfold env_ok; auto.
Qed.

Lemma brushEffect_hist_inv w h s :
  hist_inv w h s -> hist_inv w h (brushEffect s).
Proof.
  unfold brushEffect, with_context. inv_start. intros H. inv_solve.
Qed.

Lemma render_effects_hist_inv w h old new :
  hist_inv w h new -> hist_inv w h (render_effects old new).
Proof.
  intros H. unfold render_effects.
  repeat split_match;
    auto using restoreCanvasFromHistory_hist_inv, brushEffect_hist_inv.
Qed.

Lemma initializeCanvas_hist_inv w h s :
  hist_inv w h s -> hist_inv w h (initializeCanvas s).
Proof.
  unfold initializeCanvas, fillRect_canvas, with_context, toDataURL, blank_url.
  inv_start. intros H. inv_solve.
Qed.

Lemma stopDrawing_hist_inv w h s :
  hist_inv w h s -> hist_inv w h (stopDrawing s).
Proof.
  intros H. unfold stopDrawing. repeat split_match; auto.
  apply saveState_hist_inv; [apply H|].
  revert H. unfold with_context. inv_start. intros H. inv_solve.
Qed.

Lemma loadPoseImageOntoCanvas_hist_inv w h env u s :
  env_ok w h env -> hist_inv w h s ->
  hist_inv w h (loadPoseImageOntoCanvas env u s).
Proof.
  intros He. unfold loadPoseImageOntoCanvas, getContext, enqueue. inv_start.
  intros H. inv_solve; apply Forall_snoc; simpl; unfold env_ok; auto.
Qed.

Lemma drop_task_hist_inv w h k s :
  hist_inv w h s -> hist_inv w h (set_pending (remove_nth k (pending s)) s).
Proof. inv_start. intros H. inv_solve. Qed.

Lemma drawImage_size img dx dy dw dh canvas :
  width (drawImage img dx dy dw dh canvas) = width canvas /\
  height (drawImage img dx dy dw dh canvas) = height canvas.
Proof. unfold drawImage. repeat split_match; simpl; auto. Qed.

Lemma set_canvasRef_hist_inv w h s c c' :
  canvasRef s = Some c -> width c' = width c -> height c' = height c ->
  hist_inv w h s -> hist_inv w h (set_canvasRef (Some c') s).
Proof.
  intros E Hw Hh. inv_start. rewrite E, Hw, Hh. tauto.
Qed.

Lemma white_size c :
  width (fillRect_canvas (with_context (set_fillStyle "white") c)) = width c /\
  height (fillRect_canvas (with_context (set_fillStyle "white") c)) = height c.
Proof. unfold fillRect_canvas, with_context. repeat split_match; simpl; auto. Qed.

Lemma clearRect_size c :
  width (clearRect_canvas c) = width c /\ height (clearRect_canvas c) = height c.
Proof. unfold clearRect_canvas. repeat split_match; simpl; auto. Qed.

Lemma pose_onload_hist_inv w h env img s :
  env_ok w h env -> hist_inv w h s -> hist_inv w h (pose_onload env img s).
Proof.
  intros He H. unfold pose_onload. destruct (canvasRef s) as [c|] eqn:E; auto.
  apply saveState_hist_inv; auto.
  apply set_canvasRef_hist_inv with (c := c); auto.
  - rewrite (proj1 (drawImage_size _ _ _ _ _ _)). apply white_size.
  - rewrite (proj2 (drawImage_size _ _ _ _ _ _)). apply white_size.
Qed.

Lemma restore_onload_hist_inv w h img s :
  hist_inv w h s -> hist_inv w h (restore_onload img s).
Proof.
  intros H. unfold restore_onload. destruct (canvasRef s) as [c|] eqn:E; auto.
  apply set_canvasRef_hist_inv with (c := c); auto.
  - rewrite (proj1 (drawImage_size _ _ _ _ _ _)). apply clearRect_size.
  - rewrite (proj2 (drawImage_size _ _ _ _ _ _)). apply clearRect_size.
Qed.

Section Index0WithDecoder.
Variable decodeText : string -> option (Z * Z).

Lemma handle_hist_inv w h e s :
  hist_inv w h s -> hist_inv w h (handle decodeText e s).
Proof.
  intros H. destruct e; simpl;
    auto using initializeCanvas_hist_inv, stopDrawing_hist_inv.
  all: try solve
    [ revert H;
      unfold startDrawing, draw, stroke, with_context, handleUndo, handleRedo,
        handlePoseUpload, handleGeneratePose, enqueue;
      inv_start; intros H; inv_solve;
      try (apply Forall_snoc; simpl; unfold env_ok; auto) ].
  - destruct (nth_error (pending s) k) as [[p env|? ?|? ?|?]|] eqn:E; auto.
    assert (He : task_ok w h (PoseRequest p env))
      by (eapply Forall_nth_error; [apply H | exact E]).
    simpl in He. unfold handleGeneratePose_resume.
    destruct (generatePoseFromPrompt r) as [u|msg].
    + assert (H' : hist_inv w h
                     (loadPoseImageOntoCanvas env u
                        (set_pending (remove_nth k (pending s)) s)))
        by (apply loadPoseImageOntoCanvas_hist_inv; auto using drop_task_hist_inv).
      revert H'. inv_start. tauto.
    + pose proof (drop_task_hist_inv k H) as H'.
      revert H'. inv_start. tauto.
  - destruct (nth_error (pending s) k) as [[p env|u env|u env|u]|] eqn:E; auto.
    + assert (He : task_ok w h (FileRead u env))
        by (eapply Forall_nth_error; [apply H | exact E]).
      apply loadPoseImageOntoCanvas_hist_inv; auto using drop_task_hist_inv.
    + assert (He : task_ok w h (PoseImageLoad u env))
        by (eapply Forall_nth_error; [apply H | exact E]).
      destruct (decode decodeText u); auto using drop_task_hist_inv.
      apply pose_onload_hist_inv; auto using drop_task_hist_inv.
    + destruct (decode decodeText u);
        auto using drop_task_hist_inv, restore_onload_hist_inv.
Qed.

Lemma run_hist_inv w h evs : forall s,
  hist_inv w h s -> hist_inv w h (run decodeText s evs).
Proof.
  induction evs as [|e evs IH]; intros s H; simpl; auto.
  apply IH. unfold step. apply render_effects_hist_inv, handle_hist_inv, H.
Qed.
End Index0WithDecoder.

Lemma mount_hist_inv canvas ctx :
  context2d canvas = Some ctx ->
  hist_inv (width canvas) (height canvas) (mount (Some canvas)).
Proof.
  intros Hc. unfold mount. apply render_effects_hist_inv, brushEffect_hist_inv.
  apply restoreCanvasFromHistory_hist_inv.
  unfold initializeCanvas, initialState, fillRect_canvas, with_context, toDataURL.
  simpl. rewrite Hc. simpl. unfold hist_inv, canvas_size, env_ok, starts_with.
  simpl. repeat split; auto. lia.
Qed.

(** C8. After initialization, every sequence of controller events leaves the
    entry at index 0 of the history in place and equal to the snapshot of the
    blank (opaque white) surface: commits, undo, redo, clear, image imports
    and late callbacks never remove or replace it. *)
Theorem C8_index0_is_blank_snapshot
  (decodeText : string -> option (Z * Z)) (canvas : CanvasEl) (ctx : Context2D)
  (evs : list Event) :
  context2d canvas = Some ctx ->
  js_index (history (run decodeText (mount (Some canvas)) evs)) 0
  = Some (toDataURL (with_bitmap (Filled "white") canvas)).
Proof.
  intros Hc.
  pose proof (run_hist_inv decodeText evs (mount_hist_inv canvas Hc)) as (_ & [H _] & _).
  exact H.
Qed.

Lemma C8_index0_is_blank_snapshot_witness :
  js_index
    (history
       (run sample_decoder (mount (Some fresh_canvas))
          [EvMouseDown 10 10; EvMouseMove 20 20; EvMouseUp; EvUndo;
           EvPoseUpload (Some (Text "tall.png")); EvTaskDone 2%nat;
           EvTaskDone 2%nat; EvRedo])) 0
  = Some (toDataURL (with_bitmap (Filled "white") fresh_canvas)).
Proof.
  apply (@C8_index0_is_blank_snapshot sample_decoder fresh_canvas fresh_context).
  reflexivity.
Defined.

(** ** Image placement *)

Lemma pose_onload_bitmap env img s canvas ctx :
  canvasRef s = Some canvas -> context2d canvas = Some ctx ->
  let p := placement (width canvas) (height canvas) (img_width img) (img_height img) in
  option_map bitmap (canvasRef (pose_onload env img s))
  = Some (Pasted (Filled "white") (img_src img) (img_width img) (img_height img)
            (Dbl (p_dx p)) (Dbl (p_dy p)) (Dbl (drawWidth p)) (Dbl (drawHeight p))).
Proof.
  intros Hc Hx. unfold pose_onload, saveState. rewrite Hc. simpl.
  unfold drawImage, fillRect_canvas, with_context. rewrite Hx. simpl. reflexivity.
Qed.

(** ** Brush settings and the 2D context *)

Ltac styles_solve :=
  unfold stroke_styles, getContext; simpl;
  repeat (split_match; simpl in *; try congruence);
  repeat match goal with
         | H1 : context2d ?c = _, H2 : context [context2d ?c] |- _ =>
             tryif constr_eq H1 H2 then fail else (rewrite H1 in H2; simpl in H2)
         | H1 : canvasRef ?c = _, H2 : context [canvasRef ?c] |- _ =>
             tryif constr_eq H1 H2 then fail else (rewrite H1 in H2; simpl in H2)
         | H : Some _ = Some _ |- _ => inversion H; clear H; subst; simpl in *
         end;
  repeat match goal with
         | H : context2d _ = _ |- _ => rewrite H; simpl
         | H : canvasRef _ = _ |- _ => rewrite H; simpl
         end;
  try congruence; auto.

Lemma brushEffect_synced s : brush_synced (brushEffect s).
Proof. unfold brush_synced, brushEffect, with_context. styles_solve. Qed.

Lemma set_pending_same s : set_pending (pending s) s = s.
Proof. destruct s; reflexivity. Qed.

Lemma restoreCanvasFromHistory_shape env s :
  exists ts, restoreCanvasFromHistory env s = set_pending ts s.
Proof.
  unfold restoreCanvasFromHistory, enqueue.
  destruct (canvasRef s); [destruct (getContext s)|];
    try (exists (pending s); symmetry; apply set_pending_same).
  destruct (_ || _); eexists; [symmetry; apply set_pending_same | reflexivity].
Qed.

Lemma loadPoseImageOntoCanvas_shape env u s :
  exists ts, loadPoseImageOntoCanvas env u s = set_pending ts s.
Proof.
  unfold loadPoseImageOntoCanvas, enqueue.
  destruct (canvasRef s); [destruct (getContext s)|];
    eexists; try reflexivity; symmetry; apply set_pending_same.
Qed.

Lemma restoreCanvasFromHistory_styles env s :
  stroke_styles (restoreCanvasFromHistory env s) = stroke_styles s /\
  brushColor (restoreCanvasFromHistory env s) = brushColor s /\
  brushSize (restoreCanvasFromHistory env s) = brushSize s.
Proof.
  destruct (restoreCanvasFromHistory_shape env s) as [ts ->]. auto.
Qed.

Lemma render_effects_synced old new :
  brush_synced old -> stroke_styles new = stroke_styles old ->
  brush_synced (render_effects old new).
Proof.
  intros Hold Hnew. unfold render_effects.
  destruct (String.eqb (brushColor old) (brushColor new)
            && (brushSize old =? brushSize new)) eqn:Eb;
    [|apply brushEffect_synced].
  apply andb_true_iff in Eb. destruct Eb as [Ec Es].
  apply String.eqb_eq in Ec. apply Z.eqb_eq in Es.
  assert (Hs : brush_synced new).
  { unfold brush_synced in *. rewrite Hnew, <- Ec, <- Es. exact Hold. }
  split_match; auto.
  unfold brush_synced.
  destruct (restoreCanvasFromHistory_styles (closure_of new) new) as (-> & -> & ->).
  exact Hs.
Qed.

Lemma saveState_styles env s : stroke_styles (saveState env s) = stroke_styles s.
Proof. unfold saveState. styles_solve. Qed.

Lemma loadPoseImageOntoCanvas_styles env u s :
  stroke_styles (loadPoseImageOntoCanvas env u s) = stroke_styles s.
Proof. destruct (loadPoseImageOntoCanvas_shape env u s) as [ts ->]. auto. Qed.

Lemma context_after_drawImage img dx dy dw dh canvas :
  context2d (drawImage img dx dy dw dh canvas) = context2d canvas.
Proof. unfold drawImage. repeat split_match; simpl; auto. Qed.

Lemma pose_onload_styles env img s :
  stroke_styles (pose_onload env img s) = stroke_styles s.
Proof.
  unfold pose_onload. destruct (canvasRef s) as [c|] eqn:E; auto.
  rewrite saveState_styles. unfold stroke_styles, getContext. simpl.
  rewrite context_after_drawImage, E.
  unfold fillRect_canvas, with_context.
  destruct (context2d c) eqn:Ex; simpl; rewrite ?Ex; reflexivity.
Qed.

Lemma restore_onload_styles img s :
  stroke_styles (restore_onload img s) = stroke_styles s.
Proof.
  unfold restore_onload. destruct (canvasRef s) as [c|] eqn:E; auto.
  unfold stroke_styles, getContext. simpl.
  rewrite context_after_drawImage, E.
  unfold clearRect_canvas.
  destruct (context2d c) eqn:Ex; simpl; rewrite ?Ex; reflexivity.
Qed.

Section BrushWithDecoder.
Variable decodeText : string -> option (Z * Z).

(** No handler writes a stroke style: only the brush effect does. *)
Lemma handle_styles e s :
  stroke_styles (handle decodeText e s) = stroke_styles s.
Proof.
  destruct e; simpl; auto.
  all: try solve
    [ unfold clearCanvas, initializeCanvas, startDrawing, draw, stopDrawing,
        handleUndo, handleRedo, handlePoseUpload, handleGeneratePose, saveState,
        enqueue, fillRect_canvas, stroke, with_context;
      styles_solve ].
  - destruct (nth_error (pending s) k) as [[p env|? ?|? ?|?]|]; auto.
    unfold handleGeneratePose_resume.
    destruct (generatePoseFromPrompt r); auto.
    change (stroke_styles
              (loadPoseImageOntoCanvas env u
                 (set_pending (remove_nth k (pending s)) s)) = stroke_styles s).
    rewrite loadPoseImageOntoCanvas_styles. reflexivity.
  - destruct (nth_error (pending s) k) as [[p env|u env|u env|u]|]; auto.
    + rewrite loadPoseImageOntoCanvas_styles. reflexivity.
    + destruct (decode decodeText u); auto. rewrite pose_onload_styles. reflexivity.
    + destruct (decode decodeText u); auto. rewrite restore_onload_styles. reflexivity.
Qed.

Lemma step_synced e s : brush_synced s -> brush_synced (step decodeText s e).
Proof. intros H. apply render_effects_synced; auto using handle_styles. Qed.

Lemma run_synced evs : forall s,
  brush_synced s -> brush_synced (run decodeText s evs).
Proof.
  induction evs as [|e evs IH]; intros s H; simpl; auto using step_synced.
Qed.
End BrushWithDecoder.

Lemma mount_synced canvas : brush_synced (mount canvas).
Proof.
  unfold mount. set (s2 := restoreCanvasFromHistory _ _).
  unfold render_effects.
  assert (Hb : brush_synced (brushEffect s2)) by apply brushEffect_synced.
  repeat split_match; auto using brushEffect_synced.
  unfold brush_synced.
  destruct (restoreCanvasFromHistory_styles (closure_of (brushEffect s2))
              (brushEffect s2)) as (-> & -> & ->).
  exact Hb.
Qed.

Lemma render_effects_quiet old new :
  historyArray new = historyArray old -> historyIndex new = historyIndex old ->
  brushColor new = brushColor old -> brushSize new = brushSize old ->
  render_effects old new = new.
Proof.
  intros H1 H2 H3 H4. unfold render_effects.
  rewrite H1, H2, H3, H4.
  rewrite Nat.eqb_refl, Z.eqb_refl, String.eqb_refl, Z.eqb_refl. reflexivity.
Qed.

Lemma brushEffect_has_styles s :
  stroke_styles s <> None -> stroke_styles (brushEffect s) <> None.
Proof. unfold brushEffect, with_context. styles_solve. Qed.

Lemma render_effects_has_styles old new :
  stroke_styles new <> None -> stroke_styles (render_effects old new) <> None.
Proof.
  intros H. unfold render_effects.
  repeat split_match; auto; try apply brushEffect_has_styles;
    rewrite ?(proj1 (restoreCanvasFromHistory_styles _ _)); auto.
Qed.

Lemma run_has_styles decodeText evs : forall s,
  stroke_styles s <> None -> stroke_styles (run decodeText s evs) <> None.
Proof.
  induction evs as [|e evs IH]; intros s H; simpl; auto.
  apply IH. unfold step. apply render_effects_has_styles.
  rewrite handle_styles. exact H.
Qed.

Lemma mount_has_styles canvas ctx :
  context2d canvas = Some ctx -> stroke_styles (mount (Some canvas)) <> None.
Proof.
  intros Hc. unfold mount. apply render_effects_has_styles, brushEffect_has_styles.
  rewrite (proj1 (restoreCanvasFromHistory_styles _ _)).
  unfold initializeCanvas, initialState, fillRect_canvas, with_context,
    stroke_styles, getContext.
  simpl. rewrite Hc. simpl. discriminate.
Qed.

(** C3, as the code has it.  Cap and join of every segment are round.  The
    colour and width with which an extendStroke paints are the brush settings
    in effect at that call, not those at the start of the stroke: every
    extendStroke strokes the whole path of the stroke so far with the current
    settings, so a change of brush during a stroke shows from the next
    extendStroke on. *)
Theorem C3_segments_use_settings_in_effect_at_each_extend
  (decodeText : string -> option (Z * Z)) (canvas : CanvasEl) (ctx0 : Context2D)
  (evs : list Event) (x y : Q) :
  context2d canvas = Some ctx0 ->
  let s := run decodeText (mount (Some canvas)) evs in
  isDrawing s = true -> lastPointRef s <> None -> mode s = ModeDraw ->
  exists cv ctx seg,
    canvasRef s = Some cv /\ context2d cv = Some ctx /\
    option_map bitmap (canvasRef (step decodeText s (EvMouseMove x y)))
    = Some (Stroked (bitmap cv) (currentPath ctx ++ [seg])
              (brushColor s) (brushSize s) CapRound JoinRound).
Proof.
  intros Hc s Hd Hl Hm.
  assert (Hst : stroke_styles s <> None)
    by (apply run_has_styles; eapply mount_has_styles; eauto).
  assert (Hsy : brush_synced s) by (apply run_synced, mount_synced).
  unfold brush_synced, stroke_styles, getContext in Hst, Hsy.
  destruct (canvasRef s) as [cv|] eqn:Ecv; [|contradiction Hst; reflexivity].
  destruct (context2d cv) as [ctx|] eqn:Ectx; [|contradiction Hst; reflexivity].
  simpl in Hsy. inversion Hsy as [[H1 H2 H3 H4]].
  destruct (lastPointRef s) as [[lx ly]|] eqn:El; [|contradiction Hl; reflexivity].
  exists cv, ctx.
  exists (if isSmoothing s
          then QuadraticCurveTo lx ly ((lx + x) / 2)%Q ((ly + y) / 2)%Q
          else LineTo x y).
  repeat split; auto.
  unfold step. simpl handle.
  assert (Hdraw : draw x y s =
            set_lastPointRef (Some (x, y))
              (set_canvasRef
                 (Some (stroke (with_context
                                  (addToPath
                                     (if isSmoothing s
                                      then QuadraticCurveTo lx ly
                                             ((lx + x) / 2)%Q ((ly + y) / 2)%Q
                                      else LineTo x y)) cv))) s)).
  { unfold draw. rewrite Hd, El, Hm, Ecv, Ectx. reflexivity. }
  rewrite Hdraw. rewrite render_effects_quiet by reflexivity.
  simpl. unfold stroke, with_context. rewrite Ectx. simpl.
  rewrite H1, H2, H3, H4. reflexivity.
Qed.

Lemma C3_segments_use_settings_in_effect_at_each_extend_witness :
  let s := run sample_decoder (mount (Some fresh_canvas))
             [EvMouseDown 10 10; EvMouseMove 20 20; EvSetBrushColor "#EF4444";
              EvSetBrushSize BRUSH_SIZES.Large] in
  exists cv ctx seg,
    canvasRef s = Some cv /\ context2d cv = Some ctx /\
    option_map bitmap (canvasRef (step sample_decoder s (EvMouseMove 30 30)))
    = Some (Stroked (bitmap cv) (currentPath ctx ++ [seg]) "#EF4444" 15
              CapRound JoinRound).
Proof.
  intros s.
  destruct (@C3_segments_use_settings_in_effect_at_each_extend
              sample_decoder fresh_canvas fresh_context
              [EvMouseDown 10 10; EvMouseMove 20 20; EvSetBrushColor "#EF4444";
               EvSetBrushSize BRUSH_SIZES.Large] 30 30 eq_refl)
    as (cv & ctx & seg & H1 & H2 & H3).
  - vm_compute. reflexivity.
  - vm_compute. discriminate.
  - vm_compute. reflexivity.
  - fold s in H1, H3.
    assert (Ec : brushColor s = "#EF4444") by (vm_compute; reflexivity).
    assert (Es : brushSize s = 15) by (vm_compute; reflexivity).
    rewrite Ec, Es in H3.
    exists cv, ctx, seg. repeat split; assumption.
Defined.

(** C3 as stated fails: a stroke started with the black medium brush paints
    its second segment (and repaints its first) in red once the colour is
    changed during the stroke. *)
Lemma C3_counterexample :
  let started := run sample_decoder (mount (Some fresh_canvas)) [EvMouseDown 10 10] in
  let later := run sample_decoder started
                 [EvMouseMove 20 20; EvSetBrushColor "#EF4444"; EvMouseMove 30 30] in
  isDrawing started = true /\ isDrawing later = true /\
  brushColor started = "#000000" /\ brushSize started = 8 /\
  option_map (fun c => last_stroke_style (bitmap c)) (canvasRef later)
  = Some (Some ("#EF4444", 8, CapRound, JoinRound)) /\
  option_map (fun c => last_stroke_style (bitmap c)) (canvasRef later)
  <> Some (Some (brushColor started, brushSize started, CapRound, JoinRound)).
Proof. vm_compute. repeat split; discriminate. Qed.

(** ** Commits *)

Lemma nth_error_snoc (A : Type) (l : list A) (x : A) :
  nth_error (l ++ [x]) (List.length l) = Some x.
Proof. induction l; simpl; auto. Qed.

Lemma remove_nth_snoc (A : Type) (l : list A) (x : A) :
  remove_nth (List.length l) (l ++ [x]) = l.
Proof. induction l; simpl; auto. f_equal. auto. Qed.

Lemma slice0_firstn (A : Type) (l : list A) (i : Z) :
  0 <= i -> slice0 l (i + 1) = firstn (Z.to_nat i + 1) l.
Proof.
  intros H. unfold slice0.
  destruct (i + 1 <? 0) eqn:E; [apply Z.ltb_lt in E; lia|].
  f_equal. lia.
Qed.

Lemma getImageData_canvas s canvas :
  canvasRef s = Some canvas -> getImageData s = toDataURL canvas.
Proof. intros H. unfold getImageData. rewrite H. reflexivity. Qed.

Lemma brushEffect_export s : getImageData (brushEffect s) = getImageData s.
Proof.
  unfold brushEffect, getImageData, with_context.
  destruct (canvasRef s) as [c|] eqn:E; simpl; rewrite ?E; auto.
  destruct (context2d c) eqn:Ex; simpl; rewrite ?E; auto.
Qed.

Lemma render_effects_export old new :
  getImageData (render_effects old new) = getImageData new.
Proof.
  unfold render_effects.
  repeat split_match; rewrite ?brushEffect_export; auto;
    destruct (restoreCanvasFromHistory_shape (closure_of new) new) as [ts ->];
    reflexivity.
Qed.

Lemma saveState_commit env s canvas :
  canvasRef s = Some canvas -> 0 <= c_historyIndex env ->
  let s' := saveState env s in
  history s' = firstn (Z.to_nat (c_historyIndex env) + 1) (c_history env)
               ++ [getImageData s'] /\
  historyIndex s' = Z.of_nat (List.length (history s')) - 1.
Proof.
  intros Hc Hi. unfold saveState. rewrite Hc. simpl.
  rewrite slice0_firstn by exact Hi.
  rewrite (@getImageData_canvas _ canvas) by exact Hc.
  split; reflexivity.
Qed.

Lemma redo_at_end decodeText s :
  historyIndex s = Z.of_nat (List.length (history s)) - 1 ->
  step decodeText s EvRedo = s.
Proof.
  intros H. unfold step. simpl. unfold handleRedo.
  rewrite H, Z.ltb_irrefl. apply render_effects_quiet; reflexivity.
Qed.

Lemma nth_error_middle (A : Type) (l : list A) (x : A) (rest : list A) :
  nth_error (l ++ x :: rest) (List.length l) = Some x.
Proof. induction l; simpl; auto. Qed.

Lemma remove_nth_middle (A : Type) (l : list A) (x : A) (rest : list A) :
  remove_nth (List.length l) (l ++ x :: rest) = l ++ rest.
Proof. induction l; simpl; auto. f_equal. auto. Qed.

Lemma generate_step decodeText s :
  prompt s <> "" ->
  step decodeText s EvGeneratePose
  = enqueue (PoseRequest (prompt s) (closure_of s))
      (setErrorMessage None (setIsGeneratingPose true s)).
Proof.
  intros Hp. unfold step. simpl. unfold handleGeneratePose.
  destruct (String.eqb_spec (prompt s) ""); [contradiction|].
  apply render_effects_quiet; reflexivity.
Qed.

Lemma reply_step decodeText s k p env bytes canvas ctx :
  nth_error (pending s) k = Some (PoseRequest p env) ->
  canvasRef s = Some canvas -> context2d canvas = Some ctx ->
  step decodeText s (EvServiceReply k (ImageBytes bytes))
  = setIsGeneratingPose false
      (enqueue (PoseImageLoad (png_data_url bytes) env)
         (set_pending (remove_nth k (pending s)) s)).
Proof.
  intros Hk Hc Hx. unfold step. simpl handle. rewrite Hk.
  unfold handleGeneratePose_resume, generatePoseFromPrompt,
    loadPoseImageOntoCanvas, getContext.
  simpl. rewrite Hc, Hx. apply render_effects_quiet; reflexivity.
Qed.

Lemma pose_load_step decodeText s k src env img :
  nth_error (pending s) k = Some (PoseImageLoad src env) ->
  decode decodeText src = Some img ->
  step decodeText s (EvTaskDone k)
  = render_effects s
      (pose_onload env img (set_pending (remove_nth k (pending s)) s)).
Proof. intros Hk Hd. unfold step. simpl handle. rewrite Hk, Hd. reflexivity. Qed.

Lemma importImage_unfold decodeText src s canvas ctx img :
  canvasRef s = Some canvas -> context2d canvas = Some ctx ->
  decode decodeText src = Some img ->
  importImage decodeText src s
  = render_effects (enqueue (PoseImageLoad src (closure_of s)) s)
      (pose_onload (closure_of s) img s).
Proof.
  intros Hc Hx Hd. unfold importImage, run. simpl fold_left.
  assert (S1 : step decodeText s (EvPoseUpload (Some src))
               = enqueue (FileRead src (closure_of s)) s).
  { unfold step. simpl. apply render_effects_quiet; reflexivity. }
  rewrite S1.
  assert (S2 : step decodeText (enqueue (FileRead src (closure_of s)) s)
                 (EvTaskDone (List.length (pending s)))
               = enqueue (PoseImageLoad src (closure_of s)) s).
  { unfold step. simpl. rewrite nth_error_snoc, remove_nth_snoc.
    unfold loadPoseImageOntoCanvas, getContext. simpl. rewrite Hc, Hx.
    rewrite render_effects_quiet by reflexivity. reflexivity. }
  rewrite S2.
  unfold step. simpl. rewrite nth_error_snoc, remove_nth_snoc, Hd.
  f_equal. f_equal. destruct s; reflexivity.
Qed.

Lemma requestPose_unfold decodeText bytes s canvas ctx img :
  canvasRef s = Some canvas -> context2d canvas = Some ctx ->
  prompt s <> "" -> decode decodeText (png_data_url bytes) = Some img ->
  let s0 := setIsGeneratingPose false (setErrorMessage None s) in
  requestPoseFromPrompt decodeText (ImageBytes bytes) s
  = render_effects (enqueue (PoseImageLoad (png_data_url bytes) (closure_of s)) s0)
      (pose_onload (closure_of s) img s0).
Proof.
  intros Hc Hx Hp Hd. unfold requestPoseFromPrompt, run. simpl fold_left.
  rewrite (@generate_step decodeText s Hp).
  set (s1 := enqueue (PoseRequest (prompt s) (closure_of s))
               (setErrorMessage None (setIsGeneratingPose true s))).
  assert (Hk : nth_error (pending s1) (List.length (pending s))
               = Some (PoseRequest (prompt s) (closure_of s)))
    by apply nth_error_snoc.
  rewrite (@reply_step decodeText s1 _ _ _ bytes canvas ctx Hk Hc Hx).
  set (s2 := setIsGeneratingPose false
               (enqueue (PoseImageLoad (png_data_url bytes) (closure_of s))
                  (set_pending (remove_nth (List.length (pending s)) (pending s1)) s1))).
  assert (Hp2 : pending s2
                = pending s ++ [PoseImageLoad (png_data_url bytes) (closure_of s)]).
  { change (pending s2)
      with (remove_nth (List.length (pending s))
              (pending s ++ [PoseRequest (prompt s) (closure_of s)])
            ++ [PoseImageLoad (png_data_url bytes) (closure_of s)]).
    rewrite remove_nth_snoc. reflexivity. }
  assert (Hk2 : nth_error (pending s2) (List.length (pending s))
                = Some (PoseImageLoad (png_data_url bytes) (closure_of s)))
    by (rewrite Hp2; apply nth_error_snoc).
  rewrite (@pose_load_step decodeText s2 _ _ _ img Hk2 Hd).
  rewrite Hp2, remove_nth_snoc.
  unfold s2, s1. destruct s; reflexivity.
Qed.

Lemma commit_effect decodeText c s canvas ctx :
  canvasRef s = Some canvas -> context2d canvas = Some ctx ->
  0 <= historyIndex s -> commits decodeText c s ->
  let s' := commit decodeText c s in
  history s' = firstn (Z.to_nat (historyIndex s) + 1) (history s)
               ++ [getImageData s'] /\
  historyIndex s' = Z.of_nat (List.length (history s')) - 1.
Proof.
  intros Hc Hx Hi Hk. destruct c as [|src|bytes]; simpl in *.
  - unfold step.
    destruct (render_effects_history s (handle decodeText EvMouseUp s)) as [-> ->].
    rewrite render_effects_export. simpl. unfold stopDrawing.
    rewrite Hk, Hc, Hx. simpl negb. cbv iota.
    apply saveState_commit with (canvas := with_context (addToPath ClosePath) canvas);
      auto.
  - destruct (decode decodeText src) as [img|] eqn:Hd; [|contradiction Hk; reflexivity].
    rewrite (@importImage_unfold decodeText src s canvas ctx img Hc Hx Hd).
    destruct (render_effects_history
                (enqueue (PoseImageLoad src (closure_of s)) s)
                (pose_onload (closure_of s) img s)) as [-> ->].
    rewrite render_effects_export. unfold pose_onload. rewrite Hc.
    eapply (@saveState_commit (closure_of s)); simpl; eauto.
  - destruct Hk as [Hp Hk].
    destruct (decode decodeText (png_data_url bytes)) as [img|] eqn:Hd;
      [|contradiction Hk; reflexivity].
    rewrite (@requestPose_unfold decodeText bytes s canvas ctx img Hc Hx Hp Hd).
    cbv zeta.
    destruct (render_effects_history
                (enqueue (PoseImageLoad (png_data_url bytes) (closure_of s))
                   (setIsGeneratingPose false (setErrorMessage None s)))
                (pose_onload (closure_of s) img
                   (setIsGeneratingPose false (setErrorMessage None s)))) as [-> ->].
    rewrite render_effects_export. unfold pose_onload. simpl canvasRef. rewrite Hc.
    eapply (@saveState_commit (closure_of s)); simpl; eauto.
Qed.

Lemma render_effects_same_brush old new :
  brushColor new = brushColor old -> brushSize new = brushSize old ->
  exists ts, render_effects old new = set_pending ts new.
Proof.
  intros Hc Hs. unfold render_effects.
  rewrite Hc, Hs, String.eqb_refl, Z.eqb_refl. simpl.
  split_match; [exists (pending new); symmetry; apply set_pending_same|].
  apply restoreCanvasFromHistory_shape.
Qed.

Lemma undo_step decodeText s :
  exists ts,
    step decodeText s EvUndo
    = set_pending ts
        (if historyIndex s >? 0 then setHistoryIndex (historyIndex s - 1) s else s).
Proof.
  unfold step. simpl. unfold handleUndo.
  apply render_effects_same_brush; split_match; reflexivity.
Qed.

(** ** Placement of an imported image *)

Lemma decode_image decodeText src img :
  decode decodeText src = Some img ->
  img_src img = src /\ 0 < img_width img /\ 0 < img_height img.
Proof.
  unfold decode. intros H.
  destruct src as [t|w h px].
  - destruct (decodeText t) as [[w h]|]; [|discriminate].
    destruct (0 <? w) eqn:Ew; [|discriminate].
    destruct (0 <? h) eqn:Eh; [|discriminate].
    simpl in H. inversion H. simpl.
    apply Z.ltb_lt in Ew. apply Z.ltb_lt in Eh. auto.
  - destruct (0 <? w) eqn:Ew; [|discriminate].
    destruct (0 <? h) eqn:Eh; [|discriminate].
    simpl in H. inversion H. simpl.
    apply Z.ltb_lt in Ew. apply Z.ltb_lt in Eh. auto.
Qed.

Lemma pose_onload_export env img s canvas ctx :
  canvasRef s = Some canvas -> context2d canvas = Some ctx ->
  let p := placement (width canvas) (height canvas) (img_width img) (img_height img) in
  getImageData (pose_onload env img s)
  = PngOf (width canvas) (height canvas)
      (Pasted (Filled "white") (img_src img) (img_width img) (img_height img)
         (Dbl (p_dx p)) (Dbl (p_dy p)) (Dbl (drawWidth p)) (Dbl (drawHeight p))).
Proof.
  intros Hc Hx. unfold pose_onload, saveState, getImageData. rewrite Hc. simpl.
  unfold drawImage, fillRect_canvas, with_context. rewrite Hx. simpl. reflexivity.
Qed.

(** C7. [importImage] of an image that decodes (the upload, the file read
    and the image load) leaves on the surface the image pasted over white at
    [dx, dy] with size [dw x dh], all four computed in binary64 as the code
    computes them: when the surface aspect ratio is greater than the image
    aspect ratio, [dh] is the surface height and [dw] is that height times
    the image aspect ratio; otherwise [dw] is the surface width and [dh] is
    that width divided by the image aspect ratio; on each axis the offset is
    half of what the drawn size leaves free.  A 100x200 image on the 512x256
    surface is drawn exactly 128 wide and 256 tall at [dx = 192], [dy = 0],
    which leaves exactly 192 to its right and nothing below. *)
Theorem C7_letterbox_placement
  (decodeText : string -> option (Z * Z)) (src : Url) (s : State)
  (canvas : CanvasEl) (ctx : Context2D) (img : Image) :
  canvasRef s = Some canvas -> context2d canvas = Some ctx ->
  decode decodeText src = Some img ->
  let cw := Binary64.of_Z (width canvas) in
  let ch := Binary64.of_Z (height canvas) in
  let iw := Binary64.of_Z (img_width img) in
  let ih := Binary64.of_Z (img_height img) in
  let canvasAspect := Binary64.div cw ch in
  let imgAspect := Binary64.div iw ih in
  exists dx dy dw dh,
    getImageData (importImage decodeText src s)
    = PngOf (width canvas) (height canvas)
        (Pasted (Filled "white") src (img_width img) (img_height img)
           (Dbl dx) (Dbl dy) (Dbl dw) (Dbl dh)) /\
    (Binary64.gt canvasAspect imgAspect = true ->
     dh = ch /\ dw = Binary64.mul ch imgAspect) /\
    (Binary64.gt canvasAspect imgAspect = false ->
     dw = cw /\ dh = Binary64.div cw imgAspect) /\
    dx = Binary64.div (Binary64.sub cw dw) Binary64.two /\
    dy = Binary64.div (Binary64.sub ch dh) Binary64.two /\
    (width canvas = 512 -> height canvas = 256 ->
     img_width img = 100 -> img_height img = 200 ->
     dw = Binary64.of_Z 128 /\ dh = Binary64.of_Z 256 /\
     dx = Binary64.of_Z 192 /\ dy = Binary64.of_Z 0 /\
     Binary64.sub cw (Binary64.add dx dw) = Binary64.of_Z 192 /\
     Binary64.sub ch (Binary64.add dy dh) = Binary64.of_Z 0).
Proof.
  intros Hc Hx Hd cw ch iw ih canvasAspect imgAspect.
  destruct (decode_image decodeText src Hd) as [Hs _].
  set (p := placement (width canvas) (height canvas) (img_width img) (img_height img)).
  exists (p_dx p), (p_dy p), (drawWidth p), (drawHeight p).
  split.
  { rewrite (@importImage_unfold decodeText src s canvas ctx img Hc Hx Hd).
    rewrite render_effects_export.
    rewrite (@pose_onload_export (closure_of s) img s canvas ctx Hc Hx).
    rewrite Hs. reflexivity. }
  assert (Ep : p = placement (width canvas) (height canvas)
                     (img_width img) (img_height img)) by reflexivity.
  clearbody p. unfold placement in Ep.
  fold cw ch iw ih in Ep. fold canvasAspect imgAspect in Ep.
  split; [|split; [|split; [|split]]].
  - intros G. rewrite G in Ep. subst p. simpl. split; reflexivity.
  - intros G. rewrite G in Ep. subst p. simpl. split; reflexivity.
  - destruct (Binary64.gt canvasAspect imgAspect); subst p; reflexivity.
  - destruct (Binary64.gt canvasAspect imgAspect); subst p; reflexivity.
  - intros Hw Hh Hiw Hih. subst p cw ch iw ih canvasAspect imgAspect.
    rewrite Hw, Hh, Hiw, Hih. vm_compute. repeat split.
Qed.

Lemma C7_letterbox_placement_witness :
  let s := mount (Some fresh_canvas) in
  exists dx dy dw dh,
    getImageData (importImage sample_decoder (Text "tall.png") s)
    = PngOf 512 256
        (Pasted (Filled "white") (Text "tall.png") 100 200
           (Dbl dx) (Dbl dy) (Dbl dw) (Dbl dh)) /\
    dw = Binary64.of_Z 128 /\ dh = Binary64.of_Z 256 /\
    dx = Binary64.of_Z 192 /\ dy = Binary64.of_Z 0 /\
    Binary64.sub (Binary64.of_Z 512) (Binary64.add dx dw) = Binary64.of_Z 192.
Proof.
  intros s.
  destruct (canvasRef s) as [cv|] eqn:Hc; [|vm_compute in Hc; discriminate Hc].
  destruct (context2d cv) as [ctx|] eqn:Hx;
    [|vm_compute in Hc; inversion Hc; subst cv; discriminate Hx].
  assert (Hwh : width cv = 512 /\ height cv = 256)
    by (vm_compute in Hc; inversion Hc; split; reflexivity).
  destruct Hwh as [Hw Hh].
  assert (Hd : decode sample_decoder (Text "tall.png")
               = Some (mkImage 100 200 (Text "tall.png")))
    by (vm_compute; reflexivity).
  destruct (@C7_letterbox_placement sample_decoder (Text "tall.png") s cv ctx
              (mkImage 100 200 (Text "tall.png")) Hc Hx Hd)
    as (dx & dy & dw & dh & Hb & _ & _ & _ & _ & Hex).
  destruct (Hex Hw Hh eq_refl eq_refl) as (Edw & Edh & Edx & Edy & Er & _).
  rewrite Hw, Hh in Hb. rewrite Hw in Er.
  simpl img_width in Hb. simpl img_height in Hb.
  exists dx, dy, dw, dh.
  split; [exact Hb|]. repeat split; assumption.
Defined.

(** Binary64 rounds: for a 300x100 image on the 512x256 surface the drawn
    height is the double nearest to 512/3, and the space left below the image
    differs from the offset above it in the last places. *)
Remark placement_rounds_in_binary64 :
  let p := placement 512 256 300 100 in
  drawWidth p = Binary64.of_Z 512 /\
  PrimFloat.eqb (p_dy p)
    (Binary64.sub (Binary64.of_Z 256) (Binary64.add (p_dy p) (drawHeight p)))
  = false.
Proof. vm_compute. split; reflexivity. Qed.

(** A commit that nothing interrupts (the end of an active stroke; an
    import, or a pose request, whose callbacks run before any other event)
    keeps the history up to and including the cursor, drops every snapshot
    after it, appends the snapshot of the surface as it is after the
    operation and moves the cursor to that last entry; redo after such a
    commit changes nothing, in particular after undo followed by one. *)
Lemma uninterrupted_commit_prunes_redo_branch
  (decodeText : string -> option (Z * Z)) (c : Commit) (s : State)
  (canvas : CanvasEl) (ctx : Context2D) :
  canvasRef s = Some canvas -> context2d canvas = Some ctx ->
  cursor_in_bounds s -> commits decodeText c s ->
  let s' := commit decodeText c s in
  (history s' = firstn (Z.to_nat (historyIndex s) + 1) (history s)
                ++ [getImageData s'] /\
   historyIndex s' = Z.of_nat (List.length (history s')) - 1) /\
  step decodeText s' EvRedo = s' /\
  (let u := commit decodeText c (step decodeText s EvUndo) in
   step decodeText u EvRedo = u).
Proof.
  intros Hc Hx Hb Hk.
  assert (H1 := @commit_effect decodeText c s canvas ctx Hc Hx (proj1 Hb) Hk).
  simpl in H1. simpl. split; [exact H1|]. split.
  - apply redo_at_end. apply H1.
  - apply redo_at_end.
    destruct (undo_step decodeText s) as [ts E]. rewrite E.
    refine (proj2 (@commit_effect decodeText c _ canvas ctx _ Hx _ _)).
    + split_match; exact Hc.
    + unfold cursor_in_bounds in Hb.
      destruct (historyIndex s >? 0) eqn:G; simpl; [apply Z.gtb_lt in G|]; lia.
    + destruct c; simpl in *; auto; split_match; exact Hk.
Qed.

Lemma uninterrupted_commit_prunes_redo_branch_example :
  let s := run sample_decoder (mount (Some fresh_canvas))
             [EvMouseDown 10 10; EvMouseMove 20 20; EvMouseUp;
              EvMouseDown 30 30; EvMouseMove 40 40; EvMouseUp; EvUndo; EvUndo] in
  let s' := commit sample_decoder (ImportImage (Text "tall.png")) s in
  historyIndex s = 0 /\ List.length (history s) = 3%nat /\
  List.length (history s') = 2%nat /\ historyIndex s' = 1 /\
  step sample_decoder s' EvRedo = s'.
Proof.
  intros s s'.
  destruct (canvasRef s) as [cv|] eqn:Hc; [|vm_compute in Hc; discriminate Hc].
  destruct (context2d cv) as [ctx|] eqn:Hx;
    [|vm_compute in Hc; inversion Hc; subst cv; discriminate Hx].
  assert (Hb : cursor_in_bounds s) by (vm_compute; split; discriminate).
  assert (Hk : commits sample_decoder (ImportImage (Text "tall.png")) s)
    by (vm_compute; discriminate).
  destruct (@uninterrupted_commit_prunes_redo_branch sample_decoder
              (ImportImage (Text "tall.png")) s cv ctx Hc Hx Hb Hk)
    as [_ [Hr _]].
  split; [vm_compute; reflexivity|].
  split; [vm_compute; reflexivity|].
  split; [vm_compute; reflexivity|].
  split; [vm_compute; reflexivity|].
  exact Hr.
Defined.

(** C5, where the code departs from it.  [img.onload] of an import commits
    through the [saveState] of the render in which the upload was handled.
    Two strokes, an upload whose file read ends, two undos, and only then
    the end of the image load: the cursor is at 0 and two snapshots follow it
    when the commit happens, yet none of them is discarded; the pose
    snapshot is appended after them and the cursor moves to index 3.  The
    end of a stroke in the same state does discard them. *)
Theorem C5_import_commit_after_undo_keeps_the_redo_branch :
  let before := run sample_decoder (mount (Some fresh_canvas))
                  [EvMouseDown 10 10; EvMouseMove 20 20; EvMouseUp;
                   EvMouseDown 30 30; EvMouseMove 40 40; EvMouseUp;
                   EvPoseUpload (Some (Text "tall.png")); EvTaskDone 3%nat;
                   EvUndo; EvUndo] in
  let after := step sample_decoder before (EvTaskDone 3%nat) in
  let stroke := run sample_decoder before
                  [EvMouseDown 50 50; EvMouseMove 60 60; EvMouseUp] in
  historyIndex before = 0 /\ List.length (history before) = 3%nat /\
  nth_error (pending before) 3
  = Some (PoseImageLoad (Text "tall.png")
            (mkClosure (history before) 2)) /\
  history after = history before ++ [getImageData after] /\
  historyIndex after = 3 /\
  history after <> firstn 1 (history before) ++ [getImageData after] /\
  history stroke = firstn 1 (history before) ++ [getImageData stroke] /\
  historyIndex stroke = 1.
Proof. vm_compute. repeat split; discriminate. Qed.

(** ** Strokes, mode changes and clear *)

Lemma set_mode_step decodeText m s : step decodeText s (EvSetMode m) = setMode m s.
Proof. unfold step. simpl. apply render_effects_quiet; reflexivity. Qed.

Lemma draw_outside_draw_mode x y s : mode s <> ModeDraw -> draw x y s = s.
Proof.
  intros H. unfold draw.
  destruct (isDrawing s); auto. destruct (lastPointRef s) as [[lx ly]|]; auto.
  destruct (mode s); auto. contradiction H. reflexivity.
Qed.

Lemma moves_outside_draw_mode decodeText pts : forall s,
  mode s <> ModeDraw ->
  run decodeText s (map (fun p : Q * Q => EvMouseMove (fst p) (snd p)) pts) = s.
Proof.
  induction pts as [|p pts IH]; intros s H; simpl; auto.
  assert (E : step decodeText s (EvMouseMove (fst p) (snd p)) = s).
  { unfold step. simpl. rewrite draw_outside_draw_mode by exact H.
    apply render_effects_quiet; reflexivity. }
  rewrite E. apply IH, H.
Qed.

Lemma toDataURL_with_context f canvas :
  toDataURL (with_context f canvas) = toDataURL canvas.
Proof. unfold toDataURL, with_context. destruct (context2d canvas); reflexivity. Qed.

Lemma end_stroke_export decodeText s canvas ctx :
  canvasRef s = Some canvas -> context2d canvas = Some ctx -> isDrawing s = true ->
  getImageData (step decodeText s EvMouseUp) = toDataURL canvas.
Proof.
  intros Hc Hx Hd. unfold step. rewrite render_effects_export. simpl.
  unfold stopDrawing, saveState. rewrite Hd, Hc, Hx. simpl.
  apply toDataURL_with_context.
Qed.

Lemma js_index_firstn_snoc (A : Type) (l : list A) (i : Z) (u v : A) :
  js_index l i = Some u ->
  let l' := firstn (Z.to_nat i + 1) l ++ [v] in
  js_index l' (Z.of_nat (List.length l') - 1) = Some v /\
  js_index l' (Z.of_nat (List.length l') - 1 - 1) = Some u /\
  Z.of_nat (List.length l') = i + 2.
Proof.
  unfold js_index. destruct (i <? 0) eqn:E; [discriminate|].
  apply Z.ltb_ge in E. intros Hu. simpl.
  assert (Hlt : (Z.to_nat i < List.length l)%nat)
    by (apply nth_error_Some; congruence).
  assert (Hlen : List.length (firstn (Z.to_nat i + 1) l) = (Z.to_nat i + 1)%nat)
    by (apply firstn_length_le; lia).
  rewrite length_app, Hlen. simpl.
  replace (Z.of_nat (Z.to_nat i + 1 + 1) - 1) with (Z.of_nat (Z.to_nat i + 1)) by lia.
  replace (Z.of_nat (Z.to_nat i + 1) - 1) with i by lia.
  destruct (Z.of_nat (Z.to_nat i + 1) <? 0) eqn:E1; [apply Z.ltb_lt in E1; lia|].
  destruct (i <? 0) eqn:E2; [apply Z.ltb_lt in E2; lia|].
  rewrite Nat2Z.id. repeat split.
  - pose proof (nth_error_snoc (firstn (Z.to_nat i + 1) l) v) as Hn.
    rewrite Hlen in Hn. exact Hn.
  - rewrite nth_error_app1 by lia. rewrite nth_error_firstn.
    destruct (Nat.ltb_spec (Z.to_nat i) (Z.to_nat i + 1)); [exact Hu|lia].
  - lia.
Qed.

(** C10. When the mode is changed away from free draw during an active
    stroke, every following extendStroke leaves the state (and so every
    pixel) as it is, and the following endStroke still commits the current
    surface: the history is cut after the cursor and gains the snapshot of
    the unchanged surface as its last entry, which equals its predecessor
    whenever the surface equalled the snapshot at the cursor. *)
Theorem C10_mode_change_mid_stroke_commits_unchanged_surface
  (decodeText : string -> option (Z * Z)) (s : State) (canvas : CanvasEl)
  (ctx : Context2D) (m : InputMode) (pts : list (Q * Q)) :
  canvasRef s = Some canvas -> context2d canvas = Some ctx ->
  isDrawing s = true -> m <> ModeDraw -> 0 <= historyIndex s ->
  let s1 := step decodeText s (EvSetMode m) in
  let s2 := run decodeText s1
              (map (fun p : Q * Q => EvMouseMove (fst p) (snd p)) pts) in
  let s3 := step decodeText s2 EvMouseUp in
  s2 = s1 /\ getImageData s2 = getImageData s /\
  history s3 = firstn (Z.to_nat (historyIndex s) + 1) (history s) ++ [getImageData s] /\
  historyIndex s3 = Z.of_nat (List.length (history s3)) - 1 /\
  (js_index (history s) (historyIndex s) = Some (getImageData s) ->
   historyIndex s3 = historyIndex s + 1 /\
   js_index (history s3) (historyIndex s3) = Some (getImageData s) /\
   js_index (history s3) (historyIndex s3 - 1) = Some (getImageData s)).
Proof.
  intros Hc Hx Hd Hm Hi. simpl.
  rewrite set_mode_step.
  rewrite moves_outside_draw_mode by exact Hm.
  destruct (@commit_effect decodeText EndStroke (setMode m s) canvas ctx Hc Hx Hi Hd)
    as [Hh Hidx].
  simpl in Hh, Hidx.
  rewrite (@end_stroke_export decodeText (setMode m s) canvas ctx Hc Hx Hd) in Hh.
  rewrite <- (@getImageData_canvas s canvas Hc) in Hh.
  split; [reflexivity|]. split; [reflexivity|]. split; [exact Hh|].
  split; [exact Hidx|].
  intros Hcur.
  destruct (@js_index_firstn_snoc Url (history s) (historyIndex s)
              (getImageData s) (getImageData s) Hcur) as (G1 & G2 & G3).
  rewrite Hidx, Hh.
  repeat split; auto; lia.
Qed.

Lemma C10_mode_change_mid_stroke_commits_unchanged_surface_witness :
  let s := run sample_decoder (mount (Some fresh_canvas)) [EvMouseDown 10 10] in
  let s3 := step sample_decoder
              (run sample_decoder (step sample_decoder s (EvSetMode ModeUpload))
                 (map (fun p : Q * Q => EvMouseMove (fst p) (snd p))
                    [(20, 20); (30, 30)]%Q)) EvMouseUp in
  history s = [blank_url 512 256] /\
  js_index (history s3) (historyIndex s3) = Some (getImageData s) /\
  js_index (history s3) (historyIndex s3 - 1) = Some (getImageData s).
Proof.
  intros s s3.
  destruct (canvasRef s) as [cv|] eqn:Hc; [|vm_compute in Hc; discriminate Hc].
  destruct (context2d cv) as [ctx|] eqn:Hx;
    [|vm_compute in Hc; inversion Hc; subst cv; discriminate Hx].
  assert (Hd : isDrawing s = true) by (vm_compute; reflexivity).
  assert (Hm : ModeUpload <> ModeDraw) by discriminate.
  assert (Hi : 0 <= historyIndex s) by (vm_compute; discriminate).
  assert (Hcur : js_index (history s) (historyIndex s) = Some (getImageData s))
    by (vm_compute; reflexivity).
  destruct (@C10_mode_change_mid_stroke_commits_unchanged_surface
              sample_decoder s cv ctx ModeUpload [(20, 20); (30, 30)]%Q
              Hc Hx Hd Hm Hi) as (_ & _ & _ & _ & H).
  destruct (H Hcur) as (_ & H1 & H2).
  split; [vm_compute; reflexivity|].
  split; [exact H1 | exact H2].
Defined.

Lemma clear_step decodeText s canvas ctx :
  canvasRef s = Some canvas -> context2d canvas = Some ctx ->
  let white := fillRect_canvas (with_context (set_fillStyle "white") canvas) in
  step decodeText s EvClear
  = enqueue (RestoreImageLoad (toDataURL white))
      (setHistoryIndex 0 (setHistory [toDataURL white] (set_canvasRef (Some white) s))).
Proof.
  intros Hc Hx. unfold step. simpl. unfold clearCanvas, initializeCanvas.
  rewrite Hc, Hx. unfold render_effects. simpl.
  rewrite String.eqb_refl, Z.eqb_refl.
  replace (Nat.eqb (historyArray s) (S (historyArray s))) with false
    by (symmetry; apply Nat.eqb_neq; lia).
  simpl. unfold restoreCanvasFromHistory, getContext. simpl.
  unfold fillRect_canvas, with_context. rewrite Hx. simpl. reflexivity.
Qed.

Lemma clear_without_canvas decodeText s :
  getContext s = None -> step decodeText s EvClear = s.
Proof.
  intros H. unfold step. simpl. unfold clearCanvas, initializeCanvas.
  unfold getContext in H.
  destruct (canvasRef s) as [c|]; [rewrite H|]; apply render_effects_quiet; reflexivity.
Qed.

(** C2, as the code has it.  [clear()] has no failure case: without a canvas
    or context it changes nothing, and otherwise it paints the surface white
    and resets the history to the one blank snapshot with the cursor at 0.
    It never touches the stroke state: the active flag, the last pen position
    and the context's current path stay as they were.  A stroke that is
    active when [clear()] runs is therefore still active afterwards: the next
    extendStroke strokes the path of the stroke (the part drawn before the
    clear included) on the cleared surface and the next endStroke commits a
    second history entry. *)
Theorem C2_clear_resets_history_but_keeps_stroke_active
  (decodeText : string -> option (Z * Z)) (s : State) :
  let s' := step decodeText s EvClear in
  isDrawing s' = isDrawing s /\ lastPointRef s' = lastPointRef s /\
  option_map currentPath (getContext s') = option_map currentPath (getContext s) /\
  (getContext s = None -> s' = s) /\
  (forall canvas ctx,
     canvasRef s = Some canvas -> context2d canvas = Some ctx ->
     getImageData s' = blank_url (width canvas) (height canvas) /\
     history s' = [blank_url (width canvas) (height canvas)] /\
     historyIndex s' = 0 /\
     (isDrawing s = true -> lastPointRef s <> None -> mode s = ModeDraw ->
      (forall x y, exists seg,
         getImageData (step decodeText s' (EvMouseMove x y))
         = PngOf (width canvas) (height canvas)
             (Stroked (Filled "white") (currentPath ctx ++ [seg])
                (strokeStyle ctx) (lineWidth ctx) (lineCap ctx) (lineJoin ctx))) /\
      List.length (history (step decodeText s' EvMouseUp)) = 2%nat)).
Proof.
  simpl.
  destruct (getContext s) as [cx|] eqn:G.
  - unfold getContext in G. destruct (canvasRef s) as [cv|] eqn:Hc; [|discriminate].
    rewrite (@clear_step decodeText s cv cx Hc G). simpl.
    split; [reflexivity|]. split; [reflexivity|]. split.
    { unfold getContext, fillRect_canvas, with_context. simpl. rewrite G. reflexivity. }
    split; [discriminate|].
    intros cv' cx' Hc' Hx'. inversion Hc'; subst cv'.
    rewrite G in Hx'. inversion Hx'; subst cx'.
    assert (Hw : fillRect_canvas (with_context (set_fillStyle "white") cv)
                 = mkCanvas (width cv) (height cv)
                     (Some (set_fillStyle "white" cx)) (Filled "white")).
    { unfold fillRect_canvas, with_context. rewrite G. reflexivity. }
    rewrite Hw.
    split; [reflexivity|]. split; [reflexivity|]. split; [reflexivity|].
    intros Hd Hl Hm. split.
    + intros x y. unfold step. rewrite render_effects_export. simpl.
      unfold draw. simpl. rewrite Hd, Hm.
      destruct (lastPointRef s) as [[lx ly]|]; [|contradiction Hl; reflexivity].
      simpl. unfold getImageData. simpl. eexists. reflexivity.
    + unfold step.
      rewrite (proj1 (render_effects_history _ _)). simpl.
      unfold stopDrawing, saveState. simpl. rewrite Hd. simpl. reflexivity.
  - rewrite (@clear_without_canvas decodeText s G). rewrite G.
    split; [reflexivity|]. split; [reflexivity|]. split; [reflexivity|].
    split; [reflexivity|].
    intros cv cx Hc Hx. unfold getContext in G. rewrite Hc, Hx in G. discriminate.
Qed.

(** C2 as stated fails: after a stroke is begun and [clear()] runs, the
    stroke is still active, the next extendStroke paints and the next
    endStroke commits. *)
Lemma C2_counterexample :
  let cleared := run sample_decoder (mount (Some fresh_canvas))
                   [EvMouseDown 10 10; EvClear] in
  let extended := step sample_decoder cleared (EvMouseMove 20 20) in
  let ended := step sample_decoder extended EvMouseUp in
  isDrawing cleared = true /\
  getImageData cleared = blank_url 512 256 /\
  getImageData extended <> getImageData cleared /\
  history cleared = [blank_url 512 256] /\
  List.length (history ended) = 2%nat /\ historyIndex ended = 1.
Proof. vm_compute. repeat split; discriminate. Qed.

Lemma C2_clear_resets_history_but_keeps_stroke_active_witness :
  let s := run sample_decoder (mount (Some fresh_canvas)) [EvMouseDown 10 10] in
  let s' := step sample_decoder s EvClear in
  isDrawing s' = true /\ history s' = [blank_url 512 256] /\
  List.length (history (step sample_decoder s' EvMouseUp)) = 2%nat.
Proof.
  intros s s'.
  destruct (canvasRef s) as [cv|] eqn:Hc; [|vm_compute in Hc; discriminate Hc].
  destruct (context2d cv) as [ctx|] eqn:Hx;
    [|vm_compute in Hc; inversion Hc; subst cv; discriminate Hx].
  destruct (@C2_clear_resets_history_but_keeps_stroke_active sample_decoder s)
    as (Hd & _ & _ & _ & H).
  destruct (H cv ctx Hc Hx) as (_ & _ & _ & Hs).
  assert (D : isDrawing s = true) by (vm_compute; reflexivity).
  assert (L : lastPointRef s <> None) by (vm_compute; discriminate).
  assert (M : mode s = ModeDraw) by (vm_compute; reflexivity).
  destruct (Hs D L M) as [_ Hlen].
  split; [fold s' in Hd; rewrite Hd; exact D|].
  split; [vm_compute; reflexivity|].
  exact Hlen.
Defined.

(** ** Images that do not decode *)

Lemma importImage_undecodable decodeText src s canvas ctx :
  canvasRef s = Some canvas -> context2d canvas = Some ctx ->
  decode decodeText src = None ->
  importImage decodeText src s = s.
Proof.
  intros Hc Hx Hd. unfold importImage, run. simpl fold_left.
  assert (S1 : step decodeText s (EvPoseUpload (Some src))
               = enqueue (FileRead src (closure_of s)) s).
  { unfold step. simpl. apply render_effects_quiet; reflexivity. }
  rewrite S1.
  assert (S2 : step decodeText (enqueue (FileRead src (closure_of s)) s)
                 (EvTaskDone (List.length (pending s)))
               = enqueue (PoseImageLoad src (closure_of s)) s).
  { unfold step. simpl. rewrite nth_error_snoc, remove_nth_snoc.
    unfold loadPoseImageOntoCanvas, getContext. simpl. rewrite Hc, Hx.
    rewrite render_effects_quiet by reflexivity. reflexivity. }
  rewrite S2.
  unfold step. simpl. rewrite nth_error_snoc, remove_nth_snoc, Hd.
  rewrite render_effects_quiet by reflexivity. destruct s; reflexivity.
Qed.

Lemma requestPose_undecodable decodeText bytes s canvas ctx :
  canvasRef s = Some canvas -> context2d canvas = Some ctx ->
  prompt s <> "" ->
  decode decodeText (png_data_url bytes) = None ->
  requestPoseFromPrompt decodeText (ImageBytes bytes) s
  = setIsGeneratingPose false (setErrorMessage None s).
Proof.
  intros Hc Hx Hp Hd. unfold requestPoseFromPrompt, run. simpl fold_left.
  assert (S1 : step decodeText s EvGeneratePose
               = enqueue (PoseRequest (prompt s) (closure_of s))
                   (setErrorMessage None (setIsGeneratingPose true s))).
  { unfold step. simpl. unfold handleGeneratePose.
    destruct (String.eqb_spec (prompt s) ""); [contradiction|].
    apply render_effects_quiet; reflexivity. }
  rewrite S1.
  assert (S2 : step decodeText
                 (enqueue (PoseRequest (prompt s) (closure_of s))
                    (setErrorMessage None (setIsGeneratingPose true s)))
                 (EvServiceReply (List.length (pending s)) (ImageBytes bytes))
               = enqueue (PoseImageLoad
                            (png_data_url bytes)
                            (closure_of s))
                   (setErrorMessage None (setIsGeneratingPose false s))).
  { unfold step. simpl handle. cbv beta iota.
    change (pending (enqueue (PoseRequest (prompt s) (closure_of s))
                       (setErrorMessage None (setIsGeneratingPose true s))))
      with (pending s ++ [PoseRequest (prompt s) (closure_of s)]).
    rewrite nth_error_snoc, remove_nth_snoc.
    unfold handleGeneratePose_resume, generatePoseFromPrompt,
      loadPoseImageOntoCanvas, getContext.
    simpl. rewrite Hc, Hx. rewrite render_effects_quiet by reflexivity. reflexivity. }
  rewrite S2.
  unfold step. simpl handle. cbv beta iota.
  change (pending (enqueue (PoseImageLoad
                              (png_data_url bytes)
                              (closure_of s))
                     (setErrorMessage None (setIsGeneratingPose false s))))
    with (pending s ++ [PoseImageLoad
                          (png_data_url bytes)
                          (closure_of s)]).
  rewrite nth_error_snoc, remove_nth_snoc, Hd.
  rewrite render_effects_quiet by reflexivity. destruct s; reflexivity.
Qed.

(** C4, as the code has it.  When the input of [importImage] does not decode,
    nothing is signalled to anyone: the load ends without running any
    callback, the component's only error channel ([errorMessage]) is not
    written, and the whole state -- surface, history, cursor -- is
    exactly as before the call.  The same holds on the prompt path when the
    service returns bytes that do not decode: surface and history are
    untouched and [errorMessage] is empty. *)
Theorem C4_undecodable_image_changes_nothing_and_signals_nothing
  (decodeText : string -> option (Z * Z)) (s : State)
  (canvas : CanvasEl) (ctx : Context2D) (src : Url) (bytes : string) :
  canvasRef s = Some canvas -> context2d canvas = Some ctx ->
  (decode decodeText src = None ->
   importImage decodeText src s = s) /\
  (prompt s <> "" ->
   decode decodeText (png_data_url bytes) = None ->
   let s' := requestPoseFromPrompt decodeText (ImageBytes bytes) s in
   errorMessage s' = None /\ getImageData s' = getImageData s /\
   history s' = history s /\ historyIndex s' = historyIndex s).
Proof.
  intros Hc Hx. split.
  - intros Hd. eapply importImage_undecodable; eauto.
  - intros Hp Hd. simpl.
    rewrite (@requestPose_undecodable decodeText bytes s canvas ctx Hc Hx Hp Hd).
    repeat split.
Qed.

Lemma C4_undecodable_image_changes_nothing_and_signals_nothing_witness :
  let s := setPrompt "a backflip" (mount (Some fresh_canvas)) in
  importImage sample_decoder (Text "not an image") s = s /\
  errorMessage (requestPoseFromPrompt sample_decoder (ImageBytes "GARBAGE") s) = None.
Proof.
  intros s.
  destruct (canvasRef s) as [cv|] eqn:Hc; [|vm_compute in Hc; discriminate Hc].
  destruct (context2d cv) as [ctx|] eqn:Hx;
    [|vm_compute in Hc; inversion Hc; subst cv; discriminate Hx].
  destruct (@C4_undecodable_image_changes_nothing_and_signals_nothing
              sample_decoder s cv ctx (Text "not an image") "GARBAGE" Hc Hx)
    as [H1 H2].
  split.
  - apply H1. vm_compute. reflexivity.
  - apply H2; [vm_compute; discriminate | vm_compute; reflexivity].
Defined.

(** C4 as stated fails: importing an undecodable image leaves no trace of a
    failure anywhere; the state after the call, error channel included, is
    the state before it. *)
Lemma C4_counterexample :
  let s := setPrompt "a backflip" (mount (Some fresh_canvas)) in
  decode sample_decoder (Text "not an image") = None /\
  importImage sample_decoder (Text "not an image") s = s /\
  errorMessage (importImage sample_decoder (Text "not an image") s) = None /\
  errorMessage (requestPoseFromPrompt sample_decoder (ImageBytes "GARBAGE") s) = None.
Proof. vm_compute. repeat split. Qed.

(** ** A pose that arrives after clear() *)

Lemma js_index_last (A : Type) (l : list A) (v : A) :
  js_index (l ++ [v]) (Z.of_nat (List.length (l ++ [v])) - 1) = Some v.
Proof.
  unfold js_index. rewrite length_app. simpl.
  destruct (Z.of_nat (List.length l + 1) - 1 <? 0) eqn:E; [apply Z.ltb_lt in E; lia|].
  replace (Z.to_nat (Z.of_nat (List.length l + 1) - 1)) with (List.length l) by lia.
  apply nth_error_snoc.
Qed.

Lemma saveState_last env s canvas :
  canvasRef s = Some canvas ->
  let s' := saveState env s in
  js_index (history s') (historyIndex s') = Some (getImageData s') /\
  historyIndex s' = Z.of_nat (List.length (history s')) - 1.
Proof.
  intros Hc. unfold saveState. rewrite Hc. simpl.
  rewrite (@getImageData_canvas _ canvas) by exact Hc.
  split; [apply js_index_last|reflexivity].
Qed.

(** C1, as the code has it.  The component keeps no record of resets: a
    pose requested before [clear()] and answered after it is applied like any
    other.  After [clear()] the surface and the history are blank; once the
    response has resolved and its image has loaded, the surface is the
    fetched pose letterboxed on white, and the snapshot of that surface is
    the last entry of the history, with the cursor on it. *)
Theorem C1_late_pose_is_applied_after_clear
  (decodeText : string -> option (Z * Z)) (s : State)
  (canvas : CanvasEl) (ctx : Context2D) (bytes : string) (img : Image) :
  canvasRef s = Some canvas -> context2d canvas = Some ctx ->
  prompt s <> "" ->
  decode decodeText (png_data_url bytes) = Some img ->
  let k := List.length (pending s) in
  let cleared := run decodeText s [EvGeneratePose; EvClear] in
  let resolved := run decodeText cleared
                    [EvServiceReply k (ImageBytes bytes); EvTaskDone (S k)] in
  let p := placement (width canvas) (height canvas) (img_width img) (img_height img) in
  getImageData cleared = blank_url (width canvas) (height canvas) /\
  history cleared = [blank_url (width canvas) (height canvas)] /\
  getImageData resolved
  = PngOf (width canvas) (height canvas)
      (Pasted (Filled "white") (img_src img) (img_width img) (img_height img)
         (Dbl (p_dx p)) (Dbl (p_dy p)) (Dbl (drawWidth p)) (Dbl (drawHeight p))) /\
  js_index (history resolved) (historyIndex resolved) = Some (getImageData resolved) /\
  historyIndex resolved = Z.of_nat (List.length (history resolved)) - 1.
Proof.
  intros Hc Hx Hp Hd. simpl.
  rewrite (@generate_step decodeText s Hp).
  set (s1 := enqueue (PoseRequest (prompt s) (closure_of s))
               (setErrorMessage None (setIsGeneratingPose true s))).
  assert (Hc1 : canvasRef s1 = Some canvas) by exact Hc.
  rewrite (@clear_step decodeText s1 canvas ctx Hc1 Hx).
  assert (Hw : fillRect_canvas (with_context (set_fillStyle "white") canvas)
               = mkCanvas (width canvas) (height canvas)
                   (Some (set_fillStyle "white" ctx)) (Filled "white")).
  { unfold fillRect_canvas, with_context. rewrite Hx. reflexivity. }
  rewrite Hw.
  set (white := mkCanvas (width canvas) (height canvas)
                  (Some (set_fillStyle "white" ctx)) (Filled "white")).
  set (cleared := enqueue (RestoreImageLoad (toDataURL white))
                    (setHistoryIndex 0
                       (setHistory [toDataURL white] (set_canvasRef (Some white) s1)))).
  split; [reflexivity|]. split; [reflexivity|].
  assert (Hpc : pending cleared
                = pending s ++ PoseRequest (prompt s) (closure_of s)
                               :: [RestoreImageLoad (toDataURL white)]).
  { simpl. rewrite <- app_assoc. reflexivity. }
  assert (Hk : nth_error (pending cleared) (List.length (pending s))
               = Some (PoseRequest (prompt s) (closure_of s))).
  { rewrite Hpc. apply nth_error_middle. }
  rewrite (@reply_step decodeText cleared _ _ _ bytes white (set_fillStyle "white" ctx)
             Hk eq_refl eq_refl).
  set (s3 := setIsGeneratingPose false
               (enqueue (PoseImageLoad (png_data_url bytes) (closure_of s))
                  (set_pending (remove_nth (List.length (pending s)) (pending cleared))
                     cleared))).
  assert (Hp3 : pending s3
                = (pending s ++ [RestoreImageLoad (toDataURL white)])
                  ++ [PoseImageLoad (png_data_url bytes) (closure_of s)]).
  { change (pending s3)
      with (remove_nth (List.length (pending s)) (pending cleared)
            ++ [PoseImageLoad (png_data_url bytes) (closure_of s)]).
    rewrite Hpc, remove_nth_middle. reflexivity. }
  assert (Hk3 : nth_error (pending s3) (S (List.length (pending s)))
                = Some (PoseImageLoad (png_data_url bytes) (closure_of s))).
  { rewrite Hp3.
    replace (S (List.length (pending s)))
      with (List.length (pending s ++ [RestoreImageLoad (toDataURL white)]))
      by (rewrite length_app; simpl; lia).
    apply nth_error_snoc. }
  rewrite (@pose_load_step decodeText s3 _ _ _ img Hk3 Hd).
  rewrite render_effects_export.
  destruct (render_effects_history s3
              (pose_onload (closure_of s) img
                 (set_pending (remove_nth (S (List.length (pending s))) (pending s3)) s3)))
    as [-> ->].
  set (s4 := set_pending (remove_nth (S (List.length (pending s))) (pending s3)) s3).
  assert (Hc4 : canvasRef s4 = Some white) by reflexivity.
  split.
  - unfold pose_onload, saveState. rewrite Hc4. simpl. reflexivity.
  - unfold pose_onload. rewrite Hc4.
    eapply (@saveState_last (closure_of s)); simpl; eauto.
Qed.

Lemma C1_late_pose_is_applied_after_clear_witness :
  let s := setPrompt "x" (mount (Some fresh_canvas)) in
  let k := List.length (pending s) in
  let cleared := run sample_decoder s [EvGeneratePose; EvClear] in
  let resolved := run sample_decoder cleared
                    [EvServiceReply k (ImageBytes "POSE"); EvTaskDone (S k)] in
  getImageData cleared = blank_url 512 256 /\
  getImageData resolved
  = PngOf 512 256
      (Pasted (Filled "white") (png_data_url "POSE") 1024 1024
         (Dbl (Binary64.of_Z 128)) (Dbl (Binary64.of_Z 0))
         (Dbl (Binary64.of_Z 256)) (Dbl (Binary64.of_Z 256))) /\
  js_index (history resolved) (historyIndex resolved) = Some (getImageData resolved).
Proof.
  intros s k cleared resolved.
  destruct (canvasRef s) as [cv|] eqn:Hc; [|vm_compute in Hc; discriminate Hc].
  destruct (context2d cv) as [ctx|] eqn:Hx;
    [|vm_compute in Hc; inversion Hc; subst cv; discriminate Hx].
  assert (Hp : prompt s <> "") by (vm_compute; discriminate).
  assert (Hd : decode sample_decoder (png_data_url "POSE")
               = Some (mkImage 1024 1024 (png_data_url "POSE")))
    by (vm_compute; reflexivity).
  destruct (@C1_late_pose_is_applied_after_clear sample_decoder s cv ctx "POSE"
              (mkImage 1024 1024 (png_data_url "POSE")) Hc Hx Hp Hd)
    as (Hb & _ & Hs & Hj & _).
  fold k in Hb, Hs, Hj. fold cleared in Hb, Hs, Hj. fold resolved in Hs, Hj.
  assert (Hwh : width cv = 512 /\ height cv = 256)
    by (vm_compute in Hc; inversion Hc; split; reflexivity).
  destruct Hwh as [Hw Hh]. rewrite Hw, Hh in Hb, Hs.
  split; [exact Hb|]. split; [|exact Hj].
  rewrite Hs. vm_compute. reflexivity.
Defined.

(** C1 as stated fails: the pose requested before [clear()] and answered
    after it replaces the blank surface and is committed to the history. *)
Lemma C1_counterexample :
  let s := setPrompt "x" (mount (Some fresh_canvas)) in
  let cleared := run sample_decoder s [EvGeneratePose; EvClear] in
  let resolved := run sample_decoder cleared
                    [EvServiceReply 1%nat (ImageBytes "POSE"); EvTaskDone 2%nat] in
  getImageData cleared = blank_url 512 256 /\
  history cleared = [blank_url 512 256] /\
  getImageData resolved <> getImageData cleared /\
  List.length (history resolved) = 2%nat /\
  js_index (history resolved) (historyIndex resolved) = Some (getImageData resolved).
Proof. vm_compute. repeat split; discriminate. Qed.

(** * Further properties of the Artboard *)

(** ** The history holds only snapshots of the canvas *)

Lemma Forall_firstn_keep (A : Type) (P : A -> Prop) (n : nat) : forall l,
  Forall P l -> Forall P (firstn n l).
Proof.
  induction n as [|n IH]; intros [|x l] H; simpl; auto.
  inversion H; subst. constructor; auto.
Qed.

Lemma slice0_all_snapshots w h l e :
  all_snapshots w h l -> all_snapshots w h (slice0 l e).
Proof.
  unfold all_snapshots, slice0. intros H.
  destruct (e <? 0); apply Forall_firstn_keep; exact H.
Qed.

Lemma toDataURL_is_snapshot canvas :
  is_snapshot (width canvas) (height canvas) (toDataURL canvas) = true.
Proof. unfold toDataURL. simpl. rewrite !Z.eqb_refl. reflexivity. Qed.

Ltac snap_start :=
  unfold snap_inv, canvas_size, all_snapshots in *; simpl in *.

Lemma saveState_snap w h env s :
  all_snapshots w h (c_history env) -> snap_inv w h s ->
  snap_inv w h (saveState env s).
Proof.
  intros He (Hsz & Hh & Hp). unfold saveState.
  destruct (canvasRef s) as [c|] eqn:E; [|repeat split; auto].
  unfold canvas_size in Hsz. rewrite E in Hsz. destruct Hsz as [Hw Hhh].
  repeat split; simpl; auto.
  - unfold canvas_size. simpl. rewrite E. auto.
  - apply Forall_app. split; [apply slice0_all_snapshots; exact He|].
    constructor; [|constructor]. subst w h. apply toDataURL_is_snapshot.
Qed.

Lemma snap_inv_ext w h s s' :
  canvasRef s' = canvasRef s -> history s' = history s -> pending s' = pending s ->
  snap_inv w h s -> snap_inv w h s'.
Proof.
  intros Ec Eh Ep (Hsz & Hh & Hp). unfold snap_inv, canvas_size in *.
  rewrite Ec, Eh, Ep. auto.
Qed.

Ltac snap_same H := apply snap_inv_ext with (4 := H); reflexivity.

Lemma set_pending_snap w h ts s :
  Forall (task_snap w h) ts -> snap_inv w h s -> snap_inv w h (set_pending ts s).
Proof. intros Ht (Hsz & Hh & Hp). repeat split; auto. Qed.

Lemma set_canvasRef_snap w h s c c' :
  canvasRef s = Some c -> width c' = width c -> height c' = height c ->
  snap_inv w h s -> snap_inv w h (set_canvasRef (Some c') s).
Proof.
  intros E Hw Hh (Hsz & Hhist & Hp).
  split; [|split; assumption].
  unfold canvas_size in *. simpl. rewrite E in Hsz. rewrite Hw, Hh. exact Hsz.
Qed.

Lemma restoreCanvasFromHistory_snap w h s :
  snap_inv w h s -> cursor_in_bounds s ->
  snap_inv w h (restoreCanvasFromHistory (closure_of s) s).
Proof.
  intros H Hb. unfold restoreCanvasFromHistory, enqueue. simpl.
  destruct (canvasRef s); auto. destruct (getContext s); auto.
  destruct (_ || _) eqn:G; auto.
  apply set_pending_snap; auto.
  apply Forall_snoc; [apply H|]. simpl.
  unfold cursor_in_bounds in Hb. unfold js_index.
  destruct (historyIndex s <? 0) eqn:E; [apply Z.ltb_lt in E; lia|].
  destruct (nth_error (history s) (Z.to_nat (historyIndex s))) as [u|] eqn:N.
  - destruct H as (_ & Hh & _). unfold all_snapshots in Hh.
    rewrite Forall_forall in Hh. apply Hh. eapply nth_error_In; eauto.
  - apply nth_error_None in N. lia.
Qed.

Lemma with_context_size f canvas :
  width (with_context f canvas) = width canvas /\
  height (with_context f canvas) = height canvas.
Proof. unfold with_context. destruct (context2d canvas); auto. Qed.

Lemma brushEffect_snap w h s : snap_inv w h s -> snap_inv w h (brushEffect s).
Proof.
  intros H. unfold brushEffect.
  destruct (canvasRef s) as [c|] eqn:E; auto.
  destruct (context2d c) eqn:Ex; auto.
  apply set_canvasRef_snap with (c := c); auto; apply with_context_size.
Qed.

Lemma render_effects_snap w h old new :
  snap_inv w h new -> cursor_in_bounds new ->
  snap_inv w h (render_effects old new).
Proof.
  intros H Hb. unfold render_effects.
  repeat split_match;
    auto using restoreCanvasFromHistory_snap, brushEffect_snap.
Qed.

Lemma initializeCanvas_snap w h s :
  snap_inv w h s -> snap_inv w h (initializeCanvas s).
Proof.
  intros H. unfold initializeCanvas.
  destruct (canvasRef s) as [c|] eqn:E; auto.
  destruct (context2d c) as [x|] eqn:Ex; auto.
  pose proof (white_size c) as [Hw Hh].
  assert (H' : snap_inv w h
                 (set_canvasRef
                    (Some (fillRect_canvas (with_context (set_fillStyle "white") c))) s))
    by (apply set_canvasRef_snap with (c := c); auto).
  destruct H' as (Hsz & _ & Hp). destruct H as (Hsz0 & _ & _).
  unfold canvas_size in Hsz0. rewrite E in Hsz0. destruct Hsz0 as [Ew Eh].
  split; [exact Hsz|]. split; [|exact Hp].
  constructor; [|constructor].
  unfold is_snapshot, toDataURL. rewrite Hw, Hh, Ew, Eh, !Z.eqb_refl. reflexivity.
Qed.

Lemma stopDrawing_snap w h s : snap_inv w h s -> snap_inv w h (stopDrawing s).
Proof.
  intros H. unfold stopDrawing.
  destruct (negb (isDrawing s)); auto.
  destruct (canvasRef s) as [c|] eqn:E; auto.
  destruct (context2d c) eqn:Ex; auto.
  apply saveState_snap; [apply H|].
  assert (H' : snap_inv w h
                 (set_canvasRef (Some (with_context (addToPath ClosePath) c)) s))
    by (apply set_canvasRef_snap with (c := c); auto; apply with_context_size).
  snap_same H'.
Qed.

Lemma loadPoseImageOntoCanvas_snap w h env u s :
  all_snapshots w h (c_history env) -> snap_inv w h s ->
  snap_inv w h (loadPoseImageOntoCanvas env u s).
Proof.
  intros He H. unfold loadPoseImageOntoCanvas, enqueue.
  destruct (canvasRef s); auto. destruct (getContext s); auto.
  apply set_pending_snap; auto. apply Forall_snoc; [apply H|exact He].
Qed.

Lemma pose_onload_snap w h env img s :
  all_snapshots w h (c_history env) -> snap_inv w h s ->
  snap_inv w h (pose_onload env img s).
Proof.
  intros He H. unfold pose_onload. destruct (canvasRef s) as [c|] eqn:E; auto.
  apply saveState_snap; auto.
  apply set_canvasRef_snap with (c := c); auto.
  - rewrite (proj1 (drawImage_size _ _ _ _ _ _)). apply white_size.
  - rewrite (proj2 (drawImage_size _ _ _ _ _ _)). apply white_size.
Qed.

Lemma restore_onload_snap w h img s :
  snap_inv w h s -> snap_inv w h (restore_onload img s).
Proof.
  intros H. unfold restore_onload. destruct (canvasRef s) as [c|] eqn:E; auto.
  apply set_canvasRef_snap with (c := c); auto.
  - rewrite (proj1 (drawImage_size _ _ _ _ _ _)). apply clearRect_size.
  - rewrite (proj2 (drawImage_size _ _ _ _ _ _)). apply clearRect_size.
Qed.

Lemma drop_task_snap w h k s :
  snap_inv w h s -> snap_inv w h (set_pending (remove_nth k (pending s)) s).
Proof.
  intros H. apply set_pending_snap; auto. apply Forall_remove_nth. apply H.
Qed.

Lemma handle_snap decodeText w h e s :
  snap_inv w h s -> snap_inv w h (handle decodeText e s).
Proof.
  intros H. destruct e; simpl;
    auto using initializeCanvas_snap, stopDrawing_snap.
  - unfold startDrawing.
    destruct (canvasRef s) as [c|] eqn:E; auto.
    destruct (context2d c) eqn:Ex; auto.
    destruct (negb _); auto.
    assert (H' : snap_inv w h
                   (set_canvasRef
                      (Some (with_context
                               (fun c0 => addToPath (MoveTo offsetX offsetY) (beginPath c0))
                               c)) s))
      by (apply set_canvasRef_snap with (c := c); auto; apply with_context_size).
    snap_same H'.
  - unfold draw.
    destruct (isDrawing s); auto. destruct (lastPointRef s) as [[lx ly]|]; auto.
    destruct (InputMode_eqb _ _); auto.
    destruct (canvasRef s) as [c|] eqn:E; auto.
    destruct (context2d c) eqn:Ex; auto.
    match goal with
    | |- snap_inv _ _ (set_lastPointRef _ (set_canvasRef (Some ?c') _)) =>
        assert (H' : snap_inv w h (set_canvasRef (Some c') s))
    end.
    { apply set_canvasRef_snap with (c := c); auto.
      - unfold stroke, with_context. rewrite Ex. reflexivity.
      - unfold stroke, with_context. rewrite Ex. reflexivity. }
    snap_same H'.
  - unfold handleUndo. destruct (_ >? _); auto.
  - unfold handleRedo. destruct (_ <? _); auto.
  - unfold handlePoseUpload, enqueue. destruct file; auto.
    apply set_pending_snap; auto. apply Forall_snoc; [apply H|apply H].
  - unfold handleGeneratePose, enqueue. destruct (String.eqb _ _); auto.
    apply set_pending_snap; [apply Forall_snoc; apply H|]. snap_same H.
  - destruct (nth_error (pending s) k) as [[p env|? ?|? ?|?]|] eqn:E; auto.
    assert (He : task_snap w h (PoseRequest p env))
      by (eapply Forall_nth_error; [apply H | exact E]).
    simpl in He. unfold handleGeneratePose_resume.
    destruct (generatePoseFromPrompt r) as [u|msg].
    + assert (H' : snap_inv w h
                     (loadPoseImageOntoCanvas env u
                        (set_pending (remove_nth k (pending s)) s)))
        by (apply loadPoseImageOntoCanvas_snap; auto using drop_task_snap).
      snap_same H'.
    + pose proof (drop_task_snap k H) as H'. snap_same H'.
  - destruct (nth_error (pending s) k) as [[p env|u env|u env|u]|] eqn:E; auto.
    + assert (He : task_snap w h (FileRead u env))
        by (eapply Forall_nth_error; [apply H | exact E]).
      apply loadPoseImageOntoCanvas_snap; auto using drop_task_snap.
    + assert (He : task_snap w h (PoseImageLoad u env))
        by (eapply Forall_nth_error; [apply H | exact E]).
      destruct (decode decodeText u); auto using drop_task_snap.
      apply pose_onload_snap; auto using drop_task_snap.
    + destruct (decode decodeText u);
        auto using drop_task_snap, restore_onload_snap.
Qed.

Lemma run_snap decodeText w h evs : forall s,
  snap_inv w h s -> cursor_in_bounds s ->
  snap_inv w h (run decodeText s evs) /\ cursor_in_bounds (run decodeText s evs).
Proof.
  induction evs as [|e evs IH]; intros s H Hb; simpl; auto.
  apply IH.
  - unfold step. apply render_effects_snap; auto using handle_snap, handle_bounds.
  - apply step_bounds, Hb.
Qed.

Lemma mount_snap canvas ctx :
  context2d canvas = Some ctx ->
  snap_inv (width canvas) (height canvas) (mount (Some canvas)).
Proof.
  intros Hc. unfold mount.
  assert (H0 : snap_inv (width canvas) (height canvas) (initialState (Some canvas))).
  { repeat split; simpl; constructor. }
  assert (H1 := initializeCanvas_snap H0).
  assert (H2 : snap_inv (width canvas) (height canvas)
                 (restoreCanvasFromHistory (closure_of (initialState (Some canvas)))
                    (initializeCanvas (initialState (Some canvas))))).
  { destruct (restoreCanvasFromHistory_shape
                (closure_of (initialState (Some canvas)))
                (initializeCanvas (initialState (Some canvas)))) as [ts E].
    unfold restoreCanvasFromHistory in *. simpl in *.
    destruct (canvasRef (initializeCanvas (initialState (Some canvas)))); auto.
    destruct (getContext (initializeCanvas (initialState (Some canvas)))); auto. }
  apply render_effects_snap; [apply brushEffect_snap, H2|].
  unfold cursor_in_bounds.
  rewrite (proj1 (brushEffect_history _)), (proj2 (brushEffect_history _)).
  rewrite (proj1 (restoreCanvasFromHistory_history _ _)),
          (proj2 (restoreCanvasFromHistory_history _ _)).
  unfold initializeCanvas, initialState. simpl. rewrite Hc. simpl. lia.
Qed.

(** X1. After the component has mounted, whatever events follow, every
    entry of the history is a PNG snapshot that [toDataURL] took of this
    canvas, and every image load that [restoreCanvasFromHistory] has started
    has such a snapshot as its source: the fallback of an index outside the
    history (an undefined source) never occurs. *)
Theorem X1_history_and_restores_hold_only_canvas_snapshots
  (decodeText : string -> option (Z * Z)) (canvas : CanvasEl) (ctx : Context2D)
  (evs : list Event) :
  context2d canvas = Some ctx ->
  let s := run decodeText (mount (Some canvas)) evs in
  (forall u, In u (history s) ->
     exists px, u = PngOf (width canvas) (height canvas) px) /\
  (forall u, In (RestoreImageLoad u) (pending s) ->
     exists px, u = PngOf (width canvas) (height canvas) px).
Proof.
  intros Hc s.
  destruct (@run_snap decodeText (width canvas) (height canvas) evs
              (mount (Some canvas)) (mount_snap canvas Hc)
              (mount_bounds canvas Hc)) as [(_ & Hh & Hp) _].
  fold s in Hh, Hp.
  assert (Hsnap : forall u, is_snapshot (width canvas) (height canvas) u = true ->
                    exists px, u = PngOf (width canvas) (height canvas) px).
  { intros [t|w' h' px] Hu; simpl in Hu; [discriminate|].
    apply andb_true_iff in Hu. destruct Hu as [Hw Hh'].
    apply Z.eqb_eq in Hw. apply Z.eqb_eq in Hh'. subst. eauto. }
  split.
  - intros u Hu. apply Hsnap. unfold all_snapshots in Hh.
    rewrite Forall_forall in Hh. apply Hh, Hu.
  - intros u Hu. apply Hsnap. rewrite Forall_forall in Hp.
    apply (Hp _ Hu).
Qed.

Lemma X1_history_and_restores_hold_only_canvas_snapshots_witness :
  let s := run sample_decoder (mount (Some fresh_canvas))
             [EvMouseDown 10 10; EvMouseMove 20 20; EvMouseUp; EvUndo;
              EvPoseUpload (Some (Text "tall.png")); EvTaskDone 3%nat;
              EvTaskDone 3%nat] in
  List.length (history s) = 2%nat /\
  (forall u, In u (history s) -> exists px, u = PngOf 512 256 px) /\
  (forall u, In (RestoreImageLoad u) (pending s) -> exists px, u = PngOf 512 256 px).
Proof.
  intros s. split; [vm_compute; reflexivity|].
  exact (@X1_history_and_restores_hold_only_canvas_snapshots
           sample_decoder fresh_canvas fresh_context
           [EvMouseDown 10 10; EvMouseMove 20 20; EvMouseUp; EvUndo;
            EvPoseUpload (Some (Text "tall.png")); EvTaskDone 3%nat;
            EvTaskDone 3%nat] eq_refl).
Defined.

(** ** Undo and redo *)

Lemma step_history decodeText s e :
  history (step decodeText s e) = history (handle decodeText e s) /\
  historyIndex (step decodeText s e) = historyIndex (handle decodeText e s).
Proof. unfold step. apply render_effects_history. Qed.

(** X2. Undo and redo never touch the history array, and they are inverse
    to each other on the cursor: when undo is possible (cursor above 0), undo
    followed by redo brings the cursor back, and when redo is possible
    (cursor below the last index), redo followed by undo does. *)
Theorem X2_undo_and_redo_are_inverse_on_the_cursor
  (decodeText : string -> option (Z * Z)) (s : State) :
  cursor_in_bounds s ->
  history (step decodeText s EvUndo) = history s /\
  history (step decodeText s EvRedo) = history s /\
  (0 < historyIndex s ->
   historyIndex (step decodeText s EvUndo) = historyIndex s - 1 /\
   historyIndex (run decodeText s [EvUndo; EvRedo]) = historyIndex s) /\
  (historyIndex s < Z.of_nat (List.length (history s)) - 1 ->
   historyIndex (step decodeText s EvRedo) = historyIndex s + 1 /\
   historyIndex (run decodeText s [EvRedo; EvUndo]) = historyIndex s).
Proof.
  intros Hb. unfold cursor_in_bounds in Hb.
  assert (Hu : history (step decodeText s EvUndo) = history s).
  { rewrite (proj1 (step_history _ _ _)). simpl. unfold handleUndo.
    destruct (_ >? _); reflexivity. }
  assert (Hr : history (step decodeText s EvRedo) = history s).
  { rewrite (proj1 (step_history _ _ _)). simpl. unfold handleRedo.
    destruct (_ <? _); reflexivity. }
  split; [exact Hu|]. split; [exact Hr|]. split.
  - intros Hpos.
    assert (E1 : historyIndex (step decodeText s EvUndo) = historyIndex s - 1).
    { rewrite (proj2 (step_history _ _ _)). simpl. unfold handleUndo.
      destruct (historyIndex s >? 0) eqn:G; [reflexivity|].
      pose proof (Zgt_cases (historyIndex s) 0) as C. rewrite G in C. lia. }
    split; [exact E1|]. simpl.
    rewrite (proj2 (step_history _ _ _)). simpl. unfold handleRedo.
    rewrite E1, Hu.
    destruct (historyIndex s - 1 <? Z.of_nat (List.length (history s)) - 1) eqn:G.
    + simpl. lia.
    + apply Z.ltb_ge in G. lia.
  - intros Hlt.
    assert (E1 : historyIndex (step decodeText s EvRedo) = historyIndex s + 1).
    { rewrite (proj2 (step_history _ _ _)). simpl. unfold handleRedo.
      destruct (historyIndex s <? Z.of_nat (List.length (history s)) - 1) eqn:G;
        [reflexivity|]. apply Z.ltb_ge in G. lia. }
    split; [exact E1|]. simpl.
    rewrite (proj2 (step_history _ _ _)). simpl. unfold handleUndo.
    rewrite E1.
    destruct (historyIndex s + 1 >? 0) eqn:G.
    + simpl. lia.
    + pose proof (Zgt_cases (historyIndex s + 1) 0) as C. rewrite G in C. lia.
Qed.

Lemma X2_undo_and_redo_are_inverse_on_the_cursor_witness :
  let s := run sample_decoder (mount (Some fresh_canvas))
             [EvMouseDown 10 10; EvMouseMove 20 20; EvMouseUp;
              EvMouseDown 30 30; EvMouseMove 40 40; EvMouseUp; EvUndo] in
  historyIndex s = 1 /\
  historyIndex (run sample_decoder s [EvUndo; EvRedo]) = historyIndex s /\
  historyIndex (run sample_decoder s [EvRedo; EvUndo]) = historyIndex s.
Proof.
  intros s.
  assert (Hb : cursor_in_bounds s) by (vm_compute; split; discriminate).
  destruct (@X2_undo_and_redo_are_inverse_on_the_cursor sample_decoder s Hb)
    as (_ & _ & Hu & Hr).
  split; [vm_compute; reflexivity|]. split.
  - apply Hu. vm_compute. reflexivity.
  - apply Hr. vm_compute. reflexivity.
Defined.

Lemma move_cursor_restores s j c x u :
  canvasRef s = Some c -> context2d c = Some x ->
  j <> historyIndex s -> js_index (history s) j = Some u ->
  render_effects s (setHistoryIndex j s)
  = enqueue (RestoreImageLoad u) (setHistoryIndex j s).
Proof.
  intros Hc Hx Hj Hu. unfold render_effects. simpl.
  rewrite Nat.eqb_refl, String.eqb_refl, Z.eqb_refl. simpl.
  replace (historyIndex s =? j) with false
    by (symmetry; apply Z.eqb_neq; auto).
  unfold restoreCanvasFromHistory, getContext. simpl. rewrite Hc, Hx, Hu.
  unfold js_index in Hu.
  destruct (j <? 0) eqn:Ej; [discriminate|].
  destruct (history s) as [|h0 hs] eqn:Eh.
  - destruct (Z.to_nat j); discriminate.
  - reflexivity.
Qed.

Lemma restore_settles decodeText s k c x px :
  canvasRef s = Some c -> context2d c = Some x ->
  0 < width c -> 0 < height c ->
  nth_error (pending s) k = Some (RestoreImageLoad (PngOf (width c) (height c) px)) ->
  let s' := step decodeText s (EvTaskDone k) in
  getImageData s' = PngOf (width c) (height c) px /\
  history s' = history s /\ historyIndex s' = historyIndex s /\
  pending s' = remove_nth k (pending s).
Proof.
  intros Hc Hx Hw Hh Hk. simpl.
  assert (E : handle decodeText (EvTaskDone k) s
              = set_canvasRef (Some (mkCanvas (width c) (height c) (Some x) px))
                  (set_pending (remove_nth k (pending s)) s)).
  { simpl. rewrite Hk. simpl.
    replace (0 <? width c) with true by (symmetry; apply Z.ltb_lt; exact Hw).
    replace (0 <? height c) with true by (symmetry; apply Z.ltb_lt; exact Hh).
    simpl. unfold restore_onload. simpl. rewrite Hc.
    unfold drawImage, clearRect_canvas. rewrite Hx. simpl.
    rewrite ?Hx. simpl.
    rewrite ?Z.eqb_refl. simpl. rewrite ?Hx.
    unfold with_bitmap. simpl. rewrite Hx. reflexivity. }
  unfold step. rewrite E. rewrite render_effects_quiet by reflexivity.
  repeat split.
Qed.

Lemma reachable_canvas decodeText canvas ctx evs :
  context2d canvas = Some ctx ->
  let s := run decodeText (mount (Some canvas)) evs in
  exists c x,
    canvasRef s = Some c /\ context2d c = Some x /\
    width c = width canvas /\ height c = height canvas.
Proof.
  intros Hc s.
  assert (Hst : stroke_styles s <> None)
    by (apply run_has_styles; eapply mount_has_styles; eauto).
  destruct (@run_snap decodeText (width canvas) (height canvas) evs
              (mount (Some canvas)) (mount_snap canvas Hc)
              (mount_bounds canvas Hc)) as [(Hsz & _ & _) _].
  fold s in Hsz. unfold canvas_size in Hsz.
  unfold stroke_styles, getContext in Hst.
  destruct (canvasRef s) as [c|]; [|contradiction Hst; reflexivity].
  destruct (context2d c) as [x|] eqn:Ex; [|contradiction Hst; reflexivity].
  exists c, x. tauto.
Qed.

Lemma snapshot_at decodeText canvas ctx evs j u :
  context2d canvas = Some ctx ->
  js_index (history (run decodeText (mount (Some canvas)) evs)) j = Some u ->
  exists px, u = PngOf (width canvas) (height canvas) px.
Proof.
  intros Hc Hj.
  destruct (@run_snap decodeText (width canvas) (height canvas) evs
              (mount (Some canvas)) (mount_snap canvas Hc)
              (mount_bounds canvas Hc)) as [(_ & Hh & _) _].
  unfold all_snapshots in Hh. rewrite Forall_forall in Hh.
  unfold js_index in Hj. destruct (j <? 0); [discriminate|].
  apply nth_error_In in Hj. specialize (Hh u Hj).
  destruct u as [t|w' h' px]; simpl in Hh; [discriminate|].
  apply andb_true_iff in Hh. destruct Hh as [Hw Hh'].
  apply Z.eqb_eq in Hw. apply Z.eqb_eq in Hh'. subst. eauto.
Qed.

Lemma js_index_in_bounds (A : Type) (l : list A) (j : Z) :
  0 <= j <= Z.of_nat (List.length l) - 1 -> exists u, js_index l j = Some u.
Proof.
  intros H. unfold js_index.
  destruct (j <? 0) eqn:E; [apply Z.ltb_lt in E; lia|].
  destruct (nth_error l (Z.to_nat j)) eqn:N; eauto.
  apply nth_error_None in N. lia.
Qed.

(** The cursor is moved to [j] and the image load that the move starts ends:
    the surface is the snapshot at [j]. *)
Lemma cursor_move_shows_snapshot decodeText canvas ctx evs j :
  context2d canvas = Some ctx -> 0 < width canvas -> 0 < height canvas ->
  let s := run decodeText (mount (Some canvas)) evs in
  0 <= j <= Z.of_nat (List.length (history s)) - 1 -> j <> historyIndex s ->
  let s1 := render_effects s (setHistoryIndex j s) in
  let s2 := step decodeText s1 (EvTaskDone (List.length (pending s))) in
  historyIndex s2 = j /\ history s2 = history s /\
  js_index (history s2) (historyIndex s2) = Some (getImageData s2) /\
  pending s2 = pending s.
Proof.
  intros Hc Hw Hh s Hj Hne.
  destruct (@reachable_canvas decodeText canvas ctx evs Hc)
    as (c & x & Ec & Ex & Ewc & Ehc).
  fold s in Ec.
  destruct (js_index_in_bounds (history s) Hj) as [u Hu].
  destruct (@snapshot_at decodeText canvas ctx evs j u Hc Hu) as [px ->].
  simpl. rewrite (@move_cursor_restores s j c x _ Ec Ex Hne Hu).
  rewrite <- Ewc, <- Ehc in *.
  destruct (@restore_settles decodeText
              (enqueue (RestoreImageLoad (PngOf (width c) (height c) px))
                 (setHistoryIndex j s))
              (List.length (pending s)) c x px Ec Ex Hw Hh
              (nth_error_snoc _ _)) as (G1 & G2 & G3 & G4).
  rewrite G1, G2, G3, G4. simpl. rewrite remove_nth_snoc.
  repeat split; auto.
Qed.

(** X3. In every state the mounted component can reach (canvas of positive
    size), undo with the cursor above 0, once the image load it starts has
    ended, leaves the cursor one lower and the surface equal to the snapshot
    at the new cursor; redo with the cursor below the last index does the
    same one higher.  The history itself is unchanged by both. *)
Theorem X3_undo_and_redo_show_the_snapshot_at_the_cursor
  (decodeText : string -> option (Z * Z)) (canvas : CanvasEl) (ctx : Context2D)
  (evs : list Event) :
  context2d canvas = Some ctx -> 0 < width canvas -> 0 < height canvas ->
  let s := run decodeText (mount (Some canvas)) evs in
  let k := List.length (pending s) in
  (0 < historyIndex s ->
   let s2 := run decodeText s [EvUndo; EvTaskDone k] in
   historyIndex s2 = historyIndex s - 1 /\ history s2 = history s /\
   js_index (history s2) (historyIndex s2) = Some (getImageData s2)) /\
  (historyIndex s < Z.of_nat (List.length (history s)) - 1 ->
   let s2 := run decodeText s [EvRedo; EvTaskDone k] in
   historyIndex s2 = historyIndex s + 1 /\ history s2 = history s /\
   js_index (history s2) (historyIndex s2) = Some (getImageData s2)).
Proof.
  intros Hc Hw Hh s k.
  assert (Hb : cursor_in_bounds s) by (apply run_bounds; eapply mount_bounds; eauto).
  unfold cursor_in_bounds in Hb.
  split.
  - intros Hpos. simpl.
    assert (E : step decodeText s EvUndo
                = render_effects s (setHistoryIndex (historyIndex s - 1) s)).
    { unfold step. simpl. unfold handleUndo.
      destruct (historyIndex s >? 0) eqn:G; [reflexivity|].
      pose proof (Zgt_cases (historyIndex s) 0) as C. rewrite G in C. lia. }
    rewrite E.
    destruct (@cursor_move_shows_snapshot decodeText canvas ctx evs
                (historyIndex s - 1) Hc Hw Hh) as (G1 & G2 & G3 & _);
      fold s; try lia.
    fold s in G1, G2, G3. fold k in G1, G2, G3. auto.
  - intros Hlt. simpl.
    assert (E : step decodeText s EvRedo
                = render_effects s (setHistoryIndex (historyIndex s + 1) s)).
    { unfold step. simpl. unfold handleRedo.
      destruct (historyIndex s <? Z.of_nat (List.length (history s)) - 1) eqn:G;
        [reflexivity|]. apply Z.ltb_ge in G. lia. }
    rewrite E.
    destruct (@cursor_move_shows_snapshot decodeText canvas ctx evs
                (historyIndex s + 1) Hc Hw Hh) as (G1 & G2 & G3 & _);
      fold s; try lia.
    fold s in G1, G2, G3. fold k in G1, G2, G3. auto.
Qed.

Lemma X3_undo_and_redo_show_the_snapshot_at_the_cursor_witness :
  let s := run sample_decoder (mount (Some fresh_canvas))
             [EvTaskDone 0%nat; EvMouseDown 10 10; EvMouseMove 20 20; EvMouseUp;
              EvTaskDone 0%nat] in
  let undone := run sample_decoder s [EvUndo; EvTaskDone 0%nat] in
  historyIndex s = 1 /\ historyIndex undone = 0 /\
  js_index (history undone) (historyIndex undone) = Some (getImageData undone) /\
  getImageData undone = blank_url 512 256.
Proof.
  intros s undone.
  destruct (@X3_undo_and_redo_show_the_snapshot_at_the_cursor
              sample_decoder fresh_canvas fresh_context
              [EvTaskDone 0%nat; EvMouseDown 10 10; EvMouseMove 20 20; EvMouseUp;
               EvTaskDone 0%nat] eq_refl eq_refl eq_refl) as [Hu _].
  assert (Hpos : 0 < historyIndex s) by (vm_compute; reflexivity).
  destruct (Hu Hpos) as (_ & _ & H3).
  split; [vm_compute; reflexivity|].
  split; [vm_compute; reflexivity|].
  split; [|vm_compute; reflexivity].
  vm_compute. reflexivity.
Defined.

(** ** Export *)

Section ExportWithDecoder.
Variable decodeText : string -> option (Z * Z).

Lemma slice0_clean l e : clean_history l -> clean_history (slice0 l e).
Proof.
  unfold clean_history, slice0. intros H.
  destruct (e <? 0); apply Forall_firstn_keep; exact H.
Qed.

Lemma sources_inv_ext s s' :
  history s' = history s -> historyIndex s' = historyIndex s ->
  pending s' = pending s -> sources_inv s -> sources_inv s'.
Proof. intros Eh Ei Ep H. unfold sources_inv in *. rewrite Eh, Ei, Ep. exact H. Qed.

Ltac sources_same H := apply sources_inv_ext with (4 := H); reflexivity.

Lemma set_pending_sources ts s :
  Forall task_sources ts -> sources_inv s -> sources_inv (set_pending ts s).
Proof. intros Ht (Hi & Hh & _). split; [exact Hi|]. split; [exact Hh|exact Ht]. Qed.

Lemma drop_task_sources k s :
  sources_inv s -> sources_inv (set_pending (remove_nth k (pending s)) s).
Proof. intros H. apply set_pending_sources; auto. apply Forall_remove_nth, H. Qed.

Lemma saveState_sources env s :
  clean_history (c_history env) -> sources_inv s -> sources_inv (saveState env s).
Proof.
  intros He (Hi & Hh & Hp). unfold saveState.
  destruct (canvasRef s) as [c|]; [|split; [exact Hi|split; assumption]].
  split; [simpl; lia|]. split; [|exact Hp].
  simpl. apply Forall_app. split; [apply slice0_clean; exact He|].
  constructor; [reflexivity|constructor].
Qed.

Lemma restoreCanvasFromHistory_sources s :
  sources_inv s -> sources_inv (restoreCanvasFromHistory (closure_of s) s).
Proof.
  intros H. unfold restoreCanvasFromHistory, enqueue. simpl.
  destruct (canvasRef s); auto. destruct (getContext s); auto.
  destruct (_ || _) eqn:G; auto.
  apply set_pending_sources; auto.
  apply Forall_snoc; [apply H|]. simpl.
  apply orb_false_iff in G. destruct G as [_ G]. apply Z.ltb_ge in G.
  destruct H as (Hi & Hh & _). unfold js_index.
  destruct (historyIndex s <? 0) eqn:E; [apply Z.ltb_lt in E; lia|].
  destruct (nth_error (history s) (Z.to_nat (historyIndex s))) as [u|] eqn:N.
  - unfold clean_history in Hh. rewrite Forall_forall in Hh.
    apply Hh. eapply nth_error_In; eauto.
  - apply nth_error_None in N. lia.
Qed.

Lemma brushEffect_sources s : sources_inv s -> sources_inv (brushEffect s).
Proof.
  intros H. unfold brushEffect.
  destruct (canvasRef s) as [c|]; [|exact H].
  destruct (context2d c); [|exact H].
  sources_same H.
Qed.

Lemma render_effects_sources old new :
  sources_inv new -> sources_inv (render_effects old new).
Proof.
  intros H. unfold render_effects.
  repeat split_match;
    auto using restoreCanvasFromHistory_sources, brushEffect_sources.
Qed.

Lemma initializeCanvas_sources s : sources_inv s -> sources_inv (initializeCanvas s).
Proof.
  intros H. unfold initializeCanvas.
  destruct (canvasRef s) as [c|]; auto. destruct (context2d c); auto.
  split; [simpl; lia|]. split; [|apply H].
  simpl. constructor; [reflexivity|constructor].
Qed.

Lemma stopDrawing_sources s : sources_inv s -> sources_inv (stopDrawing s).
Proof.
  intros H. unfold stopDrawing.
  destruct (negb (isDrawing s)); auto.
  destruct (canvasRef s) as [c|]; auto. destruct (context2d c); auto.
  apply saveState_sources; [apply H|]. sources_same H.
Qed.

Lemma loadPoseImageOntoCanvas_sources env u s :
  is_data_url u = true -> clean_history (c_history env) ->
  sources_inv s -> sources_inv (loadPoseImageOntoCanvas env u s).
Proof.
  intros Hu He H. unfold loadPoseImageOntoCanvas, enqueue.
  destruct (canvasRef s); auto. destruct (getContext s); auto.
  apply set_pending_sources; auto. apply Forall_snoc; [apply H|split; assumption].
Qed.

Lemma pose_onload_sources env img s :
  clean_history (c_history env) -> sources_inv s -> sources_inv (pose_onload env img s).
Proof.
  intros He H. unfold pose_onload. destruct (canvasRef s); auto.
  apply saveState_sources; auto.
Qed.

Lemma restore_onload_sources img s : sources_inv s -> sources_inv (restore_onload img s).
Proof.
  intros H. unfold restore_onload. destruct (canvasRef s); auto.
Qed.

Lemma png_data_url_is_data_url b : is_data_url (png_data_url b) = true.
Proof. reflexivity. Qed.

Lemma handle_sources e s :
  reads_data_url e = true -> sources_inv s -> sources_inv (handle decodeText e s).
Proof.
  intros He H. destruct e; simpl;
    auto using initializeCanvas_sources, stopDrawing_sources.
  - unfold startDrawing.
    destruct (canvasRef s) as [c|]; auto. destruct (context2d c); auto.
    destruct (negb _); auto.
  - unfold draw.
    destruct (isDrawing s); auto. destruct (lastPointRef s) as [[lx ly]|]; auto.
    destruct (InputMode_eqb _ _); auto.
    destruct (canvasRef s) as [c|]; auto. destruct (context2d c); auto.
  - unfold handleUndo. destruct (historyIndex s >? 0) eqn:G; auto.
    destruct H as (Hi & Hh & Hp). split; [simpl; lia|]. split; assumption.
  - unfold handleRedo.
    destruct (historyIndex s <? Z.of_nat (List.length (history s)) - 1) eqn:G; auto.
    apply Z.ltb_lt in G.
    destruct H as (Hi & Hh & Hp). split; [simpl; lia|]. split; assumption.
  - unfold handlePoseUpload, enqueue. destruct file as [u|]; auto.
    apply set_pending_sources; auto.
    apply Forall_snoc; [apply H|]. split; [exact He|apply H].
  - unfold handleGeneratePose, enqueue. destruct (String.eqb _ _); auto.
    apply set_pending_sources; [apply Forall_snoc; apply H|]. sources_same H.
  - destruct (nth_error (pending s) k) as [[p env|? ?|? ?|?]|] eqn:E; auto.
    assert (Ht : task_sources (PoseRequest p env))
      by (eapply Forall_nth_error; [apply H | exact E]).
    simpl in Ht. unfold handleGeneratePose_resume.
    destruct r as [b|]; simpl.
    + assert (H' : sources_inv
                     (loadPoseImageOntoCanvas env (png_data_url b)
                        (set_pending (remove_nth k (pending s)) s)))
        by (apply loadPoseImageOntoCanvas_sources;
            auto using drop_task_sources, png_data_url_is_data_url).
      sources_same H'.
    + pose proof (drop_task_sources k H) as H'. sources_same H'.
  - destruct (nth_error (pending s) k) as [[p env|u env|u env|u]|] eqn:E; auto.
    + assert (Ht : task_sources (FileRead u env))
        by (eapply Forall_nth_error; [apply H | exact E]).
      destruct Ht as [Hu Henv].
      apply loadPoseImageOntoCanvas_sources; auto using drop_task_sources.
    + assert (Ht : task_sources (PoseImageLoad u env))
        by (eapply Forall_nth_error; [apply H | exact E]).
      destruct Ht as [Hu Henv].
      destruct (decode decodeText u); auto using drop_task_sources.
      apply pose_onload_sources; auto using drop_task_sources.
    + destruct (decode decodeText u);
        auto using drop_task_sources, restore_onload_sources.
Qed.

Lemma step_sources e s :
  reads_data_url e = true -> sources_inv s -> sources_inv (step decodeText s e).
Proof. intros He H. apply render_effects_sources, handle_sources; assumption. Qed.

Lemma drawn_image_is_data_url s e src :
  sources_inv s -> drawn_image decodeText s e = Some src -> is_data_url src = true.
Proof.
  intros (_ & _ & Hp) Hd. destruct e; simpl in Hd; try discriminate.
  destruct (nth_error (pending s) k) as [[p env|u env|u env|u]|] eqn:E;
    try discriminate;
    destruct (decode decodeText u); try discriminate;
    destruct (getContext s); try discriminate;
    inversion Hd; subst;
    pose proof (Forall_nth_error _ Hp E) as Ht; simpl in Ht; tauto.
Qed.

Lemma data_url_is_same_origin crossOrigin u :
  (forall t, String.prefix "data:" t = true -> crossOrigin t = false) ->
  is_data_url u = true -> cross_origin crossOrigin u = false.
Proof. intros H Hu. destruct u as [t|w h px]; simpl in *; auto. Qed.

Lemma run_origin_clean crossOrigin evs :
  (forall t, String.prefix "data:" t = true -> crossOrigin t = false) ->
  forall s, forallb reads_data_url evs = true -> sources_inv s ->
  origin_clean crossOrigin decodeText s evs = true.
Proof.
  intros Hco. induction evs as [|e evs IH]; intros s Hev H; simpl; auto.
  simpl in Hev. apply andb_true_iff in Hev. destruct Hev as [He Hev].
  apply andb_true_iff. split.
  - destruct (drawn_image decodeText s e) as [src|] eqn:Ed; auto.
    rewrite (@data_url_is_same_origin crossOrigin src Hco); auto.
    eapply drawn_image_is_data_url; eauto.
  - apply IH; auto using step_sources.
Qed.

Lemma mount_sources canvas : sources_inv (mount canvas).
Proof.
  unfold mount. apply render_effects_sources, brushEffect_sources.
  assert (H0 : sources_inv (initialState canvas)).
  { split; [simpl; lia|]. split; constructor. }
  pose proof (initializeCanvas_sources H0) as H1.
  destruct (restoreCanvasFromHistory_shape (closure_of (initialState canvas))
              (initializeCanvas (initialState canvas))) as [ts E].
  unfold restoreCanvasFromHistory in *. simpl in *.
  destruct (canvasRef (initializeCanvas (initialState canvas))); auto.
  destruct (getContext (initializeCanvas (initialState canvas))); auto.
Qed.

Lemma render_effects_without_canvas old new :
  canvasRef new = None -> canvasRef (render_effects old new) = None.
Proof.
  intros H. unfold render_effects, restoreCanvasFromHistory, brushEffect.
  rewrite H. repeat split_match; simpl; auto; congruence.
Qed.

Lemma handle_without_canvas e s :
  canvasRef s = None -> canvasRef (handle decodeText e s) = None.
Proof.
  intros H. destruct e; simpl; auto;
    unfold_handlers; simpl; rewrite ?H; simpl;
    repeat (split_match; simpl in *; rewrite ?H; simpl); auto; congruence.
Qed.

Lemma run_without_canvas evs : forall s,
  canvasRef s = None -> canvasRef (run decodeText s evs) = None.
Proof.
  induction evs as [|e evs IH]; intros s H; simpl; auto.
  apply IH. unfold step.
  apply render_effects_without_canvas, handle_without_canvas, H.
Qed.

End ExportWithDecoder.

(** C9. [getImageData] never throws, whatever events the mounted component
    has handled, as long as each upload is read as a [data:] URL (what
    [readAsDataURL] yields) and the browser counts no [data:] URL as
    another origin: the canvas is then still origin-clean, so [toDataURL]
    raises nothing, and the evaluation ends normally with the value of
    [getImageData].  With no canvas attached that value is the empty string;
    on a canvas with a 2D context it is the PNG data URL, of the canvas's
    size, of the bitmap the canvas holds at that moment. *)
Theorem C9_getImageData_never_throws_and_exports_the_surface
  (crossOrigin : string -> bool) (decodeText : string -> option (Z * Z))
  (canvas : option CanvasEl) (evs : list Event) :
  (forall t, String.prefix "data:" t = true -> crossOrigin t = false) ->
  forallb reads_data_url evs = true ->
  let s := run decodeText (mount canvas) evs in
  getImageData_completion crossOrigin decodeText canvas evs = Normal (getImageData s) /\
  (canvas = None -> getImageData s = Text "") /\
  (forall c ctx, canvas = Some c -> context2d c = Some ctx ->
     exists cv,
       canvasRef s = Some cv /\
       getImageData s = PngOf (width c) (height c) (bitmap cv)).
Proof.
  intros Hco Hev s. split; [|split].
  - unfold getImageData_completion, getImageData. fold s.
    destruct (canvasRef s) as [cv|]; [|reflexivity].
    rewrite (@run_origin_clean decodeText crossOrigin evs Hco (mount canvas) Hev
               (mount_sources canvas)).
    reflexivity.
  - intros ->. unfold getImageData.
    assert (E : canvasRef s = None)
      by (apply run_without_canvas; reflexivity).
    rewrite E. reflexivity.
  - intros c ctx -> Hx.
    destruct (@reachable_canvas decodeText c ctx evs Hx) as (cv & x & Hc & _ & Hw & Hh).
    fold s in Hc. exists cv. split; [exact Hc|].
    rewrite (@getImageData_canvas s cv Hc). unfold toDataURL. rewrite Hw, Hh.
    reflexivity.
Qed.

Lemma C9_getImageData_never_throws_and_exports_the_surface_witness :
  let crossOrigin := fun t => negb (String.prefix "data:" t) in
  let evs := [EvMouseDown 10 10; EvMouseMove 20 20; EvMouseUp;
              EvPoseUpload (Some (Text "data:image/png;base64,POSE"));
              EvTaskDone 2%nat; EvTaskDone 2%nat] in
  let s := run sample_decoder (mount (Some fresh_canvas)) evs in
  getImageData_completion crossOrigin sample_decoder (Some fresh_canvas) evs
  = Normal (getImageData s) /\
  (exists cv, canvasRef s = Some cv /\ getImageData s = PngOf 512 256 (bitmap cv)) /\
  getImageData_completion crossOrigin sample_decoder None evs = Normal (Text "").
Proof.
  intros crossOrigin evs s.
  assert (Hco : forall t, String.prefix "data:" t = true -> crossOrigin t = false)
    by (intros t Ht; unfold crossOrigin; rewrite Ht; reflexivity).
  assert (Hev : forallb reads_data_url evs = true) by reflexivity.
  destruct (@C9_getImageData_never_throws_and_exports_the_surface
              crossOrigin sample_decoder (Some fresh_canvas) evs Hco Hev)
    as (Hn & _ & Hs).
  destruct (@C9_getImageData_never_throws_and_exports_the_surface
              crossOrigin sample_decoder None evs Hco Hev)
    as (Hn0 & He0 & _).
  split; [exact Hn|]. split; [exact (Hs fresh_canvas fresh_context eq_refl eq_refl)|].
  rewrite Hn0. rewrite (He0 eq_refl). reflexivity.
Defined.

(** ** Pointer events *)

(** X4. Outside free-draw mode, with no stroke active, pointer events do
    nothing at all: any sequence of mouse down, move, up and leave events
    leaves the whole state as it is. *)
Theorem X4_pointer_events_ignored_outside_draw_mode
  (decodeText : string -> option (Z * Z)) (evs : list Event) : forall s : State,
  mode s <> ModeDraw -> isDrawing s = false ->
  forallb is_mouse evs = true ->
  run decodeText s evs = s.
Proof.
  induction evs as [|e evs IH]; intros s Hm Hd He; simpl in *; auto.
  apply andb_true_iff in He. destruct He as [He Hr].
  assert (E : step decodeText s e = s).
  { unfold step.
    assert (Hh : handle decodeText e s = s).
    { destruct e; simpl in He; try discriminate; simpl.
      - unfold startDrawing.
        destruct (canvasRef s) as [c|]; auto. destruct (context2d c); auto.
        destruct (mode s); auto. contradiction Hm. reflexivity.
      - apply draw_outside_draw_mode, Hm.
      - unfold stopDrawing. rewrite Hd. reflexivity.
      - unfold stopDrawing. rewrite Hd. reflexivity. }
    rewrite Hh. apply render_effects_quiet; reflexivity. }
  rewrite E. apply IH; auto.
Qed.

Lemma X4_pointer_events_ignored_outside_draw_mode_witness :
  let s := run sample_decoder (mount (Some fresh_canvas)) [EvSetMode ModePrompt] in
  run sample_decoder s
    [EvMouseDown 10 10; EvMouseMove 20 20; EvMouseUp; EvMouseLeave] = s.
Proof.
  intros s.
  apply (@X4_pointer_events_ignored_outside_draw_mode sample_decoder
           [EvMouseDown 10 10; EvMouseMove 20 20; EvMouseUp; EvMouseLeave] s).
  - vm_compute. discriminate.
  - vm_compute. reflexivity.
  - reflexivity.
Defined.

(** X5. Releasing the button and then leaving the canvas ends the stroke
    once: the second [stopDrawing] changes nothing, so a stroke is never
    committed twice. *)
Theorem X5_stroke_is_committed_at_most_once
  (decodeText : string -> option (Z * Z)) (s : State) :
  run decodeText s [EvMouseUp; EvMouseLeave] = step decodeText s EvMouseUp /\
  run decodeText s [EvMouseLeave; EvMouseUp] = step decodeText s EvMouseUp.
Proof.
  assert (Hsame : step decodeText s EvMouseLeave = step decodeText s EvMouseUp)
    by reflexivity.
  assert (Hidle : forall t, isDrawing t = false -> step decodeText t EvMouseUp = t).
  { intros t Ht. unfold step. simpl. unfold stopDrawing. rewrite Ht. simpl.
    apply render_effects_quiet; reflexivity. }
  assert (H : step decodeText (step decodeText s EvMouseUp) EvMouseUp
              = step decodeText s EvMouseUp).
  { destruct (isDrawing s) eqn:Hd.
    - destruct (canvasRef s) as [c|] eqn:Hc.
      + destruct (context2d c) as [x|] eqn:Hx.
        * apply Hidle. unfold step.
          destruct (render_effects_same_brush s (handle decodeText EvMouseUp s))
            as [ts ->].
          { simpl. unfold stopDrawing, saveState. rewrite Hd, Hc, Hx. reflexivity. }
          { simpl. unfold stopDrawing, saveState. rewrite Hd, Hc, Hx. reflexivity. }
          simpl. unfold stopDrawing, saveState. rewrite Hd, Hc, Hx. reflexivity.
        * assert (E : step decodeText s EvMouseUp = s).
          { unfold step. simpl. unfold stopDrawing. rewrite Hd, Hc, Hx. simpl.
            apply render_effects_quiet; reflexivity. }
          rewrite E. exact E.
      + assert (E : step decodeText s EvMouseUp = s).
        { unfold step. simpl. unfold stopDrawing. rewrite Hd, Hc. simpl.
          apply render_effects_quiet; reflexivity. }
        rewrite E. exact E.
    - rewrite (Hidle s Hd). apply Hidle, Hd. }
  split; simpl; [change (step decodeText (step decodeText s EvMouseUp) EvMouseLeave)
                   with (step decodeText (step decodeText s EvMouseUp) EvMouseUp)
                | rewrite Hsame]; exact H.
Qed.

(** ** Clear *)

(** X6. [clear()] is idempotent on what it resets: a second [clear()] right
    after the first leaves the surface, the history and the cursor exactly as
    the first left them, and never touches stroke, mode or brush state. *)
Theorem X6_clear_twice_is_clear_once
  (decodeText : string -> option (Z * Z)) (s : State) :
  let once := step decodeText s EvClear in
  let twice := step decodeText once EvClear in
  canvasRef twice = canvasRef once /\ history twice = history once /\
  historyIndex twice = historyIndex once /\
  isDrawing twice = isDrawing s /\ lastPointRef twice = lastPointRef s /\
  mode twice = mode s /\ brushColor twice = brushColor s /\
  brushSize twice = brushSize s.
Proof.
  simpl.
  destruct (getContext s) as [x|] eqn:G.
  - unfold getContext in G. destruct (canvasRef s) as [c|] eqn:Hc; [|discriminate].
    rewrite (@clear_step decodeText s c x Hc G).
    assert (Hw : fillRect_canvas (with_context (set_fillStyle "white") c)
                 = mkCanvas (width c) (height c)
                     (Some (set_fillStyle "white" x)) (Filled "white")).
    { unfold fillRect_canvas, with_context. rewrite G. reflexivity. }
    rewrite Hw.
    match goal with
    | |- context [step decodeText ?t EvClear] =>
        rewrite (@clear_step decodeText t
                   (mkCanvas (width c) (height c)
                      (Some (set_fillStyle "white" x)) (Filled "white"))
                   (set_fillStyle "white" x) eq_refl eq_refl)
    end.
    simpl. repeat split.
  - rewrite !(@clear_without_canvas decodeText s G). repeat split.
Qed.

(** ** The path of a stroke *)

Lemma draw_step decodeText s c x l p :
  canvasRef s = Some c -> context2d c = Some x ->
  isDrawing s = true -> lastPointRef s = Some l -> mode s = ModeDraw ->
  step decodeText s (EvMouseMove (fst p) (snd p))
  = set_lastPointRef (Some p)
      (set_canvasRef
         (Some (mkCanvas (width c) (height c)
                  (Some (addToPath (segment_to (isSmoothing s) l p) x))
                  (Stroked (bitmap c)
                     (currentPath x ++ [segment_to (isSmoothing s) l p])
                     (strokeStyle x) (lineWidth x) (lineCap x) (lineJoin x)))) s).
Proof.
  intros Hc Hx Hd Hl Hm. unfold step. simpl. unfold draw.
  rewrite Hd, Hl, Hm, Hc, Hx. destruct l as [lx ly]. destruct p as [px py]. simpl.
  unfold stroke, with_context. rewrite Hx. simpl.
  apply render_effects_quiet; reflexivity.
Qed.

Lemma paint_segments_top segs : forall b path st w cap join,
  segs <> [] ->
  exists under,
    paint_segments b path segs st w cap join
    = Stroked under (path ++ segs) st w cap join.
Proof.
  induction segs as [|sg segs IH]; intros b path st w cap join N;
    [contradiction N; reflexivity|].
  simpl. destruct segs as [|sg' segs'].
  - simpl. eauto.
  - destruct (IH (Stroked b (path ++ [sg]) st w cap join) (path ++ [sg])
                st w cap join) as [under E]; [discriminate|].
    rewrite E. rewrite <- app_assoc. simpl. eauto.
Qed.

Lemma last_cons_default (A : Type) (l : list A) : forall p d,
  last (p :: l) d = last l p.
Proof.
  induction l as [|q r IH]; intros p d; [reflexivity|].
  change (last (p :: q :: r) d) with (last (q :: r) d).
  rewrite (IH q d), (IH q p). reflexivity.
Qed.

Lemma draw_moves decodeText pts : forall s c x l,
  canvasRef s = Some c -> context2d c = Some x ->
  isDrawing s = true -> lastPointRef s = Some l -> mode s = ModeDraw ->
  let s' := run decodeText s (moves pts) in
  let segs := stroke_segments (isSmoothing s) l pts in
  exists c' x',
    canvasRef s' = Some c' /\ context2d c' = Some x' /\
    currentPath x' = currentPath x ++ segs /\
    bitmap c' = paint_segments (bitmap c) (currentPath x) segs
                  (strokeStyle x) (lineWidth x) (lineCap x) (lineJoin x) /\
    isDrawing s' = true /\ lastPointRef s' = Some (last pts l) /\
    history s' = history s /\ historyIndex s' = historyIndex s.
Proof.
  induction pts as [|p pts IH]; intros s c x l Hc Hx Hd Hl Hm; simpl.
  - exists c, x. rewrite app_nil_r. repeat split; auto.
  - rewrite (@draw_step decodeText s c x l p Hc Hx Hd Hl Hm).
    set (s1 := set_lastPointRef (Some p) _).
    destruct (IH s1 _ _ p eq_refl eq_refl Hd eq_refl Hm)
      as (c' & x' & E1 & E2 & E3 & E4 & E5 & E6 & E7 & E8).
    exists c', x'. split; [exact E1|]. split; [exact E2|].
    split; [rewrite E3; simpl; rewrite <- app_assoc; reflexivity|].
    split; [rewrite E4; reflexivity|].
    split; [exact E5|].
    split; [rewrite E6; f_equal; symmetry; apply (last_cons_default pts p l)|].
    split; [exact E7 | exact E8].
Qed.

(** X7. A drag in free-draw mode builds one path: mouse down starts a fresh
    path at the pressed point (whatever path the context held before), and
    every following move appends exactly one segment -- a quadratic curve
    with the previous sample as control point and the midpoint as end when
    smoothing is on, a straight line to the sample when it is off -- and
    strokes the whole path built so far on top of the surface.  After the
    moves the pen position is the last sample, and nothing has been
    committed to the history. *)
Theorem X7_drag_builds_one_path_segment_per_sample
  (decodeText : string -> option (Z * Z)) (s : State) (c : CanvasEl)
  (x : Context2D) (p0 : Q * Q) (pts : list (Q * Q)) :
  canvasRef s = Some c -> context2d c = Some x -> mode s = ModeDraw ->
  let s2 := run decodeText s (EvMouseDown (fst p0) (snd p0) :: moves pts) in
  let segs := stroke_segments (isSmoothing s) p0 pts in
  exists c2 x2,
    canvasRef s2 = Some c2 /\ context2d c2 = Some x2 /\
    currentPath x2 = MoveTo (fst p0) (snd p0) :: segs /\
    bitmap c2 = paint_segments (bitmap c) [MoveTo (fst p0) (snd p0)] segs
                  (strokeStyle x) (lineWidth x) (lineCap x) (lineJoin x) /\
    (pts <> [] ->
     exists under,
       bitmap c2 = Stroked under (currentPath x2)
                     (strokeStyle x) (lineWidth x) (lineCap x) (lineJoin x)) /\
    isDrawing s2 = true /\ lastPointRef s2 = Some (last pts p0) /\
    history s2 = history s /\ historyIndex s2 = historyIndex s.
Proof.
  intros Hc Hx Hm. simpl.
  assert (E : step decodeText s (EvMouseDown (fst p0) (snd p0))
              = set_lastPointRef (Some p0)
                  (setIsDrawing true
                     (set_canvasRef
                        (Some (mkCanvas (width c) (height c)
                                 (Some (set_currentPath
                                          [MoveTo (fst p0) (snd p0)] x))
                                 (bitmap c))) s))).
  { unfold step. simpl. unfold startDrawing. rewrite Hc, Hx, Hm. simpl.
    unfold with_context. rewrite Hx. destruct p0 as [x0 y0]. simpl.
    apply render_effects_quiet; reflexivity. }
  rewrite E.
  set (s1 := set_lastPointRef (Some p0) _).
  destruct (@draw_moves decodeText pts s1 _ _ p0 eq_refl eq_refl eq_refl eq_refl Hm)
    as (c2 & x2 & E1 & E2 & E3 & E4 & E5 & E6 & E7 & E8).
  simpl in E3, E4.
  exists c2, x2. split; [exact E1|]. split; [exact E2|]. split; [exact E3|].
  split; [exact E4|]. split.
  { intros N.
    destruct (@paint_segments_top (stroke_segments (isSmoothing s) p0 pts)
                (bitmap c) [MoveTo (fst p0) (snd p0)]
                (strokeStyle x) (lineWidth x) (lineCap x) (lineJoin x))
      as [under Eu].
    - destruct pts; [contradiction N; reflexivity | discriminate].
    - exists under. rewrite E4, E3. exact Eu. }
  split; [exact E5|]. split; [exact E6|]. split; [exact E7 | exact E8].
Qed.

Lemma X7_drag_builds_one_path_segment_per_sample_witness :
  let s := mount (Some fresh_canvas) in
  let s2 := run sample_decoder s
              (EvMouseDown 10 10 :: moves [(20, 10); (20, 30)]%Q) in
  option_map currentPath (getContext s2)
  = Some [MoveTo 10 10;
          QuadraticCurveTo 10 10 ((10 + 20) / 2)%Q ((10 + 10) / 2)%Q;
          QuadraticCurveTo 20 10 ((20 + 20) / 2)%Q ((10 + 30) / 2)%Q] /\
  lastPointRef s2 = Some (20, 30)%Q /\ history s2 = history s.
Proof.
  intros s s2.
  destruct (canvasRef s) as [cv|] eqn:Hc; [|vm_compute in Hc; discriminate Hc].
  destruct (context2d cv) as [ctx|] eqn:Hx;
    [|vm_compute in Hc; inversion Hc; subst cv; discriminate Hx].
  assert (Hm : mode s = ModeDraw) by reflexivity.
  destruct (@X7_drag_builds_one_path_segment_per_sample sample_decoder s cv ctx
              (10, 10)%Q [(20, 10); (20, 30)]%Q Hc Hx Hm)
    as (c2 & x2 & E1 & E2 & E3 & _ & _ & _ & E6 & E7 & _).
  change (canvasRef s2 = Some c2) in E1.
  split; [|split; [exact E6 | exact E7]].
  unfold getContext. rewrite E1, E2.
  change (option_map currentPath (Some x2)) with (Some (currentPath x2)).
  rewrite E3. vm_compute. reflexivity.
Defined.

Lemma stroke_segments_snoc smoothing front : forall l p,
  stroke_segments smoothing l (front ++ [p])
  = stroke_segments smoothing l front ++ [segment_to smoothing (last front l) p].
Proof.
  induction front as [|q front IH]; intros l p; [reflexivity|].
  change (stroke_segments smoothing l ((q :: front) ++ [p]))
    with (segment_to smoothing l q :: stroke_segments smoothing q (front ++ [p])).
  rewrite IH, last_cons_default. reflexivity.
Qed.

Lemma start_step decodeText s c x p0 :
  canvasRef s = Some c -> context2d c = Some x -> mode s = ModeDraw ->
  step decodeText s (EvMouseDown (fst p0) (snd p0))
  = set_lastPointRef (Some p0)
      (setIsDrawing true
         (set_canvasRef
            (Some (mkCanvas (width c) (height c)
                     (Some (set_currentPath [MoveTo (fst p0) (snd p0)] x))
                     (bitmap c))) s)).
Proof.
  intros Hc Hx Hm. unfold step. simpl. unfold startDrawing.
  rewrite Hc, Hx, Hm. simpl.
  unfold with_context. rewrite Hx. destruct p0 as [x0 y0]. simpl.
  apply render_effects_quiet; reflexivity.
Qed.

(** X8. Where the painted stroke ends.  After a drag whose last two samples
    are [prev] and [p], the pen position is [p]; with smoothing off the path
    ends at [p]; with smoothing on it ends at the midpoint of [prev] and [p]:
    the curve stays half a step behind the pointer.  Ending the stroke then
    commits the surface as painted and closes the path without stroking
    again, so the snapshot is of the stroke up to that end point. *)
Theorem X8_smoothed_stroke_ends_at_the_last_midpoint
  (decodeText : string -> option (Z * Z)) (s : State) (c : CanvasEl)
  (x : Context2D) (p0 : Q * Q) (front : list (Q * Q)) (p : Q * Q) :
  canvasRef s = Some c -> context2d c = Some x -> mode s = ModeDraw ->
  0 <= historyIndex s ->
  let prev := last front p0 in
  let s2 := run decodeText s
              (EvMouseDown (fst p0) (snd p0) :: moves (front ++ [p])) in
  let s3 := step decodeText s2 EvMouseUp in
  lastPointRef s2 = Some p /\
  (exists x2,
     getContext s2 = Some x2 /\
     end_point (last (currentPath x2) ClosePath)
     = Some (if isSmoothing s
             then (((fst prev + fst p) / 2)%Q, ((snd prev + snd p) / 2)%Q)
             else (fst p, snd p))) /\
  getImageData s3 = getImageData s2 /\
  history s3 = firstn (Z.to_nat (historyIndex s) + 1) (history s)
               ++ [getImageData s2].
Proof.
  intros Hc Hx Hm Hi. simpl.
  rewrite (@start_step decodeText s c x p0 Hc Hx Hm).
  set (s1 := set_lastPointRef (Some p0) _).
  destruct (@draw_moves decodeText (front ++ [p]) s1 _ _ p0
              eq_refl eq_refl eq_refl eq_refl Hm)
    as (c2 & x2 & E1 & E2 & E3 & E4 & E5 & E6 & E7 & E8).
  simpl in E3.
  split; [rewrite E6, last_last; reflexivity|].
  split.
  { exists x2. split; [unfold getContext; rewrite E1; exact E2|].
    rewrite E3, stroke_segments_snoc, app_comm_cons, last_last.
    unfold segment_to. simpl. destruct (isSmoothing s); reflexivity. }
  change (fold_left (step decodeText) (moves (front ++ [p])) s1)
    with (run decodeText s1 (moves (front ++ [p]))).
  assert (Hi2 : 0 <= historyIndex (run decodeText s1 (moves (front ++ [p]))))
    by (rewrite E8; exact Hi).
  destruct (@commit_effect decodeText EndStroke
              (run decodeText s1 (moves (front ++ [p]))) c2 x2 E1 E2 Hi2 E5)
    as [Hh _].
  simpl in Hh.
  rewrite (@end_stroke_export decodeText _ c2 x2 E1 E2 E5) in *.
  rewrite (@getImageData_canvas _ c2 E1).
  split; [reflexivity|]. rewrite Hh, E7, E8. reflexivity.
Qed.

Lemma X8_smoothed_stroke_ends_at_the_last_midpoint_witness :
  let s := mount (Some fresh_canvas) in
  let s2 := run sample_decoder s
              (EvMouseDown 10 10 :: moves ([(20, 10)] ++ [(40, 30)])%Q) in
  lastPointRef s2 = Some (40, 30)%Q /\
  exists x2,
    getContext s2 = Some x2 /\
    end_point (last (currentPath x2) ClosePath)
    = Some (((20 + 40) / 2)%Q, ((10 + 30) / 2)%Q).
Proof.
  intros s s2.
  destruct (canvasRef s) as [cv|] eqn:Hc; [|vm_compute in Hc; discriminate Hc].
  destruct (context2d cv) as [ctx|] eqn:Hx;
    [|vm_compute in Hc; inversion Hc; subst cv; discriminate Hx].
  assert (Hm : mode s = ModeDraw) by reflexivity.
  assert (Hi : 0 <= historyIndex s) by (vm_compute; discriminate).
  destruct (@X8_smoothed_stroke_ends_at_the_last_midpoint sample_decoder s cv ctx
              (10, 10)%Q [(20, 10)]%Q (40, 30)%Q Hc Hx Hm Hi)
    as (E1 & (x2 & E2 & E3) & _).
  split; [exact E1|]. exists x2. split; [exact E2|]. exact E3.
Defined.

(** ** Pose requests *)

(** X9. A pose request that the service fails leaves the surface, the
    history and the list of waiting callbacks untouched: the outcome is the
    state before the click with [errorMessage] set to the service's message
    and [isGeneratingPose] off.  With an empty prompt the click starts no
    request at all. *)
Theorem X9_failed_or_empty_pose_request_leaves_canvas_untouched
  (decodeText : string -> option (Z * Z)) (s : State) :
  (prompt s <> "" ->
   requestPoseFromPrompt decodeText ServiceFailure s
   = setIsGeneratingPose false
       (setErrorMessage
          (Some "Failed to generate the pose from the prompt. Please try again.")
          s)) /\
  (prompt s = "" ->
   step decodeText s EvGeneratePose = s /\
   forall r, requestPoseFromPrompt decodeText r s = s).
Proof.
  split.
  - intros Hp. unfold requestPoseFromPrompt, run. simpl fold_left.
    rewrite (@generate_step decodeText s Hp).
    set (s1 := enqueue _ _).
    assert (S2 : step decodeText s1
                   (EvServiceReply (List.length (pending s)) ServiceFailure)
                 = setIsGeneratingPose false
                     (setErrorMessage
                        (Some "Failed to generate the pose from the prompt. Please try again.")
                        s)).
    { unfold step. simpl handle. cbv beta iota.
      change (pending s1) with (pending s ++ [PoseRequest (prompt s) (closure_of s)]).
      rewrite nth_error_snoc, remove_nth_snoc.
      unfold handleGeneratePose_resume, generatePoseFromPrompt.
      rewrite render_effects_quiet by reflexivity.
      destruct s; reflexivity. }
    rewrite S2.
    unfold step. simpl handle.
    change (pending (setIsGeneratingPose false (setErrorMessage _ s)))
      with (pending s).
    replace (nth_error (pending s) (List.length (pending s))) with (@None Task)
      by (symmetry; apply nth_error_None; lia).
    apply render_effects_quiet; reflexivity.
  - intros Hp.
    assert (S1 : step decodeText s EvGeneratePose = s).
    { unfold step. simpl. unfold handleGeneratePose. rewrite Hp. simpl.
      apply render_effects_quiet; reflexivity. }
    split; [exact S1|]. intros r.
    unfold requestPoseFromPrompt, run. simpl fold_left. rewrite S1.
    assert (N : nth_error (pending s) (List.length (pending s)) = None)
      by (apply nth_error_None; lia).
    assert (S2 : step decodeText s (EvServiceReply (List.length (pending s)) r) = s).
    { unfold step. simpl. rewrite N. apply render_effects_quiet; reflexivity. }
    rewrite S2. unfold step. simpl. rewrite N.
    apply render_effects_quiet; reflexivity.
Qed.

Lemma X9_failed_or_empty_pose_request_leaves_canvas_untouched_witness :
  let s := mount (Some fresh_canvas) in
  let typed := setPrompt "a backflip" s in
  requestPoseFromPrompt sample_decoder (ImageBytes "POSE") s = s /\
  errorMessage (requestPoseFromPrompt sample_decoder ServiceFailure typed)
  = Some "Failed to generate the pose from the prompt. Please try again." /\
  history (requestPoseFromPrompt sample_decoder ServiceFailure typed) = history s.
Proof.
  intros s typed.
  destruct (@X9_failed_or_empty_pose_request_leaves_canvas_untouched
              sample_decoder s) as [_ He].
  destruct (@X9_failed_or_empty_pose_request_leaves_canvas_untouched
              sample_decoder typed) as [Hf _].
  split; [apply He; reflexivity|].
  rewrite Hf by (vm_compute; discriminate).
  split; reflexivity.
Defined.

Lemma busy_app g l l' : busy_ok g l -> busy_ok g (l ++ l').
Proof.
  unfold busy_ok. intros H G. rewrite existsb_app, (H G). reflexivity.
Qed.

Lemma existsb_remove_other (A : Type) (f : A -> bool) k : forall l t,
  nth_error l k = Some t -> f t = false ->
  existsb f (remove_nth k l) = existsb f l.
Proof.
  induction k as [|k IH]; intros [|a l] t Hk Hf; simpl in *; try discriminate.
  - inversion Hk; subst. rewrite Hf. reflexivity.
  - rewrite (IH l t Hk Hf). reflexivity.
Qed.

Lemma busy_remove g l k t :
  busy_ok g l -> nth_error l k = Some t -> is_pose_request t = false ->
  busy_ok g (remove_nth k l).
Proof.
  unfold busy_ok. intros H Hk Hf G.
  rewrite (existsb_remove_other is_pose_request k l Hk Hf). exact (H G).
Qed.

Lemma busy_inv_ext s s' :
  isGeneratingPose s' = isGeneratingPose s -> pending s' = pending s ->
  busy_inv s -> busy_inv s'.
Proof. unfold busy_inv. intros -> ->. auto. Qed.

Lemma busy_inv_enqueue s s' extra :
  isGeneratingPose s' = isGeneratingPose s -> pending s' = pending s ++ extra ->
  busy_inv s -> busy_inv s'.
Proof. unfold busy_inv. intros -> ->. apply busy_app. Qed.

Lemma saveState_busy env s : busy_inv s -> busy_inv (saveState env s).
Proof.
  intros H. unfold saveState. destruct (canvasRef s); auto.
Qed.

Lemma restoreCanvasFromHistory_busy env s :
  busy_inv s -> busy_inv (restoreCanvasFromHistory env s).
Proof.
  intros H. unfold restoreCanvasFromHistory, enqueue.
  destruct (canvasRef s); auto. destruct (getContext s); auto.
  destruct (_ || _); auto.
  eapply busy_inv_enqueue with (3 := H); reflexivity.
Qed.

Lemma brushEffect_busy s : busy_inv s -> busy_inv (brushEffect s).
Proof.
  intros H. unfold brushEffect. destruct (canvasRef s) as [c|]; auto.
  destruct (context2d c); auto.
Qed.

Lemma render_effects_busy old new :
  busy_inv new -> busy_inv (render_effects old new).
Proof.
  intros H. unfold render_effects.
  repeat split_match; auto using restoreCanvasFromHistory_busy, brushEffect_busy.
Qed.

Lemma loadPoseImageOntoCanvas_busy env u s :
  busy_inv s -> busy_inv (loadPoseImageOntoCanvas env u s).
Proof.
  intros H. unfold loadPoseImageOntoCanvas, enqueue.
  destruct (canvasRef s); auto. destruct (getContext s); auto.
  eapply busy_inv_enqueue with (3 := H); reflexivity.
Qed.

Lemma drop_other_busy s k t :
  nth_error (pending s) k = Some t -> is_pose_request t = false ->
  busy_inv s -> busy_inv (set_pending (remove_nth k (pending s)) s).
Proof. unfold busy_inv. simpl. intros Hk Hf H. eapply busy_remove; eauto. Qed.

Lemma handle_busy decodeText e s :
  busy_inv s -> busy_inv (handle decodeText e s).
Proof.
  intros H. destruct e; simpl; auto.
  all: try solve
    [ unfold clearCanvas, initializeCanvas, startDrawing, draw, stopDrawing,
        saveState, handleUndo, handleRedo;
      repeat split_match; auto ].
  - unfold handlePoseUpload, enqueue. destruct file; auto.
    eapply busy_inv_enqueue with (3 := H); reflexivity.
  - unfold handleGeneratePose, enqueue. destruct (String.eqb _ _); auto.
    unfold busy_inv, busy_ok. simpl. intros _.
    rewrite existsb_app. simpl. apply orb_true_r.
  - destruct (nth_error (pending s) k) as [[p env|? ?|? ?|?]|]; auto.
    unfold handleGeneratePose_resume.
    destruct (generatePoseFromPrompt r); unfold busy_inv, busy_ok;
      [destruct (loadPoseImageOntoCanvas_shape env u
                   (set_pending (remove_nth k (pending s)) s)) as [ts ->]|];
      simpl; discriminate.
  - destruct (nth_error (pending s) k) as [[p env|u env|u env|u]|] eqn:E; auto.
    + apply loadPoseImageOntoCanvas_busy. eapply drop_other_busy; eauto.
    + assert (Hd : busy_inv (set_pending (remove_nth k (pending s)) s))
        by (eapply drop_other_busy; eauto).
      destruct (decode decodeText u); auto.
      unfold pose_onload, saveState. repeat split_match; auto.
    + assert (Hd : busy_inv (set_pending (remove_nth k (pending s)) s))
        by (eapply drop_other_busy; eauto).
      destruct (decode decodeText u); auto.
      unfold restore_onload. repeat split_match; auto.
Qed.

Lemma run_busy decodeText evs : forall s,
  busy_inv s -> busy_inv (run decodeText s evs).
Proof.
  induction evs as [|e evs IH]; intros s H; simpl; auto.
  apply IH. unfold step. apply render_effects_busy, handle_busy, H.
Qed.

Lemma mount_busy canvas : busy_inv (mount canvas).
Proof.
  unfold mount. apply render_effects_busy, brushEffect_busy.
  apply restoreCanvasFromHistory_busy.
  unfold initializeCanvas, initialState. simpl.
  destruct canvas as [c|]; [destruct (context2d c)|];
    unfold busy_inv, busy_ok; simpl; discriminate.
Qed.

(** X10. Whatever happens after mounting, the "generating" flag is on only
    while a pose request is still waiting for the service: every path that
    ends a request (success, failure) turns the flag off, and nothing else
    removes a waiting request. *)
Theorem X10_generating_flag_implies_a_pending_request
  (decodeText : string -> option (Z * Z)) (canvas : option CanvasEl)
  (evs : list Event) :
  let s := run decodeText (mount canvas) evs in
  isGeneratingPose s = true ->
  exists promptText env, In (PoseRequest promptText env) (pending s).
Proof.
  intros s Hg.
  pose proof (@run_busy decodeText evs (mount canvas) (mount_busy canvas)) as H.
  fold s in H. specialize (H Hg).
  apply existsb_exists in H. destruct H as [[p env|? ?|? ?|?] [Hin Hp]];
    try discriminate.
  eauto.
Qed.

Lemma X10_generating_flag_implies_a_pending_request_witness :
  let s := run sample_decoder (mount (Some fresh_canvas))
             [EvSetPrompt "a backflip"; EvGeneratePose; EvMouseDown 10 10;
              EvMouseUp; EvClear] in
  isGeneratingPose s = true /\
  exists promptText env, In (PoseRequest promptText env) (pending s).
Proof.
  intros s.
  assert (Hg : isGeneratingPose s = true) by (vm_compute; reflexivity).
  split; [exact Hg|].
  exact (@X10_generating_flag_implies_a_pending_request sample_decoder
           (Some fresh_canvas)
           [EvSetPrompt "a backflip"; EvGeneratePose; EvMouseDown 10 10;
            EvMouseUp; EvClear] Hg).
Defined.

(** ** Brush settings *)

(** X11. After mounting on a canvas with a 2D context, whatever events
    follow, the context's stroke colour and line width are the brush colour
    and size of the current state, and its line cap and join are round. *)
Theorem X11_context_always_holds_the_current_brush
  (decodeText : string -> option (Z * Z)) (canvas : CanvasEl) (ctx0 : Context2D)
  (evs : list Event) :
  context2d canvas = Some ctx0 ->
  let s := run decodeText (mount (Some canvas)) evs in
  exists ctx,
    getContext s = Some ctx /\
    strokeStyle ctx = brushColor s /\ lineWidth ctx = brushSize s /\
    lineCap ctx = CapRound /\ lineJoin ctx = JoinRound.
Proof.
  intros Hc s.
  assert (Hst : stroke_styles s <> None)
    by (apply run_has_styles; eapply mount_has_styles; eauto).
  assert (Hsy : brush_synced s) by (apply run_synced, mount_synced).
  unfold brush_synced, stroke_styles in Hst, Hsy.
  destruct (getContext s) as [ctx|]; [|contradiction Hst; reflexivity].
  simpl in Hsy. inversion Hsy. exists ctx. repeat split; auto.
Qed.

Lemma X11_context_always_holds_the_current_brush_witness :
  let s := run sample_decoder (mount (Some fresh_canvas))
             [EvSetBrushColor "#22C55E"; EvMouseDown 10 10;
              EvSetBrushSize BRUSH_SIZES.Small; EvMouseMove 20 20; EvClear] in
  exists ctx,
    getContext s = Some ctx /\
    strokeStyle ctx = "#22C55E" /\ lineWidth ctx = 3 /\
    lineCap ctx = CapRound /\ lineJoin ctx = JoinRound.
Proof.
  intros s.
  destruct (@X11_context_always_holds_the_current_brush sample_decoder
              fresh_canvas fresh_context
              [EvSetBrushColor "#22C55E"; EvMouseDown 10 10;
               EvSetBrushSize BRUSH_SIZES.Small; EvMouseMove 20 20; EvClear]
              eq_refl) as (ctx & E1 & E2 & E3 & E4 & E5).
  fold s in E1, E2, E3.
  assert (Ec : brushColor s = "#22C55E") by (vm_compute; reflexivity).
  assert (Es : brushSize s = 3) by (vm_compute; reflexivity).
  rewrite Ec in E2. rewrite Es in E3.
  exists ctx. repeat split; assumption.
Defined.

(** * Properties of the service module, the editor and the application *)

(** ** Data URLs *)

Lemma append_assoc_str (a b c : string) :
  String.append (String.append a b) c = String.append a (String.append b c).
Proof. induction a as [|ch a IH]; simpl; [reflexivity|]. rewrite IH. reflexivity. Qed.

Lemma no_comma_append (a b : string) :
  no_comma (String.append a b) = no_comma a && no_comma b.
Proof.
  induction a as [|ch a IH]; simpl; [reflexivity|].
  rewrite IH. apply andb_assoc.
Qed.

Lemma split_comma_nonempty (s : string) : split_comma s <> [].
Proof.
  induction s as [|ch s IH]; simpl; [discriminate|].
  destruct (Ascii.eqb ch ","%char); [discriminate|].
  destruct (split_comma s); discriminate.
Qed.

Lemma split_comma_whole (s : string) : no_comma s = true -> split_comma s = [s].
Proof.
  induction s as [|ch s IH]; simpl; intros H; [reflexivity|].
  apply andb_true_iff in H. destruct H as [Hc Hs].
  apply negb_true_iff in Hc. rewrite Hc, (IH Hs). reflexivity.
Qed.

Lemma split_comma_at_first (a b : string) :
  no_comma a = true ->
  split_comma (String.append a (String ","%char b)) = a :: split_comma b.
Proof.
  induction a as [|ch a IH]; simpl; intros H; [reflexivity|].
  apply andb_true_iff in H. destruct H as [Hc Hs].
  apply negb_true_iff in Hc. rewrite Hc, (IH Hs). reflexivity.
Qed.

Lemma data_url_shape (mime data : string) :
  data_url mime data
  = String.append (String.append "data:" (String.append mime ";base64"))
      (String ","%char data).
Proof.
  unfold data_url. rewrite !append_assoc_str. reflexivity.
Qed.

(** X12. The data URLs that the service functions return and the way
    [base64ToGeminiPart] takes them apart fit together: for a MIME type and
    a payload without commas (base64 has none), the part built from
    [`data:${mimeType};base64,${data}`] carries exactly [data], under the
    MIME type the caller names, whatever the URL's own type is.  A string
    without any comma yields no data at all ([undefined]). *)
Theorem X12_data_url_payload_round_trip (mime data label : string) :
  no_comma mime = true -> no_comma data = true ->
  inlineData_data (base64ToGeminiPart (data_url mime data) label) = Some data /\
  inlineData_mimeType (base64ToGeminiPart (data_url mime data) label) = label /\
  png_data_url data = Text (data_url "image/png" data) /\
  inlineData_data (base64ToGeminiPart data label) = None.
Proof.
  intros Hm Hd. unfold base64ToGeminiPart. cbn [inlineData_data inlineData_mimeType].
  split; [|split; [reflexivity|split; [reflexivity|]]].
  - rewrite data_url_shape, split_comma_at_first.
    + rewrite (split_comma_whole data Hd). reflexivity.
    + rewrite !no_comma_append, Hm. reflexivity.
  - rewrite (split_comma_whole data Hd). reflexivity.
Qed.

Lemma X12_data_url_payload_round_trip_witness :
  inlineData_data
    (base64ToGeminiPart (data_url "image/jpeg" "iVBORw0KGgo=") "image/png")
  = Some "iVBORw0KGgo=" /\
  inlineData_data (base64ToGeminiPart "iVBORw0KGgo=" "image/png") = None.
Proof.
  destruct (@X12_data_url_payload_round_trip "image/jpeg" "iVBORw0KGgo=" "image/png"
              eq_refl eq_refl) as (H1 & _ & _ & H2).
  split; [exact H1 | exact H2].
Defined.

(** ** The background editor *)

(** X13. In the background editor, [handleSubmit] hands a background to
    [onSubmit] exactly when the Apply button would be enabled once
    processing is over: in upload mode with an uploaded image (a typed
    prompt is ignored), in prompt mode with a non-empty prompt (an uploaded
    image is ignored).  Either way it ends with [isProcessing] off.  Opening
    the modal keeps the selected tab and clears both inputs, so right after
    opening nothing can be submitted. *)
Theorem X13_editor_submits_exactly_when_apply_is_enabled
  (st : BackgroundEditor.EditorState) :
  let idle := BackgroundEditor.mkEditor (BackgroundEditor.mode st)
                (BackgroundEditor.prompt st) (BackgroundEditor.uploadedImage st)
                false in
  (BackgroundEditor.submitted st = None <->
   BackgroundEditor.isSubmitDisabled idle = true) /\
  (forall img, BackgroundEditor.submitted st = Some (BackgroundEditor.BgUpload img) ->
     BackgroundEditor.mode st = BackgroundEditor.ModeUploadBg /\
     BackgroundEditor.uploadedImage st = Some img) /\
  (forall p, BackgroundEditor.submitted st = Some (BackgroundEditor.BgPrompt p) ->
     BackgroundEditor.mode st = BackgroundEditor.ModePromptBg /\
     BackgroundEditor.prompt st = p /\ p <> "") /\
  fst (BackgroundEditor.handleSubmit st) = idle /\
  BackgroundEditor.mode (BackgroundEditor.openEffect true st)
  = BackgroundEditor.mode st /\
  BackgroundEditor.submitted (BackgroundEditor.openEffect true st) = None /\
  BackgroundEditor.isSubmitDisabled (BackgroundEditor.openEffect true st) = true.
Proof.
  destruct st as [m p u pr].
  unfold BackgroundEditor.submitted, BackgroundEditor.isSubmitDisabled,
    BackgroundEditor.handleSubmit, BackgroundEditor.openEffect.
  simpl.
  destruct m; simpl;
    [ destruct u as [[[|ch t]|w h px]|]; simpl
    | destruct (String.eqb_spec p "") as [E|E]; simpl ];
    repeat split; intros; simpl in *; try discriminate; try reflexivity;
    repeat match goal with
           | H : Some _ = Some _ |- _ => inversion H; clear H; subst
           end;
    auto; try discriminate.
Qed.

(** ** The application *)

Lemma truthy_data_url mime data : truthy (Some (Text (data_url mime data))) = true.
Proof. reflexivity. Qed.

Lemma truthy_toDataURL canvas : truthy (Some (toDataURL canvas)) = true.
Proof. reflexivity. Qed.

(** X14. Frame generation asks only for an uploaded character: with the
    Artboard mounted on a canvas, the pose read from it is never empty, so
    the request goes out with the current surface as pose -- a blank canvas
    included -- exactly when a character image is present; the frame to
    generate is the start frame when none exists yet and the end frame
    otherwise.  Without a character image the click only reports the error
    and leaves frames and Artboard alone. *)
Theorem X14_frame_generation_guard_accepts_any_canvas
  (a : App.AppSt) (ab : State) (canvas : CanvasEl) :
  App.artboardRef a = Some ab -> canvasRef ab = Some canvas ->
  (truthy (App.uploadedImage a) = true ->
   exists uploaded,
     App.uploadedImage a = Some uploaded /\
     snd (App.handleFrameGeneration a)
     = Some (App.mkFrameRequest uploaded (toDataURL canvas)
               (negb (truthy (App.startFrameImage a)))) /\
     App.appState (fst (App.handleFrameGeneration a)) = App.GENERATING_IMAGE /\
     App.errorMessage (fst (App.handleFrameGeneration a)) = None) /\
  (truthy (App.uploadedImage a) = false ->
   snd (App.handleFrameGeneration a) = None /\
   App.appState (fst (App.handleFrameGeneration a)) = App.ERROR /\
   App.errorMessage (fst (App.handleFrameGeneration a))
   = Some "Please upload a character image and draw a pose first." /\
   App.startFrameImage (fst (App.handleFrameGeneration a)) = App.startFrameImage a /\
   App.endFrameImage (fst (App.handleFrameGeneration a)) = App.endFrameImage a /\
   App.artboardRef (fst (App.handleFrameGeneration a)) = App.artboardRef a).
Proof.
  intros Hab Hc. unfold App.handleFrameGeneration. rewrite Hab. simpl.
  rewrite (@getImageData_canvas ab canvas Hc).
  destruct (App.uploadedImage a) as [[[|ch t]|w h px]|] eqn:Eu; simpl;
    (split; intros D; [try discriminate D | try discriminate D]);
    try (eexists; repeat split; fail); repeat split.
Qed.

Lemma X14_frame_generation_guard_accepts_any_canvas_witness :
  let ab := mount (Some fresh_canvas) in
  let a := App.mkApp App.IDLE None "" (Some (Text "data:image/png;base64,HERO"))
             None None None "" false false None (Some ab) in
  snd (App.handleFrameGeneration a)
  = Some (App.mkFrameRequest (Text "data:image/png;base64,HERO")
            (blank_url 512 256) true) /\
  snd (App.handleFrameGeneration (App.initialApp (Some ab))) = None.
Proof.
  intros ab a.
  destruct (canvasRef ab) as [cv|] eqn:Hc; [|vm_compute in Hc; discriminate Hc].
  destruct (@X14_frame_generation_guard_accepts_any_canvas a ab cv eq_refl Hc)
    as [H1 _].
  destruct (@X14_frame_generation_guard_accepts_any_canvas
              (App.initialApp (Some ab)) ab cv eq_refl Hc) as [_ H2].
  split.
  - destruct (H1 eq_refl) as (u & Eu & Er & _). rewrite Er.
    simpl in Eu. inversion Eu; subst u.
    vm_compute in Hc. inversion Hc; subst cv. reflexivity.
  - apply (H2 eq_refl).
Defined.

Lemma generateFrame_ok toLowerCase a ab canvas u mime data :
  App.artboardRef a = Some ab -> canvasRef ab = Some canvas ->
  App.uploadedImage a = Some u -> truthy (Some u) = true ->
  App.generateFrame toLowerCase (App.ImageOk mime data) a
  = let isStart := negb (truthy (App.startFrameImage a)) in
    App.mkApp App.IDLE None
      (if isStart then "Generating Start Frame..." else "Generating End Frame...")
      (Some u)
      (if isStart then Some (Text (data_url mime data)) else App.startFrameImage a)
      (if isStart then App.endFrameImage a else Some (Text (data_url mime data)))
      (if isStart then None else App.generatedVideoUrl a)
      (if isStart then "" else App.animationPrompt a)
      (App.isGeneratingAiPrompt a) true
      (Some (if isStart then App.FrameStart else App.FrameEnd))
      (Some ab).
Proof.
  intros Hab Hc Eu Hu.
  unfold App.generateFrame, App.handleFrameGeneration. rewrite Hab, Eu.
  cbn [option_map]. rewrite (@getImageData_canvas ab canvas Hc), Hu.
  rewrite truthy_toDataURL. cbn [negb orb].
  unfold App.handleFrameGeneration_resume.
  cbn [App.req_isGeneratingStartFrame App.errorMessage App.loadingMessage
       App.uploadedImage App.startFrameImage App.endFrameImage
       App.generatedVideoUrl App.animationPrompt App.isGeneratingAiPrompt
       App.artboardRef].
  destruct (truthy (App.startFrameImage a)); reflexivity.
Qed.

Lemma clear_keeps_canvas decodeText ab canvas :
  canvasRef ab = Some canvas ->
  exists c2, canvasRef (step decodeText ab EvClear) = Some c2.
Proof.
  intros Hc. destruct (context2d canvas) as [x|] eqn:Hx.
  - rewrite (@clear_step decodeText ab canvas x Hc Hx). simpl. eauto.
  - rewrite clear_without_canvas; [eauto|].
    unfold getContext. rewrite Hc. exact Hx.
Qed.

(** X15. The keyframe workflow, step by step.  From a state with a
    character image, no frames and the Artboard mounted: a successful frame
    generation stores the start frame and opens the editor on it; closing
    the editor clears the Artboard for the next pose; the next successful
    generation stores the end frame without touching the start frame;
    closing the editor again leaves the Artboard's drawing in place and the
    Generate button disabled with all frames done. *)
Theorem X15_keyframe_workflow_steps
  (decodeText : string -> option (Z * Z)) (toLowerCase : string -> string)
  (a : App.AppSt) (ab : State) (canvas : CanvasEl) (ctx : Context2D)
  (m1 d1 m2 d2 : string) :
  App.artboardRef a = Some ab ->
  canvasRef ab = Some canvas -> context2d canvas = Some ctx ->
  truthy (App.uploadedImage a) = true ->
  truthy (App.startFrameImage a) = false ->
  truthy (App.endFrameImage a) = false ->
  let a1 := App.generateFrame toLowerCase (App.ImageOk m1 d1) a in
  let a2 := App.handleCloseBgEditor decodeText a1 in
  let a3 := App.generateFrame toLowerCase (App.ImageOk m2 d2) a2 in
  let a4 := App.handleCloseBgEditor decodeText a3 in
  (App.getWorkflowStep a = "2. Create Start Frame" /\
   App.getWorkflowStep a1 = "2. Edit Start Frame Background" /\
   App.getWorkflowStep a2 = "3. Create End Frame" /\
   App.getWorkflowStep a3 = "3. Edit End Frame Background" /\
   App.getWorkflowStep a4 = "4. Write Prompt & Animate") /\
  (App.startFrameImage a4 = Some (Text (data_url m1 d1)) /\
   App.endFrameImage a4 = Some (Text (data_url m2 d2))) /\
  (App.artboardRef a2 = Some (step decodeText ab EvClear) /\
   App.artboardRef a4 = App.artboardRef a2) /\
  (App.getButtonText a4 = "All Frames Generated" /\
   App.isGenerateButtonDisabled a4 = true /\ App.appState a4 = App.IMAGE_READY).
Proof.
  intros Hab Hc Hx Hu Hs He.
  destruct (App.uploadedImage a) as [u|] eqn:Eu; [|discriminate Hu].
  destruct (@clear_keeps_canvas decodeText ab canvas Hc) as [c2 Hc2].
  cbv zeta.
  rewrite (@generateFrame_ok toLowerCase a ab canvas u m1 d1 Hab Hc Eu Hu).
  rewrite Hs. cbn [negb].
  set (a1 := App.mkApp _ _ _ _ _ _ _ _ _ _ _ _).
  assert (E2 : App.handleCloseBgEditor decodeText a1
               = App.mkApp App.IMAGE_READY None "Generating Start Frame..."
                   (Some u) (Some (Text (data_url m1 d1))) (App.endFrameImage a)
                   None "" (App.isGeneratingAiPrompt a) false None
                   (Some (step decodeText ab EvClear)))
    by reflexivity.
  rewrite E2.
  set (a2 := App.mkApp App.IMAGE_READY _ _ _ _ _ _ _ _ _ _ _).
  rewrite (@generateFrame_ok toLowerCase a2 (step decodeText ab EvClear) c2 u m2 d2
             eq_refl Hc2 eq_refl Hu).
  change (App.startFrameImage a2) with (Some (Text (data_url m1 d1))).
  rewrite truthy_data_url. cbn [negb].
  set (a3 := App.mkApp App.IDLE _ _ _ _ _ _ _ _ _ _ _).
  assert (E4 : App.handleCloseBgEditor decodeText a3
               = App.mkApp App.IMAGE_READY None "Generating End Frame..."
                   (Some u) (Some (Text (data_url m1 d1)))
                   (Some (Text (data_url m2 d2)))
                   None "" (App.isGeneratingAiPrompt a) false None
                   (Some (step decodeText ab EvClear)))
    by reflexivity.
  rewrite E4.
  unfold App.getWorkflowStep, App.getButtonText, App.isGenerateButtonDisabled,
    App.isLoading.
  rewrite Eu, Hu, Hs. unfold a1, a2, a3.
  cbn [App.uploadedImage App.startFrameImage App.endFrameImage
       App.isBgEditorOpen App.editingFrame App.appState App.artboardRef].
  rewrite Hu, He, !truthy_data_url.
  cbn [negb andb orb]. repeat split.
Qed.

Lemma X15_keyframe_workflow_steps_witness :
  let ab := mount (Some fresh_canvas) in
  let a := App.mkApp App.IDLE None "" (Some (Text "data:image/png;base64,HERO"))
             None None None "" false false None (Some ab) in
  let a1 := App.generateFrame (fun s => s) (App.ImageOk "image/png" "ONE") a in
  let a2 := App.handleCloseBgEditor sample_decoder a1 in
  let a3 := App.generateFrame (fun s => s) (App.ImageOk "image/png" "TWO") a2 in
  let a4 := App.handleCloseBgEditor sample_decoder a3 in
  App.getWorkflowStep a4 = "4. Write Prompt & Animate" /\
  App.startFrameImage a4 = Some (Text "data:image/png;base64,ONE") /\
  App.endFrameImage a4 = Some (Text "data:image/png;base64,TWO").
Proof.
  intros ab a a1 a2 a3 a4.
  destruct (canvasRef ab) as [cv|] eqn:Hc; [|vm_compute in Hc; discriminate Hc].
  destruct (context2d cv) as [ctx|] eqn:Hx;
    [|vm_compute in Hc; inversion Hc; subst cv; discriminate Hx].
  destruct (@X15_keyframe_workflow_steps sample_decoder (fun s => s) a ab cv ctx
              "image/png" "ONE" "image/png" "TWO"
              eq_refl Hc Hx eq_refl eq_refl eq_refl)
    as ((_ & _ & _ & _ & H4) & (Hs & He) & _).
  split; [exact H4|]. split; [exact Hs | exact He].
Defined.

(** X16. Updating a frame's background.  With no frame to update the call
    does nothing.  Otherwise it always ends in [IMAGE_READY] with the editor
    closed and no frame being edited -- also when the service fails: the
    [ERROR] state set on failure is overwritten, only the error message
    stays, and frames and Artboard are as before.  On success the frame
    being edited is replaced; the Artboard is cleared for the start frame
    and left alone for the end frame. *)
Theorem X16_background_update_always_ends_image_ready
  (decodeText : string -> option (Z * Z)) (toLowerCase : string -> string)
  (a : App.AppSt) (f : App.Frame) (message mime data : string) :
  App.editingFrame a = Some f ->
  let frame := match f with
               | App.FrameStart => App.startFrameImage a
               | App.FrameEnd => App.endFrameImage a
               end in
  let failed := App.updateBackground decodeText toLowerCase
                  (App.ImageError message) a in
  let updated := App.updateBackground decodeText toLowerCase
                   (App.ImageOk mime data) a in
  (truthy frame = false -> failed = a /\ updated = a) /\
  (truthy frame = true ->
   (App.appState failed = App.IMAGE_READY /\
    App.errorMessage failed
    = Some (App.getFriendlyErrorMessage toLowerCase (Some message)) /\
    App.startFrameImage failed = App.startFrameImage a /\
    App.endFrameImage failed = App.endFrameImage a /\
    App.artboardRef failed = App.artboardRef a /\
    App.editingFrame failed = None /\ App.isBgEditorOpen failed = false) /\
   (App.appState updated = App.IMAGE_READY /\ App.errorMessage updated = None /\
    App.editingFrame updated = None /\ App.isBgEditorOpen updated = false /\
    match f with
    | App.FrameStart =>
        App.startFrameImage updated = Some (Text (data_url mime data)) /\
        App.endFrameImage updated = App.endFrameImage a /\
        App.artboardRef updated
        = option_map (fun ab => step decodeText ab EvClear) (App.artboardRef a)
    | App.FrameEnd =>
        App.endFrameImage updated = Some (Text (data_url mime data)) /\
        App.startFrameImage updated = App.startFrameImage a /\
        App.artboardRef updated = App.artboardRef a
    end)).
Proof.
  intros Hf. cbv zeta.
  unfold App.updateBackground, App.handleBackgroundUpdate. rewrite Hf.
  destruct f.
  - destruct (truthy (App.startFrameImage a)) eqn:Et; cbn [negb].
    + split; [intros D; discriminate D|]. intros _.
      unfold App.handleBackgroundUpdate_resume, App.clearArtboard.
      cbn [App.appState App.errorMessage App.loadingMessage App.uploadedImage
           App.startFrameImage App.endFrameImage App.generatedVideoUrl
           App.animationPrompt App.isGeneratingAiPrompt App.isBgEditorOpen
           App.editingFrame App.artboardRef].
      repeat split.
    + split; [intros _; split; reflexivity | intros D; discriminate D].
  - destruct (truthy (App.endFrameImage a)) eqn:Et; cbn [negb].
    + split; [intros D; discriminate D|]. intros _.
      unfold App.handleBackgroundUpdate_resume, App.clearArtboard.
      cbn [App.appState App.errorMessage App.loadingMessage App.uploadedImage
           App.startFrameImage App.endFrameImage App.generatedVideoUrl
           App.animationPrompt App.isGeneratingAiPrompt App.isBgEditorOpen
           App.editingFrame App.artboardRef].
      repeat split.
    + split; [intros _; split; reflexivity | intros D; discriminate D].
Qed.

Lemma X16_background_update_always_ends_image_ready_witness :
  let a := App.mkApp App.IDLE None "" (Some (Text "data:image/png;base64,HERO"))
             (Some (Text "data:image/png;base64,ONE")) None None "" false true
             (Some App.FrameStart) (Some (mount (Some fresh_canvas))) in
  let failed := App.updateBackground sample_decoder (fun s => s)
                  (App.ImageError "Failed to change the background. Please check the console for details.") a in
  App.appState failed = App.IMAGE_READY /\
  App.errorMessage failed
  = Some "Failed to change the background. Please check the console for details." /\
  App.startFrameImage failed = App.startFrameImage a.
Proof.
  intros a failed.
  destruct (@X16_background_update_always_ends_image_ready sample_decoder
              (fun s => s) a App.FrameStart
              "Failed to change the background. Please check the console for details."
              "image/png" "NEW" eq_refl) as [_ H].
  destruct (H eq_refl) as [(H1 & H2 & H3 & _) _].
  split; [exact H1|]. split; [|exact H3].
  eapply eq_trans; [exact H2 | vm_compute; reflexivity].
Defined.

(** X17. Start Over.  [handleReset] puts the application back at step 1
    with no images, no video and no prompt, and clears the Artboard: its
    history is the single blank snapshot with the cursor at 0.  The
    Artboard's stroke state is not part of the reset: a stroke that is being
    drawn stays active. *)
Theorem X17_reset_returns_to_step_one_and_clears_the_artboard
  (decodeText : string -> option (Z * Z)) (a : App.AppSt) (ab : State)
  (canvas : CanvasEl) (ctx : Context2D) :
  App.artboardRef a = Some ab ->
  canvasRef ab = Some canvas -> context2d canvas = Some ctx ->
  let b := App.handleReset decodeText a in
  App.getWorkflowStep b = "1. Upload Character" /\
  App.appState b = App.IDLE /\ App.errorMessage b = None /\
  App.uploadedImage b = None /\ App.startFrameImage b = None /\
  App.endFrameImage b = None /\ App.generatedVideoUrl b = None /\
  App.animationPrompt b = "" /\ App.isGenerateButtonDisabled b = true /\
  exists ab',
    App.artboardRef b = Some ab' /\
    history ab' = [blank_url (width canvas) (height canvas)] /\
    historyIndex ab' = 0 /\
    getImageData ab' = blank_url (width canvas) (height canvas) /\
    isDrawing ab' = isDrawing ab /\ lastPointRef ab' = lastPointRef ab.
Proof.
  intros Hab Hc Hx. cbv zeta.
  unfold App.handleReset, App.clearArtboard, App.getWorkflowStep,
    App.isGenerateButtonDisabled, App.isLoading.
  cbn [App.appState App.errorMessage App.loadingMessage App.uploadedImage
       App.startFrameImage App.endFrameImage App.generatedVideoUrl
       App.animationPrompt App.isGeneratingAiPrompt App.isBgEditorOpen
       App.editingFrame App.artboardRef].
  rewrite Hab. cbn [option_map truthy negb orb].
  repeat (split; [reflexivity|]).
  exists (step decodeText ab EvClear). split; [reflexivity|].
  rewrite (@clear_step decodeText ab canvas ctx Hc Hx).
  assert (Hw : fillRect_canvas (with_context (set_fillStyle "white") canvas)
               = mkCanvas (width canvas) (height canvas)
                   (Some (set_fillStyle "white" ctx)) (Filled "white")).
  { unfold fillRect_canvas, with_context. rewrite Hx. reflexivity. }
  rewrite Hw. repeat split.
Qed.

Lemma X17_reset_returns_to_step_one_and_clears_the_artboard_witness :
  let ab := run sample_decoder (mount (Some fresh_canvas))
              [EvMouseDown 10 10; EvMouseMove 20 20; EvMouseUp; EvMouseDown 30 30] in
  let a := App.mkApp App.IMAGE_READY None "" (Some (Text "data:image/png;base64,HERO"))
             (Some (Text "data:image/png;base64,ONE")) None None "" false false
             None (Some ab) in
  let b := App.handleReset sample_decoder a in
  App.getWorkflowStep b = "1. Upload Character" /\
  exists ab',
    App.artboardRef b = Some ab' /\ history ab' = [blank_url 512 256] /\
    isDrawing ab' = true.
Proof.
  intros ab a b.
  destruct (canvasRef ab) as [cv|] eqn:Hc; [|vm_compute in Hc; discriminate Hc].
  destruct (context2d cv) as [ctx|] eqn:Hx;
    [|vm_compute in Hc; inversion Hc; subst cv; discriminate Hx].
  destruct (@X17_reset_returns_to_step_one_and_clears_the_artboard
              sample_decoder a ab cv ctx eq_refl Hc Hx)
    as (H1 & _ & _ & _ & _ & _ & _ & _ & _ & ab' & E1 & E2 & _ & _ & E5 & _).
  split; [exact H1|]. exists ab'. split; [exact E1|].
  vm_compute in Hc. inversion Hc; subst cv.
  split; [exact E2|]. rewrite E5. vm_compute. reflexivity.
Defined.
